(** * mcp-atlassian, Jira compatibility core: a shallow embedding

    The development follows the Python sources module by module:

    - [HttpClient]  : [jira/http_client.py], the API v3 -> v2 path rewrite;
    - [Ssl]         : [utils/ssl.py], TLS and client-certificate setup;
    - [Config]      : [jira/config.py], resolution of the authentication type;
    - [Mappers]     : [jira/mappers.py], the Server 6.x field mappers;
    - [Client]      : [jira/client.py], cookie session and paged fetch;
    - [Comments]    : [jira/comments.py], the Markdown conversion fallback.

    Python dictionaries are objects: they live in a store and are named by
    references, so that copying, aliasing and in-place update are visible in
    the model.  Exceptions are values of an error type; code that keeps its
    state when it raises returns the state next to the error. *)

From Equations Require Import Equations.
From stdpp Require Import gmap strings list fin_maps.
From Stdlib Require Import Ascii String ZArith Lia.

Local Open Scope string_scope.

(** ** Exceptions *)

Inductive exn : Type :=
  | ValueError (msg : string)
  | TypeError (msg : string)
  | AttributeError (msg : string)
  | UnboundLocalError (name : string)
  | StopIteration
  | HTTPError (status_code : Z)
  | RequestException (msg : string)
  | MCPAtlassianAuthenticationError (msg : string)
  | Exception (msg : string).

Inductive result (A : Type) : Type :=
  | Ok (a : A)
  | Raise (e : exn).
Arguments Ok {A} a.
Arguments Raise {A} e.

Definition is_ok {A} (r : result A) : bool :=
  match r with Ok _ => true | Raise _ => false end.

(** ** [requests.Session], as far as the code configures it *)

Module Session.

Inductive adapter : Type :=
  | SSLIgnoreAdapter
  | APIv2Adapter (force_v2 : bool).

Inductive verify_setting : Type :=
  | VerifyDefault
  | VerifyCABundle (path : string).

Record session : Type := mkSession {
  cert : option (string * string);
  verify : verify_setting;
  adapters : list (string * adapter);
  cookies : gmap string string
}.

Definition new_session : session :=
  mkSession None VerifyDefault [] ∅.

Definition set_cert (c : string * string) (s : session) : session :=
  mkSession (Some c) (verify s) (adapters s) (cookies s).

Definition set_verify (v : verify_setting) (s : session) : session :=
  mkSession (cert s) v (adapters s) (cookies s).

(** [session.mount(prefix, adapter)]. *)
Definition mount (prefix : string) (a : adapter) (s : session) : session :=
  mkSession (cert s) (verify s) ((prefix, a) :: adapters s) (cookies s).

(** [session.cookies.set(name, value)]. *)
Definition set_cookie (name val : string) (s : session) : session :=
  mkSession (cert s) (verify s) (adapters s) (<[name := val]> (cookies s)).

End Session.

(** ** Byte strings as Python [str] *)

Module HttpClient.

(** [s.startswith(p)]. *)
Fixpoint startswith (p s : string) : bool :=
  match p with
  | EmptyString => true
  | String a p' =>
      match s with
      | EmptyString => false
      | String b s' => if Ascii.eqb a b then startswith p' s' else false
      end
  end.

(** [p in s] for strings: some suffix of [s] starts with [p]. *)
Fixpoint contains (p s : string) : bool :=
  startswith p s
  || match s with
     | EmptyString => false
     | String _ s' => contains p s'
     end.

(** [s[n:]]. *)
Fixpoint drop_str (n : nat) (s : string) : string :=
  match n, s with
  | O, _ => s
  | S _, EmptyString => EmptyString
  | S n', String _ s' => drop_str n' s'
  end.

Lemma drop_str_length n s : String.length (drop_str n s) <= String.length s.
Proof.
  revert s; induction n as [|n IH]; intros [|c s]; simpl; try lia.
  specialize (IH s); lia.
Qed.

(** [s.replace(old, new)] for a non-empty [old]: the scan goes left to
    right; at a match the replacement is emitted and the scan resumes
    after the matched text (its first character [c] and the
    [len(old) - 1] that follow), so matches never overlap.  The guard on
    the empty pattern keeps it out of the scan: the callers below only
    pass the constant [v3]. *)
Equations? str_replace (old new s : string) : string
  by wf (String.length s) lt :=
  str_replace old new EmptyString := EmptyString;
  str_replace old new (String c t) :=
    if startswith old (String c t) && negb (String.eqb old EmptyString)
    then new ++ str_replace old new (drop_str (Nat.pred (String.length old)) t)
    else String c (str_replace old new t).
Proof.
  - pose proof (drop_str_length (Nat.pred (String.length old)) t).
    simpl; lia.
  - simpl; lia.
Qed.

Definition v3 : string := "/rest/api/3/".
Definition v2 : string := "/rest/api/2/".

(** [normalize_api_path(url, force_v2)]. *)
Definition normalize_api_path (url : string) (force_v2 : bool) : string :=
  if force_v2 && contains v3 url
  then str_replace v3 v2 url
  else url.

(** [APIv2Adapter.send]: the URL that goes on the wire.  [request.url] may
    be [None]; an empty URL is falsy. *)
Definition APIv2Adapter_send (force_v2 : bool) (url : option string)
  : option string :=
  match url with
  | Some u =>
      if force_v2 && negb (String.eqb u "")
      then if contains v3 u then Some (str_replace v3 v2 u) else Some u
      else Some u
  | None => None
  end.

Section ConfigureApiVersion.
Import Session.
(** [urlparse(base_url)]: the scheme and the network location. *)
Variable urlparse : string -> string * string.

(** [configure_api_version(session, base_url, force_v2)]. *)
Definition configure_api_version (s : session) (base_url : string)
    (force_v2 : bool) : session :=
  if force_v2 then
    let parsed := urlparse base_url in
    let scheme := if String.eqb (fst parsed) "" then "https" else fst parsed in
    let domain := snd parsed in
    mount (scheme ++ "://" ++ domain) (APIv2Adapter true) s
  else s.
End ConfigureApiVersion.

(** Vocabulary for the statements about the rewrite.  Two occurrences of
    [v3] can only overlap by sharing a slash: the text after the leading
    slash of [v3] is [v3_tail], and [v3_twice] is two occurrences
    overlapped in that way. *)
Definition v3_tail : string := "rest/api/3/".
Definition v3_twice : string := v3 ++ v3_tail.

(** [pointwise s s']: [s'] is [s] with some characters ['3'] turned into
    ['2'] and nothing else changed. *)
Fixpoint pointwise (s s' : string) : Prop :=
  match s, s' with
  | EmptyString, EmptyString => True
  | String a t, String b t' =>
      (b = a \/ (a = "3"%char /\ b = "2"%char)) /\ pointwise t t'
  | _, _ => False
  end.

Fixpoint has_char (a : ascii) (w : string) : bool :=
  match w with
  | EmptyString => false
  | String b w' => Ascii.eqb a b || has_char a w'
  end.

End HttpClient.

(** ** [utils/ssl.py] *)

Module Ssl.
Import Session.

Section ConfigureSsl.
(** The process environment, the file system and the standard library:
    [os.getenv], [os.path.exists], [str.upper], [str.lower] and
    [urlparse(url).netloc]. *)
Variable getenv : string -> option string.
Variable path_exists : string -> bool.
Variable upper lower : string -> string.
Variable netloc : string -> string.

Definition str_in (x : string) (l : list string) : bool :=
  existsb (String.eqb x) l.

(** The second half of [configure_ssl_verification], from the check of
    the insecure flag on. *)
Definition configure_verification (service_name url : string)
    (ssl_verify : bool) (ca_file : option string) (s : session)
  : session :=
  let tls_insecure_env :=
    lower (default "false" (getenv (upper service_name ++ "_TLS_INSECURE"))) in
  let ssl_verify :=
    if str_in tls_insecure_env ["true"; "1"; "yes"] then false
    else ssl_verify in
  if negb ssl_verify then
    let domain := netloc url in
    mount ("http://" ++ domain) SSLIgnoreAdapter
      (mount ("https://" ++ domain) SSLIgnoreAdapter s)
  else
    match ca_file with
    | Some f =>
        if String.eqb f "" then s
        else if path_exists f then set_verify (VerifyCABundle f) s
        else s
    | None => s
    end.

(** [configure_ssl_verification].  The arguments typed [str | None] are
    options; the session is returned next to the outcome because it is
    configured in place. *)
Definition configure_ssl_verification (service_name url : string)
    (s : session) (ssl_verify : bool)
    (client_cert client_key client_key_password ca_file : option string)
  : result unit * session :=
  match client_cert, client_key with
  | Some c, Some k =>
      let encrypted :=
        match client_key_password with
        | Some pw => negb (String.eqb pw "")
        | None => false
        end in
      if encrypted then
        (Raise (ValueError
           (service_name ++ " client certificate authentication with encrypted private keys is not supported. Please decrypt your private key first (e.g., using 'openssl rsa -in encrypted.key -out decrypted.key').")),
         s)
      else
        (Ok tt,
         configure_verification service_name url ssl_verify ca_file
           (set_cert (c, k) s))
  | _, _ =>
      (Ok tt, configure_verification service_name url ssl_verify ca_file s)
  end.
End ConfigureSsl.

End Ssl.

(** ** [jira/config.py] *)

Module Config.

Inductive auth_type_t : Type := Basic | Pat | OAuth.
Inductive jira_mode_t : Type := Cloud | Server6x.
Inductive jira_auth_t : Type := AuthBasic | AuthCookie.

(** The two OAuth bundles of [utils/oauth.py], with the attributes that
    [JiraConfig] reads.  Both are plain objects: always truthy. *)
Inductive oauth_config_t : Type :=
  | OAuthConfig (client_id client_secret redirect_uri scope cloud_id : option string)
  | BYOAccessTokenOAuthConfig (cloud_id access_token : option string).

Definition oauth_cloud_id (o : oauth_config_t) : option string :=
  match o with
  | OAuthConfig _ _ _ _ c => c
  | BYOAccessTokenOAuthConfig c _ => c
  end.

Record JiraConfig : Type := mkJiraConfig {
  url : option string;
  auth_type : auth_type_t;
  username : option string;
  api_token : option string;
  personal_token : option string;
  oauth_config : option oauth_config_t;
  ssl_verify : bool;
  projects_filter : option string;
  http_proxy : option string;
  https_proxy : option string;
  no_proxy : option string;
  socks_proxy : option string;
  custom_headers : option (gmap string string);
  disable_jira_markup_translation : bool;
  client_cert : option string;
  client_key : option string;
  client_key_password : option string;
  jira_mode : jira_mode_t;
  jira_auth : jira_auth_t;
  jira_password : option string;
  jira_ca_file : option string
}.

(** [bool(s)] for [s : str | None]. *)
Definition truthy_str (s : option string) : bool :=
  match s with
  | Some x => negb (String.eqb x "")
  | None => false
  end.

(** [os.getenv(k, os.getenv(k'))]. *)
Definition getenv2 (env : gmap string string) (k k' : string) : option string :=
  match env !! k with
  | Some x => Some x
  | None => env !! k'
  end.

Section FromEnv.
(** Collaborators outside this module: [is_atlassian_cloud_url] of
    [utils/urls.py], [get_oauth_config_from_env] of [utils/oauth.py],
    [is_env_ssl_verify] and [get_custom_headers] of [utils/env.py], and
    [str.lower]. *)
Variable is_atlassian_cloud_url : option string -> bool.
Variable get_oauth_config_from_env : gmap string string -> option oauth_config_t.
Variable is_env_ssl_verify : gmap string string -> string -> bool.
Variable get_custom_headers : gmap string string -> string -> option (gmap string string).
Variable lower : string -> string.

(** The [is_cloud] property. *)
Definition is_cloud (c : JiraConfig) : bool :=
  match jira_mode c with
  | Server6x => false
  | Cloud =>
      match auth_type c, oauth_config c with
      | OAuth, Some o =>
          if truthy_str (oauth_cloud_id o) then true
          else if truthy_str (url c) then is_atlassian_cloud_url (url c)
          else false
      | _, _ =>
          if truthy_str (url c) then is_atlassian_cloud_url (url c)
          else false
      end
  end.

(** The choice of [auth_type] in [from_env] (lines 196-228).  The boolean
    tells whether the branch that assigns the local name [logger] was
    taken: [from_env] assigns [logger] in the branch for a personal token
    next to an OAuth bundle, which makes the name local to the whole
    function body. *)
Definition resolve_auth_type (is_cloud_url is_server_6x : bool)
    (username api_token personal_token jira_password : option string)
    (oauth : option oauth_config_t) : result (auth_type_t * bool) :=
  if is_cloud_url && negb is_server_6x then
    match oauth with
    | Some _ => Ok (OAuth, false)
    | None =>
        if truthy_str username && truthy_str api_token then Ok (Basic, false)
        else Raise (ValueError "Cloud authentication requires JIRA_USERNAME and JIRA_API_TOKEN, or OAuth configuration (set ATLASSIAN_OAUTH_ENABLE=true for user-provided tokens)")
    end
  else if is_server_6x then
    if truthy_str username
       && (truthy_str jira_password || truthy_str api_token)
    then Ok (Basic, false)
    else Raise (ValueError "Server 6.x authentication requires JIRA_USERNAME and JIRA_PASSWORD (or JIRA_API_TOKEN)")
  else if truthy_str personal_token then
    match oauth with
    | Some _ => Ok (Pat, true)
    | None => Ok (Pat, false)
    end
  else
    match oauth with
    | Some _ => Ok (OAuth, false)
    | None =>
        if truthy_str username && truthy_str api_token then Ok (Basic, false)
        else Raise (ValueError "Server/Data Center authentication requires JIRA_PERSONAL_TOKEN or JIRA_USERNAME and JIRA_API_TOKEN")
    end.

(** [logger.warning(...)] on the local name [logger]. *)
Definition warn_local (logger_bound : bool) : result unit :=
  if logger_bound then Ok tt else Raise (UnboundLocalError "logger").

(** [JiraConfig.from_env], on an environment [env]. *)
Definition from_env (env : gmap string string) : result JiraConfig :=
  let url := env !! "JIRA_URL" in
  if negb (truthy_str url) && negb (truthy_str (env !! "ATLASSIAN_OAUTH_ENABLE"))
  then Raise (ValueError "Missing required JIRA_URL environment variable")
  else
    let username := env !! "JIRA_USERNAME" in
    let api_token := env !! "JIRA_API_TOKEN" in
    let personal_token := env !! "JIRA_PERSONAL_TOKEN" in
    let jira_password := env !! "JIRA_PASSWORD" in
    let oauth := get_oauth_config_from_env env in
    let jira_mode_raw := lower (default "cloud" (env !! "JIRA_MODE")) in
    let is_server_6x := String.eqb jira_mode_raw "server_6x" in
    let is_cloud_url := is_atlassian_cloud_url url in
    match resolve_auth_type is_cloud_url is_server_6x username api_token
            personal_token jira_password oauth with
    | Raise e => Raise e
    | Ok (auth, logger_bound) =>
        let mode_r :=
          if String.eqb jira_mode_raw "cloud" then Ok Cloud
          else if String.eqb jira_mode_raw "server_6x" then Ok Server6x
          else match warn_local logger_bound with
               | Ok _ => Ok Cloud
               | Raise e => Raise e
               end in
        match mode_r with
        | Raise e => Raise e
        | Ok mode =>
            let jira_auth_raw := lower (default "basic" (env !! "JIRA_AUTH")) in
            let auth_r :=
              if String.eqb jira_auth_raw "basic" then Ok AuthBasic
              else if String.eqb jira_auth_raw "cookie" then Ok AuthCookie
              else match warn_local logger_bound with
                   | Ok _ => Ok AuthBasic
                   | Raise e => Raise e
                   end in
            match auth_r with
            | Raise e => Raise e
            | Ok jauth =>
                Ok (mkJiraConfig
                      url auth username api_token personal_token oauth
                      (is_env_ssl_verify env "JIRA_SSL_VERIFY")
                      (env !! "JIRA_PROJECTS_FILTER")
                      (getenv2 env "JIRA_HTTP_PROXY" "HTTP_PROXY")
                      (getenv2 env "JIRA_HTTPS_PROXY" "HTTPS_PROXY")
                      (getenv2 env "JIRA_NO_PROXY" "NO_PROXY")
                      (getenv2 env "JIRA_SOCKS_PROXY" "SOCKS_PROXY")
                      (get_custom_headers env "JIRA_CUSTOM_HEADERS")
                      (String.eqb
                         (lower (default "false" (env !! "DISABLE_JIRA_MARKUP_TRANSLATION")))
                         "true")
                      (env !! "JIRA_CLIENT_CERT")
                      (env !! "JIRA_CLIENT_KEY")
                      (env !! "JIRA_CLIENT_KEY_PASSWORD")
                      mode jauth jira_password
                      (env !! "JIRA_CA_FILE"))
            end
        end
    end.
End FromEnv.

End Config.

(** ** Python objects: values and the store of dictionaries *)

Module Store.

Abbreviation loc := nat.

(** JSON-like Python values.  A dictionary is an object: the value is a
    reference into the store.  Lists are never updated by the code
    modelled here and are kept as immutable values. *)
#[local] Unset Elimination Schemes.
Inductive value : Type :=
  | VNone
  | VBool (b : bool)
  | VNum (n : Z)
  | VStr (s : string)
  | VList (items : list value)
  | VRef (l : loc).
#[local] Set Elimination Schemes.

Abbreviation dict := (gmap string value).
Abbreviation heap := (list (gmap string value)).

(** [bool(v)]. *)
Definition truthy (h : heap) (v : value) : bool :=
  match v with
  | VNone => false
  | VBool b => b
  | VNum n => negb (Z.eqb n 0)
  | VStr s => negb (String.eqb s "")
  | VList items => match items with [] => false | _ => true end
  | VRef l =>
      match h !! l with
      | Some d => negb (Nat.eqb (size d) 0)
      | None => false
      end
  end.

(** A new dictionary object with contents [d]. *)
Definition alloc (h : heap) (d : dict) : loc * heap :=
  (List.length h, (h ++ [d])%list).

(** [obj[k] = v] on the dictionary at [l]: an update in place. *)
Definition dict_set (h : heap) (l : loc) (k : string) (v : value) : heap :=
  alter (insert k v) l h.

(** [k in obj] and [obj[k]] on the dictionary at [l]. *)
Definition dict_get (h : heap) (l : loc) (k : string) : option value :=
  match h !! l with
  | Some d => d !! k
  | None => None
  end.

(** [isinstance(v, dict)]. *)
Definition is_dict (v : value) : bool :=
  match v with VRef _ => true | _ => false end.

(** Every reference held by [d] names an object of [h]. *)
Definition closed_dict (h : heap) (d : dict) : Prop :=
  forall k x, d !! k = Some (VRef x) -> x < List.length h.

(** ["k" in items] for a list: some item is the string [k]. *)
Definition list_has_str (k : string) (items : list value) : bool :=
  existsb (fun v => match v with VStr s => String.eqb s k | _ => false end)
          items.

End Store.

(** ** [jira/mappers.py] *)

Module Mappers.
Import Store.

(** [normalized["accountId"] = normalized[k]] when [k] is present with a
    truthy value; the boolean tells whether the branch was taken. *)
Definition fallback_account_id (h : heap) (n : loc) (k : string)
  : option heap :=
  match dict_get h n k with
  | Some v => if truthy h v then Some (dict_set h n "accountId" v) else None
  | None => None
  end.

(** The first block of [normalize_user_response], on the copy [n]:
    [if "accountId" not in normalized or normalized["accountId"] is None:]
    try [name], then [key]. *)
Definition fill_account_id (h : heap) (n : loc) : heap :=
  match dict_get h n "accountId" with
  | None | Some VNone =>
      match fallback_account_id h n "name" with
      | Some h' => h'
      | None =>
          match fallback_account_id h n "key" with
          | Some h' => h'
          | None => h
          end
      end
  | Some _ => h
  end.

(** The second block:
    [if "emailAddress" not in normalized: normalized["emailAddress"] = None]. *)
Definition fill_email_address (h : heap) (n : loc) : heap :=
  match dict_get h n "emailAddress" with
  | None => dict_set h n "emailAddress" VNone
  | Some _ => h
  end.

(** [UserFieldMapper.normalize_user_response]. *)
Definition normalize_user_response (data : value) (h : heap)
  : result value * heap :=
  if negb (truthy h data) then (Ok data, h)
  else
    match data with
    | VRef l =>
        match h !! l with
        | Some d =>
            (* normalized = data.copy() *)
            let '(n, h1) := alloc h d in
            (Ok (VRef n), fill_email_address (fill_account_id h1 n) n)
        | None => (Ok data, h)
        end
    | VList items =>
        (* a list has [copy] and [in]; the first subscript or assignment
           with a string raises, and none is reached when the list holds
           ["emailAddress"] and none of the three identity keys *)
        if list_has_str "accountId" items
           || list_has_str "name" items
           || list_has_str "key" items
           || negb (list_has_str "emailAddress" items)
        then (Raise (TypeError "list indices must be integers or slices, not str"), h)
        else (Ok data, h)
    | _ => (Raise (AttributeError "object has no attribute 'copy'"), h)
    end.

(** One of the three user slots of [fields]:
    [if k in fields and isinstance(fields[k], dict):
       fields[k] = normalize_user_response(fields[k])]. *)
Definition normalize_user_slot (k : string) (f : loc) (h : heap)
  : result unit * heap :=
  match dict_get h f k with
  | Some (VRef u) =>
      match normalize_user_response (VRef u) h with
      | (Ok v, h') => (Ok tt, dict_set h' f k v)
      | (Raise e, h') => (Raise e, h')
      end
  | _ => (Ok tt, h)
  end.

(** [IssueFieldMapper.normalize_issue_response]. *)
Definition normalize_issue_response (data : value) (h : heap)
  : result value * heap :=
  if negb (truthy h data) then (Ok data, h)
  else
    match data with
    | VRef l =>
        match h !! l with
        | Some d =>
            let '(n, h1) := alloc h d in
            match dict_get h1 n "fields" with
            | Some (VRef fl) =>
                match h1 !! fl with
                | Some fd =>
                    (* fields = normalized["fields"].copy() *)
                    let '(f, h2) := alloc h1 fd in
                    match normalize_user_slot "assignee" f h2 with
                    | (Raise e, h3) => (Raise e, h3)
                    | (Ok _, h3) =>
                        match normalize_user_slot "reporter" f h3 with
                        | (Raise e, h4) => (Raise e, h4)
                        | (Ok _, h4) =>
                            match normalize_user_slot "creator" f h4 with
                            | (Raise e, h5) => (Raise e, h5)
                            | (Ok _, h5) =>
                                (Ok (VRef n), dict_set h5 n "fields" (VRef f))
                            end
                        end
                    end
                | None => (Ok (VRef n), h1)
                end
            | _ => (Ok (VRef n), h1)
            end
        | None => (Ok data, h)
        end
    | VList items =>
        if list_has_str "fields" items
        then (Raise (TypeError "list indices must be integers or slices, not str"), h)
        else (Ok data, h)
    | _ => (Raise (AttributeError "object has no attribute 'copy'"), h)
    end.

(** [CommentFieldMapper.normalize_comment_response]. *)
Definition normalize_comment_response (data : value) (h : heap)
  : result value * heap :=
  if negb (truthy h data) then (Ok data, h)
  else
    match data with
    | VRef l =>
        match h !! l with
        | Some d =>
            let '(n, h1) := alloc h d in
            match normalize_user_slot "author" n h1 with
            | (Raise e, h2) => (Raise e, h2)
            | (Ok _, h2) =>
                match normalize_user_slot "updateAuthor" n h2 with
                | (Raise e, h3) => (Raise e, h3)
                | (Ok _, h3) => (Ok (VRef n), h3)
                end
            end
        | None => (Ok data, h)
        end
    | VList items =>
        if list_has_str "author" items
        then (Raise (TypeError "list indices must be integers or slices, not str"), h)
        else if list_has_str "updateAuthor" items
        then (Raise (TypeError "list indices must be integers or slices, not str"), h)
        else (Ok data, h)
    | _ => (Raise (AttributeError "object has no attribute 'copy'"), h)
    end.

(** Vocabulary for the statements about the user mapper: the entry of
    [d] under [k] when it is present with a truthy value, and the identity
    that the fallback chain [name], [key] selects, the entry under
    [accountId] being kept when neither applies. *)
Definition truthy_entry (h : heap) (d : dict) (k : string) : option value :=
  match d !! k with
  | Some v => if truthy h v then Some v else None
  | None => None
  end.

Definition expected_account_id (h : heap) (d : dict) : option value :=
  match truthy_entry h d "name" with
  | Some v => Some v
  | None =>
      match truthy_entry h d "key" with
      | Some v => Some v
      | None => d !! "accountId"
      end
  end.

Definition user_slots : list string := ["assignee"; "reporter"; "creator"].

(** The object [m] of the store [h'] has the contents that the user mapper
    gives to the user [ud], read in the store [h]: the account id by the
    fallback chain, [emailAddress] always there, every other key as in
    [ud]. *)
Definition normalized_user (h h' : heap) (ud : dict) (m : loc) : Prop :=
  dict_get h' m "accountId"
  = match ud !! "accountId" with
    | None | Some VNone => expected_account_id h ud
    | Some v => Some v
    end
  /\ dict_get h' m "emailAddress" = Some (default VNone (ud !! "emailAddress"))
  /\ (forall k, k <> "accountId" -> k <> "emailAddress" ->
                dict_get h' m k = ud !! k).

(** An entry after the user mapper was applied to it in the store [h]:
    a dictionary is replaced by what [normalize_user_response] returns
    for it, anything else stays. *)
Definition mapped_entry (h : heap) (o : option value) : option value :=
  match o with
  | Some (VRef u) =>
      match fst (normalize_user_response (VRef u) h) with
      | Ok v => Some v
      | Raise _ => o
      end
  | _ => o
  end.

End Mappers.

(** ** [jira/client.py] *)

Module Client.
Import Store Session Config.

Inductive http_method : Type := GET | POST.

(** What the collaborators answer.  [requests.post] and [requests.delete]
    on the session endpoint answer with a response or raise; the calls on
    [self.jira] answer with a freshly decoded JSON object, with any other
    value (an object that already exists included), or raise. *)
Inductive post_reply : Type :=
  | PostResponse (status_code : Z) (cookies : gmap string string) (text : string)
  | PostRaises (e : exn).

Inductive delete_reply : Type :=
  | DeleteResponse (status_code : Z)
  | DeleteRaises (e : exn).

Inductive reply : Type :=
  | ReplyFresh (d : dict)
  | ReplyValue (v : value)
  | ReplyRaises (e : exn).

(** The calls that leave the client, in the order they are made. *)
Inductive event : Type :=
  | EvSessionPost (url username password : string)
  | EvSessionDelete (url jsessionid : string)
  | EvMyself
  | EvRequest (m : http_method) (path : string) (data : dict) (absolute : bool)
  | EvIssueAddComment (issue_key body : string) (visibility : option loc)
  | EvIssueEditComment (issue_key comment_id body : string) (visibility : option loc).

(** The client and its surroundings: the store of dictionaries, the
    attribute [_cookie_session], the session [jira._session], the calls
    made so far, and the answers the collaborators will give, in order. *)
Record world : Type := mkWorld {
  store : heap;
  cookie_session : option string;
  http_session : session;
  trace : list event;
  post_replies : list post_reply;
  delete_replies : list delete_reply;
  api_replies : list reply
}.

Definition M (A : Type) : Type := world -> result A * world.

Definition set_store (h : heap) (w : world) : world :=
  mkWorld h (cookie_session w) (http_session w) (trace w)
          (post_replies w) (delete_replies w) (api_replies w).

Definition set_cookie_session (c : option string) (w : world) : world :=
  mkWorld (store w) c (http_session w) (trace w)
          (post_replies w) (delete_replies w) (api_replies w).

Definition set_http_session (s : session) (w : world) : world :=
  mkWorld (store w) (cookie_session w) s (trace w)
          (post_replies w) (delete_replies w) (api_replies w).

Definition log (e : event) (w : world) : world :=
  mkWorld (store w) (cookie_session w) (http_session w) (trace w ++ [e])%list
          (post_replies w) (delete_replies w) (api_replies w).

Definition set_post_replies (l : list post_reply) (w : world) : world :=
  mkWorld (store w) (cookie_session w) (http_session w) (trace w)
          l (delete_replies w) (api_replies w).

Definition set_delete_replies (l : list delete_reply) (w : world) : world :=
  mkWorld (store w) (cookie_session w) (http_session w) (trace w)
          (post_replies w) l (api_replies w).

Definition set_api_replies (l : list reply) (w : world) : world :=
  mkWorld (store w) (cookie_session w) (http_session w) (trace w)
          (post_replies w) (delete_replies w) l.

(** [isinstance(e, requests.exceptions.RequestException)]; [HTTPError] is
    one of its subclasses. *)
Definition is_request_exception (e : exn) : bool :=
  match e with
  | RequestException _ | HTTPError _ => true
  | _ => false
  end.

(** [requests.post(session_url, json=payload, ...)]: the call is recorded
    and the next scripted answer is taken; a script that has run out raises
    [StopIteration], as a test double does. *)
Definition requests_post (url username password : string) (w : world)
  : post_reply * world :=
  let w1 := log (EvSessionPost url username password) w in
  match post_replies w1 with
  | r :: rest => (r, set_post_replies rest w1)
  | [] => (PostRaises StopIteration, w1)
  end.

Definition requests_delete (url jsessionid : string) (w : world)
  : delete_reply * world :=
  let w1 := log (EvSessionDelete url jsessionid) w in
  match delete_replies w1 with
  | r :: rest => (r, set_delete_replies rest w1)
  | [] => (DeleteRaises StopIteration, w1)
  end.

(** The value a call on [self.jira] evaluates to, given its answer. *)
Definition receive (r : reply) (w : world) : result value * world :=
  match r with
  | ReplyFresh d =>
      let '(l, h) := alloc (store w) d in (Ok (VRef l), set_store h w)
  | ReplyValue v => (Ok v, w)
  | ReplyRaises e => (Raise e, w)
  end.

(** A call on [self.jira]. *)
Definition jira_call (e : event) : M value := fun w =>
  let w1 := log e w in
  match api_replies w1 with
  | r :: rest => receive r (set_api_replies rest w1)
  | [] => (Raise StopIteration, w1)
  end.

Definition session_url (c : JiraConfig) : string :=
  default "None" (url c) ++ "/rest/auth/1/session".

(** [_establish_cookie_session]. *)
Definition _establish_cookie_session (c : JiraConfig) : M unit := fun w =>
  if negb (truthy_str (username c)) || negb (truthy_str (jira_password c))
  then (Raise (ValueError "Username and password required for cookie-based authentication"), w)
  else
    let '(r, w1) :=
      requests_post (session_url c) (default "" (username c))
                    (default "" (jira_password c)) w in
    match r with
    | PostResponse status cookies text =>
        if Z.eqb status 200 then
          match cookies !! "JSESSIONID" with
          | Some tok =>
              (Ok tt,
               set_http_session (set_cookie "JSESSIONID" tok (http_session w1))
                 (set_cookie_session (Some tok) w1))
          | None => (Ok tt, w1)
          end
        else
          (* raised inside the [try], caught by [except Exception] and
             raised again under the same class *)
          (Raise (MCPAtlassianAuthenticationError
                    "Unexpected error establishing cookie session"), w1)
    | PostRaises e =>
        if is_request_exception e
        then (Raise (MCPAtlassianAuthenticationError
                       "Network error establishing cookie session"), w1)
        else (Raise (MCPAtlassianAuthenticationError
                       "Unexpected error establishing cookie session"), w1)
    end.

Definition cookie_auth (c : JiraConfig) : bool :=
  match jira_auth c with AuthCookie => true | AuthBasic => false end.

(** [_refresh_cookie_session]: the handler logs and raises again. *)
Definition _refresh_cookie_session (c : JiraConfig) : M unit := fun w =>
  if truthy_str (cookie_session w) && cookie_auth c
  then
    match _establish_cookie_session c w with
    | (Ok u, w1) => (Ok u, w1)
    | (Raise e, w1) => (Raise e, w1)
    end
  else (Ok tt, w).

(** [_logout]. *)
Definition _logout (c : JiraConfig) : M unit := fun w =>
  if truthy_str (cookie_session w) && cookie_auth c
  then
    let '(r, w1) :=
      requests_delete (session_url c) (default "" (cookie_session w)) w in
    match r with
    | DeleteResponse _ => (Ok tt, set_cookie_session None w1)
    | DeleteRaises _ => (Ok tt, w1)
    end
  else (Ok tt, w).

Definition is_401 (e : exn) : bool :=
  match e with
  | HTTPError status => Z.eqb status 401
  | _ => false
  end.

Definition auth_failed : exn :=
  MCPAtlassianAuthenticationError "Jira authentication validation failed".

(** [_validate_authentication]. *)
Definition _validate_authentication (c : JiraConfig) : M unit := fun w =>
  let '(r, w1) := jira_call EvMyself w in
  let first : result unit :=
    match r with
    | Ok current_user =>
        if truthy (store w1) current_user then
          (* current_user.get('displayName', 'Unknown') *)
          if is_dict current_user then Ok tt
          else Raise (AttributeError "object has no attribute 'get'")
        else Ok tt
    | Raise e => Raise e
    end in
  match first with
  | Ok _ => (Ok tt, w1)
  | Raise e =>
      if is_401 e && cookie_auth c then
        match _refresh_cookie_session c w1 with
        | (Ok _, w2) =>
            match jira_call EvMyself w2 with
            | (Ok current_user, w3) =>
                if truthy (store w3) current_user then (Ok tt, w3)
                else (Raise auth_failed, w3)
            | (Raise _, w3) => (Raise auth_failed, w3)
            end
        | (Raise _, w2) => (Raise auth_failed, w2)
        end
      else (Raise auth_failed, w1)
  end.

Section WithUrls.
Variable is_atlassian_cloud_url : option string -> bool.

(** The body of the [while True] loop of [get_paged], once per scripted
    answer.  [current_data] is the dictionary sent with every request;
    the request records its contents at the time of the call. *)
Fixpoint get_paged_loop (replies : list reply) (method : http_method)
    (url : string) (absolute : bool) (current_data : loc)
    (all_results : list value) (w : world) : result (list value) * world :=
  let w1 :=
    log (EvRequest method url (default ∅ (store w !! current_data)) absolute) w in
  match replies with
  | [] => (Raise StopIteration, set_api_replies [] w1)
  | r :: rest =>
      match receive r (set_api_replies rest w1) with
      | (Raise e, w2) => (Raise e, w2)
      | (Ok api_result, w2) =>
          match api_result with
          | VRef l =>
              let all_results := (all_results ++ [api_result])%list in
              match dict_get (store w2) l "nextPageToken" with
              | None => (Ok all_results, w2)
              | Some tok =>
                  get_paged_loop rest method url absolute current_data
                    all_results
                    (set_store
                       (dict_set (store w2) current_data "nextPageToken" tok)
                       w2)
              end
          | _ => (Raise (ValueError "API result is not a dictionary"), w2)
          end
      end
  end.

(** [get_paged].  [params_or_json or {}] is the caller's dictionary when
    that is truthy, and a new empty dictionary otherwise. *)
Definition get_paged (c : JiraConfig) (method : http_method) (url : string)
    (params_or_json : option loc) (absolute : bool) : M (list value) :=
  fun w =>
    if negb (is_cloud is_atlassian_cloud_url c)
    then (Raise (ValueError "Paged requests are only available for Jira Cloud platform"), w)
    else
      let '(current_data, w1) :=
        match params_or_json with
        | Some l =>
            if truthy (store w) (VRef l) then (l, w)
            else let '(l', h) := alloc (store w) ∅ in (l', set_store h w)
        | None => let '(l', h) := alloc (store w) ∅ in (l', set_store h w)
        end in
      get_paged_loop (api_replies w1) method url absolute current_data [] w1.
End WithUrls.

(** Vocabulary for the statements about the trace. *)
Definition is_session_post (e : event) : bool :=
  match e with EvSessionPost _ _ _ => true | _ => false end.

(** The pagination contract in the words of the specification: every
    iteration issues one request with the current parameter set, and the
    continuation token of a page, when it has one, is copied into the
    parameter set for the next iteration. *)
Definition next_params (data page : dict) : dict :=
  match page !! "nextPageToken" with
  | Some tok => <["nextPageToken" := tok]> data
  | None => data
  end.

Fixpoint expected_requests (method : http_method) (url : string)
    (absolute : bool) (data : dict) (pages : list dict) : list event :=
  match pages with
  | [] => []
  | page :: rest =>
      EvRequest method url data absolute
      :: expected_requests method url absolute (next_params data page) rest
  end.

(** The world in which [get_paged] runs when [params_or_json] is falsy:
    one more object, the new empty dictionary. *)
Definition fresh_params (w : world) : world :=
  set_store (store w ++ [∅])%list w.

Definition has_token (page : dict) : Prop :=
  is_Some (page !! "nextPageToken").

(** [v] is one of the new objects of the store [h], with contents [d]. *)
Definition page_at (h : heap) (v : value) (d : dict) : Prop :=
  exists l, v = VRef l /\ h !! l = Some d.

Definition insert_if_truthy (k : string) (v : option string) (d : dict) : dict :=
  if truthy_str v then <[k := VStr (default "" v)]> d else d.

(** [create_version]. *)
Definition create_version (project name : string)
    (start_date release_date description : option string) : M value :=
  fun w =>
    let payload : dict :=
      insert_if_truthy "description" description
        (insert_if_truthy "releaseDate" release_date
           (insert_if_truthy "startDate" start_date
              (<["name" := VStr name]> (<["project" := VStr project]> ∅)))) in
    match jira_call (EvRequest POST "/rest/api/3/version" payload false) w with
    | (Raise e, w1) => (Raise e, w1)
    | (Ok res, w1) =>
        if is_dict res then (Ok res, w1)
        else (Raise (ValueError "Unexpected response from Jira API"), w1)
    end.

End Client.

(** ** [jira/comments.py] *)

Module Comments.
Import Store Config Client.

Section WithPreprocessor.
(** The text preprocessor and the date parser are collaborators:
    [preprocessor.markdown_to_jira], [preprocessor.clean_jira_text] and
    [str(parse_date(_))]. *)
Variable markdown_to_jira : string -> result string.
Variable clean_jira_text : value -> result value.
Variable parse_date_str : value -> result value.

(** [CommentsMixin._markdown_to_jira]. *)
Definition _markdown_to_jira (markdown_text : string) : string :=
  if String.eqb markdown_text "" then ""
  else
    match markdown_to_jira markdown_text with
    | Ok converted => converted
    | Raise _ => markdown_text
    end.

(** [JiraClient._clean_text]. *)
Definition _clean_text (h : heap) (text : value) : result value :=
  if negb (truthy h text) then Ok (VStr "") else clean_jira_text text.

(** [d.get(k)] and [a or b]. *)
Definition get_or_none (h : heap) (l : loc) (k : string) : value :=
  default VNone (dict_get h l k).

Definition py_or (h : heap) (a b : value) : value :=
  if truthy h a then a else b.

(** [result.get("author", {})], then the chain of names. *)
Definition author_name (h : heap) (res : loc) : result value :=
  match dict_get h res "author" with
  | None => Ok (VStr "Unknown")
  | Some (VRef a) =>
      Ok (py_or h (get_or_none h a "displayName")
            (py_or h (get_or_none h a "name")
               (py_or h (get_or_none h a "accountId") (VStr "Unknown"))))
  | Some _ => Raise (AttributeError "object has no attribute 'get'")
  end.

Definition server_6x (c : JiraConfig) : bool :=
  match jira_mode c with Server6x => true | Cloud => false end.

(** The body of the [try] of [add_comment]. *)
Definition add_comment_body (c : JiraConfig) (issue_key comment : string)
    (visibility : option loc) : M value := fun w =>
  let jira_formatted_comment := _markdown_to_jira comment in
  match jira_call (EvIssueAddComment issue_key jira_formatted_comment visibility) w with
  | (Raise e, w1) => (Raise e, w1)
  | (Ok (VRef r0), w1) =>
      let '(nr, h2) :=
        if server_6x c
        then Mappers.normalize_comment_response (VRef r0) (store w1)
        else (Ok (VRef r0), store w1) in
      let w2 := set_store h2 w1 in
      match nr with
      | Ok (VRef r) =>
          match author_name h2 r with
          | Raise e => (Raise e, w2)
          | Ok author =>
              match _clean_text h2 (default (VStr "") (dict_get h2 r "body")) with
              | Raise e => (Raise e, w2)
              | Ok body =>
                  match parse_date_str (get_or_none h2 r "created") with
                  | Raise e => (Raise e, w2)
                  | Ok created =>
                      let '(l, h3) :=
                        alloc h2
                          (<["author" := author]>
                             (<["created" := created]>
                                (<["body" := body]>
                                   (<["id" := get_or_none h2 r "id"]> ∅)))) in
                      (Ok (VRef l), set_store h3 w2)
                  end
              end
          end
      | Ok _ => (Raise (AttributeError "object has no attribute 'get'"), w2)
      | Raise e => (Raise e, w2)
      end
  | (Ok _, w1) =>
      (Raise (TypeError "Unexpected return value type from `jira.issue_add_comment`"), w1)
  end.

(** [add_comment]: any exception of the body is raised again as a plain
    [Exception]. *)
Definition add_comment (c : JiraConfig) (issue_key comment : string)
    (visibility : option loc) : M value := fun w =>
  match add_comment_body c issue_key comment visibility w with
  | (Ok v, w1) => (Ok v, w1)
  | (Raise _, w1) => (Raise (Exception "Error adding comment"), w1)
  end.

(** [result.get("author", {}).get("displayName", "Unknown")]. *)
Definition author_display_name (h : heap) (res : loc) : result value :=
  match dict_get h res "author" with
  | None => Ok (VStr "Unknown")
  | Some (VRef a) => Ok (default (VStr "Unknown") (dict_get h a "displayName"))
  | Some _ => Raise (AttributeError "object has no attribute 'get'")
  end.

(** The body of the [try] of [edit_comment]. *)
Definition edit_comment_body (issue_key comment_id comment : string)
    (visibility : option loc) : M value := fun w =>
  let jira_formatted_comment := _markdown_to_jira comment in
  match jira_call (EvIssueEditComment issue_key comment_id
                     jira_formatted_comment visibility) w with
  | (Raise e, w1) => (Raise e, w1)
  | (Ok (VRef r), w1) =>
      let h := store w1 in
      match _clean_text h (default (VStr "") (dict_get h r "body")) with
      | Raise e => (Raise e, w1)
      | Ok body =>
          match parse_date_str (get_or_none h r "updated") with
          | Raise e => (Raise e, w1)
          | Ok updated =>
              match author_display_name h r with
              | Raise e => (Raise e, w1)
              | Ok author =>
                  let '(l, h') :=
                    alloc h
                      (<["author" := author]>
                         (<["updated" := updated]>
                            (<["body" := body]>
                               (<["id" := get_or_none h r "id"]> ∅)))) in
                  (Ok (VRef l), set_store h' w1)
              end
          end
      end
  | (Ok _, w1) =>
      (Raise (TypeError "Unexpected return value type from `jira.issue_edit_comment`"), w1)
  end.

Definition edit_comment (issue_key comment_id comment : string)
    (visibility : option loc) : M value := fun w =>
  match edit_comment_body issue_key comment_id comment visibility w with
  | (Ok v, w1) => (Ok v, w1)
  | (Raise _, w1) => (Raise (Exception "Error editing comment"), w1)
  end.
End WithPreprocessor.

End Comments.

(** ** [jira/mappers.py], the request direction and the list mapper *)

Module MappersRequest.
Import Store Mappers.

(** [del obj[k]] on the dictionary at [l]. *)
Definition dict_del (h : heap) (l : loc) (k : string) : heap :=
  alter (delete k) l h.

(** The block of [normalize_user_request] on the copy [n]:
    [if "accountId" in normalized:
       normalized["name"] = normalized["accountId"]
       del normalized["accountId"]]. *)
Definition rename_account_id (h : heap) (n : loc) : heap :=
  match dict_get h n "accountId" with
  | Some v => dict_del (dict_set h n "name" v) n "accountId"
  | None => h
  end.

(** [UserFieldMapper.normalize_user_request]. *)
Definition normalize_user_request (data : value) (is_server_6x : bool)
    (h : heap) : result value * heap :=
  if negb (truthy h data) then (Ok data, h)
  else if negb is_server_6x then (Ok data, h)
  else
    match data with
    | VRef l =>
        match h !! l with
        | Some d =>
            let '(n, h1) := alloc h d in
            (Ok (VRef n), rename_account_id h1 n)
        | None => (Ok data, h)
        end
    | VList items =>
        if list_has_str "accountId" items
        then (Raise (TypeError "list indices must be integers or slices, not str"), h)
        else (Ok data, h)
    | _ => (Raise (AttributeError "object has no attribute 'copy'"), h)
    end.

(** One of the two user slots of [fields] in [normalize_issue_request]:
    [if k in fields and isinstance(fields[k], dict):
       fields[k] = normalize_user_request(fields[k], is_server_6x=True)]. *)
Definition normalize_request_slot (k : string) (f : loc) (h : heap)
  : result unit * heap :=
  match dict_get h f k with
  | Some (VRef u) =>
      match normalize_user_request (VRef u) true h with
      | (Ok v, h') => (Ok tt, dict_set h' f k v)
      | (Raise e, h') => (Raise e, h')
      end
  | _ => (Ok tt, h)
  end.

(** [IssueFieldMapper.normalize_issue_request]. *)
Definition normalize_issue_request (data : value) (is_server_6x : bool)
    (h : heap) : result value * heap :=
  if negb (truthy h data) then (Ok data, h)
  else if negb is_server_6x then (Ok data, h)
  else
    match data with
    | VRef l =>
        match h !! l with
        | Some d =>
            let '(n, h1) := alloc h d in
            match dict_get h1 n "fields" with
            | Some (VRef fl) =>
                match h1 !! fl with
                | Some fd =>
                    let '(f, h2) := alloc h1 fd in
                    match normalize_request_slot "assignee" f h2 with
                    | (Raise e, h3) => (Raise e, h3)
                    | (Ok _, h3) =>
                        match normalize_request_slot "reporter" f h3 with
                        | (Raise e, h4) => (Raise e, h4)
                        | (Ok _, h4) =>
                            (Ok (VRef n), dict_set h4 n "fields" (VRef f))
                        end
                    end
                | None => (Ok (VRef n), h1)
                end
            | _ => (Ok (VRef n), h1)
            end
        | None => (Ok data, h)
        end
    | VList items =>
        if list_has_str "fields" items
        then (Raise (TypeError "list indices must be integers or slices, not str"), h)
        else (Ok data, h)
    | _ => (Raise (AttributeError "object has no attribute 'copy'"), h)
    end.

(** [CommentFieldMapper.normalize_comments_list]: the comprehension maps the
    comment mapper over the list, in order; the first exception ends it. *)
Fixpoint normalize_comments_list (comments : list value) (h : heap)
  : result (list value) * heap :=
  match comments with
  | [] => (Ok [], h)
  | comment :: rest =>
      match normalize_comment_response comment h with
      | (Raise e, h1) => (Raise e, h1)
      | (Ok v, h1) =>
          match normalize_comments_list rest h1 with
          | (Raise e, h2) => (Raise e, h2)
          | (Ok vs, h2) => (Ok (v :: vs), h2)
          end
      end
  end.

End MappersRequest.

(** ** [jira/config.py], the completeness check and the SLA settings *)

Module ConfigCheck.
Import Config.

(** [JiraConfig.is_auth_configured]. *)
Definition is_auth_configured (c : JiraConfig) : bool :=
  match auth_type c with
  | OAuth =>
      match oauth_config c with
      | Some (OAuthConfig client_id client_secret redirect_uri scope cloud_id) =>
          if truthy_str client_id && truthy_str client_secret
             && truthy_str redirect_uri && truthy_str scope
             && truthy_str cloud_id
          then true
          else if negb (truthy_str client_id) && negb (truthy_str client_secret)
          then true
          else false
      | Some (BYOAccessTokenOAuthConfig cloud_id access_token) =>
          if truthy_str cloud_id && truthy_str access_token then true
          else false
      | None => false
      end
  | Pat => truthy_str (personal_token c)
  | Basic =>
      match jira_mode c with
      | Server6x =>
          truthy_str (username c)
          && (truthy_str (api_token c) || truthy_str (jira_password c))
      | Cloud => truthy_str (username c) && truthy_str (api_token c)
      end
  end.

Record SLAConfig : Type := mkSLAConfig {
  default_metrics : list string;
  working_hours_only : bool;
  working_hours_start : string;
  working_hours_end : string;
  working_days : option (list Z);
  timezone : string
}.

(** [d < 1 or d > 7]. *)
Definition invalid_day (d : Z) : bool := (d <? 1)%Z || (7 <? d)%Z.

(** [SLAConfig.__post_init__]: what the constructor leaves in the object, or
    the [ValueError] it raises. *)
Definition SLAConfig_post_init (c : SLAConfig) : result SLAConfig :=
  match working_days c with
  | None =>
      Ok (mkSLAConfig (default_metrics c) (working_hours_only c)
            (working_hours_start c) (working_hours_end c)
            (Some [1; 2; 3; 4; 5]%Z) (timezone c))
  | Some days =>
      match List.filter invalid_day days with
      | [] => Ok c
      | _ :: _ => Raise (ValueError "Invalid working days. Must be 1-7 (Mon-Sun)")
      end
  end.

End ConfigCheck.

(** ** [jira/comments.py], the read operations *)

Module CommentsRead.
Import Store Config Client Comments.

(** [l[:limit]] on a list. *)
Definition slice_to {A} (limit : Z) (l : list A) : list A :=
  if (0 <=? limit)%Z then take (Z.to_nat limit) l
  else take (List.length l - Z.to_nat (- limit)) l.

Section WithPreprocessor.
Variable clean_jira_text : value -> result value.
Variable parse_date_str : value -> result value.

(** The dictionary built for one comment by [get_issue_comments] and
    [get_comment]: [id], cleaned [body], [created], [updated], [author]. *)
Definition comment_summary (r : loc) (h : heap) : result value * heap :=
  match author_name h r with
  | Raise e => (Raise e, h)
  | Ok author =>
      match _clean_text clean_jira_text h (default (VStr "") (dict_get h r "body")) with
      | Raise e => (Raise e, h)
      | Ok body =>
          match parse_date_str (get_or_none h r "created") with
          | Raise e => (Raise e, h)
          | Ok created =>
              match parse_date_str (get_or_none h r "updated") with
              | Raise e => (Raise e, h)
              | Ok updated =>
                  let '(l, h') :=
                    alloc h
                      (<["author" := author]>
                         (<["updated" := updated]>
                            (<["created" := created]>
                               (<["body" := body]>
                                  (<["id" := get_or_none h r "id"]> ∅))))) in
                  (Ok (VRef l), h')
              end
          end
      end
  end.

(** The loop of [get_issue_comments] over [raw_comments]. *)
Fixpoint process_comments (raw_comments : list value) (h : heap)
  : result (list value) * heap :=
  match raw_comments with
  | [] => (Ok [], h)
  | VRef r :: rest =>
      match comment_summary r h with
      | (Raise e, h1) => (Raise e, h1)
      | (Ok v, h1) =>
          match process_comments rest h1 with
          | (Raise e, h2) => (Raise e, h2)
          | (Ok vs, h2) => (Ok (v :: vs), h2)
          end
      end
  | _ :: _ => (Raise (AttributeError "object has no attribute 'get'"), h)
  end.

(** The body of the [try] of [get_issue_comments], given the answer
    [comments] of [jira.issue_get_comments(issue_key)].  The list under
    ["comments"] is cut to [limit] first, then normalised on Server 6.x,
    then summarised. *)
Definition get_issue_comments_body (c : JiraConfig) (comments : value)
    (limit : Z) (h : heap) : result (list value) * heap :=
  match comments with
  | VRef r =>
      match h !! r with
      | None => (Raise (TypeError "Unexpected return value type from `jira.issue_get_comments`"), h)
      | Some d =>
          match default (VList []) (d !! "comments") with
          | VList items =>
              let raw_comments := slice_to limit items in
              if server_6x c then
                match MappersRequest.normalize_comments_list raw_comments h with
                | (Raise e, h1) => (Raise e, h1)
                | (Ok raw_comments, h1) => process_comments raw_comments h1
                end
              else process_comments raw_comments h
          | VStr text =>
              (* a string is sliced too; its characters are not comments *)
              match slice_to limit (list_ascii_of_string text) with
              | [] => (Ok [], h)
              | _ :: _ =>
                  if server_6x c
                  then (Raise (AttributeError "object has no attribute 'copy'"), h)
                  else (Raise (AttributeError "object has no attribute 'get'"), h)
              end
          | _ => (Raise (TypeError "object is not subscriptable"), h)
          end
      end
  | _ => (Raise (TypeError "Unexpected return value type from `jira.issue_get_comments`"), h)
  end.

(** [get_issue_comments]: any exception of the body is raised again as a
    plain [Exception]. *)
Definition get_issue_comments (c : JiraConfig) (comments : value)
    (limit : Z) (h : heap) : result (list value) * heap :=
  match get_issue_comments_body c comments limit h with
  | (Ok vs, h1) => (Ok vs, h1)
  | (Raise _, h1) => (Raise (Exception "Error getting comments"), h1)
  end.

(** The body of the [try] of [get_comment]. *)
Definition get_comment_body (c : JiraConfig) (issue_key comment_id : string)
  : M value := fun w =>
  let url := "/rest/api/3/issue/" ++ issue_key ++ "/comment/" ++ comment_id in
  match jira_call (EvRequest GET url ∅ false) w with
  | (Raise e, w1) => (Raise e, w1)
  | (Ok (VRef r0), w1) =>
      let '(nr, h2) :=
        if server_6x c
        then Mappers.normalize_comment_response (VRef r0) (store w1)
        else (Ok (VRef r0), store w1) in
      match nr with
      | Ok (VRef r) =>
          let '(res, h3) := comment_summary r h2 in (res, set_store h3 w1)
      | Ok _ => (Raise (AttributeError "object has no attribute 'get'"), set_store h2 w1)
      | Raise e => (Raise e, set_store h2 w1)
      end
  | (Ok _, w1) => (Raise (TypeError "Unexpected return value type"), w1)
  end.

(** [get_comment]. *)
Definition get_comment (c : JiraConfig) (issue_key comment_id : string)
  : M value := fun w =>
  match get_comment_body c issue_key comment_id w with
  | (Ok v, w1) => (Ok v, w1)
  | (Raise _, w1) => (Raise (Exception "Error getting comment"), w1)
  end.
End WithPreprocessor.

End CommentsRead.

(** ** Vocabulary of the statements *)

Module Vocabulary.
Import Store Client.

(** The POST to the session endpoint does not answer 200: another status,
    an exception, or no answer left in the script. *)
Definition post_fails (w : world) : Prop :=
  match post_replies w with
  | PostResponse status _ _ :: _ => status <> 200%Z
  | _ => True
  end.

(** A comment as the Jira API sends it: a dictionary of the store whose
    [author], when present, is a dictionary. *)
Definition well_formed_comment (h : heap) (v : value) : bool :=
  match v with
  | VRef r =>
      match h !! r with
      | Some d =>
          match d !! "author" with
          | None | Some (VRef _) => true
          | Some _ => false
          end
      | None => false
      end
  | _ => false
  end.

End Vocabulary.

(** ** Concrete data used by the examples below *)

Module Examples.
Import Store Session Config Client.

(** A Server 6.x configuration with cookie authentication. *)
Definition cookie_config : JiraConfig :=
  mkJiraConfig (Some "https://jira.example.com") Basic (Some "alice") None
    None None true None None None None None None false None None None
    Server6x AuthCookie (Some "s3cret") None.

(** A Cloud configuration with basic authentication. *)
Definition cloud_config : JiraConfig :=
  mkJiraConfig (Some "https://example.atlassian.net") Basic
    (Some "alice@example.com") (Some "api-token")
    None None true None None None None None None false None None None
    Cloud AuthBasic None None.

(** A recogniser of Cloud URLs for the examples: the two URLs above. *)
Definition example_is_cloud_url (u : option string) : bool :=
  match u with
  | Some x => String.eqb x "https://example.atlassian.net"
  | None => false
  end.

Definition empty_world : world :=
  mkWorld [] None new_session [] [] [] [].

(** A client with the session token [abc] cached. *)
Definition active_world (posts : list post_reply)
    (deletes : list delete_reply) (replies : list reply) : world :=
  mkWorld [] (Some "abc") (set_cookie "JSESSIONID" "abc" new_session) []
          posts deletes replies.

Definition overlapping_url : string :=
  "https://jira.example.com/rest/api/3/rest/api/3/issue".

Definition comment_url : string :=
  "https://jira.example.com/rest/api/3/issue/PROJ-123/comment".

End Examples.

(** * Properties *)

Module HttpClientFacts.
Import HttpClient.

Lemma append_cons a p x : String a p ++ x = String a (p ++ x).
Proof. reflexivity. Qed.

Ltac unfold_append :=
  cbv [String.append v2 v3 v3_tail v3_twice] in *.

Lemma startswith_app p w s :
  startswith (p ++ w) s
  = startswith p s && startswith w (drop_str (String.length p) s).
Proof.
  revert s; induction p as [|a p IH]; intros s.
  - destruct s; reflexivity.
  - rewrite append_cons. simpl.
    destruct s as [|b s]; [reflexivity|].
    destruct (Ascii.eqb a b); [apply IH | reflexivity].
Qed.

Lemma contains_cons p c s :
  contains p (String c s) = startswith p (String c s) || contains p s.
Proof. reflexivity. Qed.

Lemma contains_drop p n s :
  contains p s = false -> contains p (drop_str n s) = false.
Proof.
  revert s; induction n as [|n IH]; intros s H; [exact H|].
  destruct s as [|c s]; [exact H|].
  simpl drop_str. apply IH.
  rewrite contains_cons in H. apply orb_false_iff in H. tauto.
Qed.

Lemma str_replace_v3_cons c t :
  str_replace v3 v2 (String c t)
  = if startswith v3 (String c t)
    then v2 ++ str_replace v3 v2 (drop_str 11 t)
    else String c (str_replace v3 v2 t).
Proof.
  simp str_replace. simpl (negb _). rewrite andb_true_r. reflexivity.
Qed.

Lemma startswith_split p s :
  startswith p s = true -> s = p ++ drop_str (String.length p) s.
Proof.
  revert s; induction p as [|a p IH]; intros s H; simpl in *.
  - destruct s; reflexivity.
  - destruct s as [|b s]; [discriminate|].
    destruct (Ascii.eqb_spec a b) as [->|]; [|discriminate].
    rewrite append_cons. f_equal. apply IH, H.
Qed.

Lemma str_replace_pointwise n :
  forall s, String.length s <= n -> pointwise s (str_replace v3 v2 s).
Proof.
  induction n as [|n IH]; intros [|c t] Hn; simpl in Hn;
    try (simp str_replace; exact I); try lia.
  rewrite str_replace_v3_cons.
  destruct (startswith v3 (String c t)) eqn:Hsw.
  - apply startswith_split in Hsw.
    change (drop_str (String.length v3) (String c t))
      with (drop_str 11 t) in Hsw.
    pose proof (drop_str_length 11 t) as Hlen.
    remember (drop_str 11 t) as r eqn:Er.
    unfold_append. injection Hsw as -> Ht.
    clear Er. subst t.
    simpl. repeat (split; [auto|]).
    apply IH. simpl in Hn. lia.
  - simpl. split; [auto|]. apply IH. lia.
Qed.

Lemma pointwise_startswith w :
  has_char "2"%char w = false ->
  forall s s', pointwise s s' ->
    startswith w s' = true -> startswith w s = true.
Proof.
  induction w as [|a w IH]; intros Hw s s' Hp Hs; [reflexivity|].
  simpl in Hw. apply orb_false_iff in Hw as [Ha Hw].
  destruct s as [|x s], s' as [|y s']; simpl in *; try tauto; try discriminate.
  destruct Hp as [Hxy Hp].
  destruct (Ascii.eqb_spec a y) as [->|]; [|discriminate].
  destruct Hxy as [->|[-> ->]].
  - rewrite Ascii.eqb_refl. eapply IH; eauto.
  - vm_compute in Ha. discriminate.
Qed.

Lemma str_replace_tail_prefix t :
  startswith v3_tail (str_replace v3 v2 t) = true ->
  startswith v3_tail t = true.
Proof.
  apply pointwise_startswith; [reflexivity|].
  apply (str_replace_pointwise (String.length t)). lia.
Qed.

Lemma contains_v2_app x :
  contains v3 (v2 ++ x) = startswith v3_tail x || contains v3 x.
Proof. reflexivity. Qed.

Lemma startswith_v3_cons c s :
  startswith v3 (String c s) = Ascii.eqb "/" c && startswith v3_tail s.
Proof. reflexivity. Qed.

Lemma str_replace_no_v3 n :
  forall s, String.length s <= n ->
    contains v3_twice s = false ->
    contains v3 (str_replace v3 v2 s) = false.
Proof.
  induction n as [|n IH]; intros [|c t] Hn Hpp; simpl in Hn;
    try (simp str_replace; reflexivity); try lia.
  rewrite str_replace_v3_cons.
  rewrite contains_cons in Hpp. apply orb_false_iff in Hpp as [Hhd Htl].
  destruct (startswith v3 (String c t)) eqn:Hsw.
  - rewrite contains_v2_app. apply orb_false_iff. split.
    + destruct (startswith v3_tail (str_replace v3 v2 (drop_str 11 t))) eqn:E;
        [|reflexivity].
      apply str_replace_tail_prefix in E.
      unfold v3_twice in Hhd. rewrite startswith_app, Hsw in Hhd.
      change (drop_str (String.length v3) (String c t))
        with (drop_str 11 t) in Hhd.
      rewrite E in Hhd. discriminate.
    + apply IH.
      * pose proof (drop_str_length 11 t). lia.
      * apply contains_drop, Htl.
  - rewrite contains_cons. apply orb_false_iff. split.
    + destruct (startswith v3 (String c (str_replace v3 v2 t))) eqn:E;
        [|reflexivity].
      rewrite startswith_v3_cons in E, Hsw.
      apply andb_true_iff in E as [Ec E].
      apply str_replace_tail_prefix in E.
      rewrite Ec, E in Hsw. discriminate.
    + apply IH; [lia | exact Htl].
Qed.

Lemma pointwise_refl s : pointwise s s.
Proof. induction s as [|c s IH]; simpl; auto. Qed.

(** C2, as stated, fails: two occurrences that share a slash are not both
    rewritten, and the second one survives. *)
Lemma normalize_api_path_overlap_counterexample :
  contains v3 Examples.overlapping_url = true
  /\ normalize_api_path Examples.overlapping_url true
     = "https://jira.example.com/rest/api/2/rest/api/3/issue"
  /\ contains v3 (normalize_api_path Examples.overlapping_url true) = true.
Proof. vm_compute. repeat split. Qed.

(** C2, amended: with [force_v2 = false] every URL is returned unchanged;
    a URL without ["/rest/api/3/"] is returned unchanged in both cases;
    with [force_v2 = true] the result differs from the URL only in
    characters ['3'] rewritten to ['2'], and when the URL has an occurrence
    of ["/rest/api/3/"] and no two occurrences overlap, no occurrence is
    left in the result.  [APIv2Adapter.send] puts the same URL on the
    wire. *)
Theorem normalize_api_path_rewrites (url : string) :
  normalize_api_path url false = url
  /\ (contains v3 url = false ->
      forall force_v2, normalize_api_path url force_v2 = url)
  /\ pointwise url (normalize_api_path url true)
  /\ (contains v3 url = true -> contains v3_twice url = false ->
      normalize_api_path url true = str_replace v3 v2 url
      /\ contains v3 (normalize_api_path url true) = false)
  /\ (url <> "" -> forall force_v2,
      APIv2Adapter_send force_v2 (Some url)
      = Some (normalize_api_path url force_v2)).
Proof.
  unfold normalize_api_path. repeat split.
  - intros Hno force_v2. rewrite Hno, andb_false_r. reflexivity.
  - simpl. destruct (contains v3 url); [|apply pointwise_refl].
    apply (str_replace_pointwise (String.length url)). lia.
  - rewrite H. reflexivity.
  - rewrite H. simpl.
    apply (str_replace_no_v3 (String.length url)); [lia | exact H0].
  - intros Hne force_v2. unfold APIv2Adapter_send.
    destruct (String.eqb_spec url ""); [contradiction|].
    destruct force_v2; simpl; [|reflexivity].
    destruct (contains v3 url); reflexivity.
Qed.

Lemma normalize_api_path_rewrites_witness :
  normalize_api_path Examples.comment_url true
  = "https://jira.example.com/rest/api/2/issue/PROJ-123/comment"
  /\ contains v3 (normalize_api_path Examples.comment_url true) = false
  /\ normalize_api_path "https://jira.example.com/rest/api/2/myself" true
     = "https://jira.example.com/rest/api/2/myself".
Proof.
  destruct (normalize_api_path_rewrites Examples.comment_url)
    as (_ & _ & _ & Hrw & _).
  destruct (Hrw ltac:(vm_compute; reflexivity) ltac:(vm_compute; reflexivity))
    as [Heq Hno].
  destruct (normalize_api_path_rewrites
              "https://jira.example.com/rest/api/2/myself")
    as (_ & Hsame & _).
  split; [rewrite Heq; vm_compute; reflexivity|].
  split; [exact Hno|].
  apply Hsame. vm_compute; reflexivity.
Defined.

End HttpClientFacts.

Module SslFacts.
Import Session Ssl.

(** C7: when [client_cert] and [client_key] are both strings and
    [client_key_password] is a non-empty string, [configure_ssl_verification]
    raises [ValueError] and leaves the session as it was: the certificate
    is not attached, no adapter is mounted, and nothing is sent. *)
Theorem configure_ssl_rejects_encrypted_key
    (getenv : string -> option string) (path_exists : string -> bool)
    (upper lower netloc : string -> string)
    (service_name url : string) (s : session) (ssl_verify : bool)
    (c k pw : string) (ca_file : option string) :
  pw <> "" ->
  exists msg,
    configure_ssl_verification getenv path_exists upper lower netloc
      service_name url s ssl_verify (Some c) (Some k) (Some pw) ca_file
    = (Raise (ValueError msg), s).
Proof.
  intros Hpw. unfold configure_ssl_verification.
  destruct (String.eqb_spec pw ""); [contradiction|].
  simpl. eexists. reflexivity.
Qed.

Lemma configure_ssl_rejects_encrypted_key_witness :
  exists msg,
    configure_ssl_verification (fun _ => None) (fun _ => true)
      (fun x => x) (fun x => x) (fun x => x)
      "Jira" "https://jira.example.com" new_session true
      (Some "/etc/ssl/client.pem") (Some "/etc/ssl/client.key")
      (Some "hunter2") None
    = (Raise (ValueError msg), new_session).
Proof.
  apply configure_ssl_rejects_encrypted_key. discriminate.
Defined.

(** Without a password the certificate is attached. *)
Lemma configure_ssl_attaches_cert
    getenv path_exists upper lower netloc service_name url s ssl_verify
    c k ca_file :
  let '(r, s') :=
    configure_ssl_verification getenv path_exists upper lower netloc
      service_name url s ssl_verify (Some c) (Some k) None ca_file in
  r = Ok tt /\ cert s' = Some (c, k).
Proof.
  unfold configure_ssl_verification, configure_verification. simpl.
  split; [reflexivity|].
  repeat match goal with
         | |- context [if ?b then _ else _] => destruct b
         | |- context [match ?o with Some _ => _ | None => _ end] => destruct o
         end; reflexivity.
Qed.

End SslFacts.

Module ConfigFacts.
Import Config.

Lemma truthy_str_Some (x : string) : x <> "" -> truthy_str (Some x) = true.
Proof.
  intros H. simpl. destruct (String.eqb_spec x ""); [contradiction|reflexivity].
Qed.

(** C5: on Server/DC (a URL that is not a Cloud URL, mode other than
    [server_6x]) a personal token next to an OAuth bundle resolves to
    [pat]; on Cloud, with neither an OAuth bundle nor a username,
    [from_env] raises [ValueError]. *)
Theorem from_env_auth_resolution
    (is_atlassian_cloud_url : option string -> bool)
    (get_oauth_config_from_env : gmap string string -> option oauth_config_t)
    (is_env_ssl_verify : gmap string string -> string -> bool)
    (get_custom_headers :
       gmap string string -> string -> option (gmap string string))
    (lower : string -> string)
    (env : gmap string string) :
  lower (default "cloud" (env !! "JIRA_MODE")) <> "server_6x" ->
  (forall u tok o,
      env !! "JIRA_URL" = Some u -> u <> "" ->
      is_atlassian_cloud_url (Some u) = false ->
      env !! "JIRA_PERSONAL_TOKEN" = Some tok -> tok <> "" ->
      get_oauth_config_from_env env = Some o ->
      exists cfg,
        from_env is_atlassian_cloud_url get_oauth_config_from_env
                 is_env_ssl_verify get_custom_headers lower env = Ok cfg
        /\ auth_type cfg = Pat
        /\ personal_token cfg = Some tok)
  /\ (is_atlassian_cloud_url (env !! "JIRA_URL") = true ->
      get_oauth_config_from_env env = None ->
      truthy_str (env !! "JIRA_USERNAME") = false ->
      exists msg,
        from_env is_atlassian_cloud_url get_oauth_config_from_env
                 is_env_ssl_verify get_custom_headers lower env
        = Raise (ValueError msg)).
Proof.
  intros Hmode.
  assert (Hs6 : String.eqb (lower (default "cloud" (env !! "JIRA_MODE")))
                           "server_6x" = false).
  { destruct (String.eqb_spec
                (lower (default "cloud" (env !! "JIRA_MODE"))) "server_6x");
      [contradiction|reflexivity]. }
  split.
  - intros u tok o Hurl Hu Hcloud Htok Htokne Ho.
    unfold from_env. rewrite Hurl, (truthy_str_Some u Hu). simpl negb.
    cbv beta iota zeta. simpl andb.
    rewrite Hs6, Hcloud, Htok, Ho. unfold resolve_auth_type.
    simpl andb. cbv iota. rewrite (truthy_str_Some tok Htokne).
    cbv beta iota zeta. unfold warn_local.
    destruct (String.eqb (lower (default "cloud" (env !! "JIRA_MODE"))) "cloud");
      destruct (String.eqb (lower (default "basic" (env !! "JIRA_AUTH"))) "basic");
      destruct (String.eqb (lower (default "basic" (env !! "JIRA_AUTH"))) "cookie");
      eexists; (split; [reflexivity|split; reflexivity]).
  - intros Hcloud Ho Huser.
    unfold from_env.
    destruct (negb (truthy_str (env !! "JIRA_URL"))
              && negb (truthy_str (env !! "ATLASSIAN_OAUTH_ENABLE")));
      [eexists; reflexivity|].
    cbv beta iota zeta.
    rewrite Hs6, Hcloud, Ho. unfold resolve_auth_type.
    simpl andb. cbv iota. rewrite Huser. simpl andb. cbv iota.
    eexists; reflexivity.
Qed.

Lemma from_env_auth_resolution_witness :
  (exists cfg,
      from_env (fun _ => false) (fun _ => Some (BYOAccessTokenOAuthConfig (Some "cid") (Some "at")))
               (fun _ _ => true) (fun _ _ => None) (fun x => x)
               (<["JIRA_URL" := "https://jira.corp.example"]>
                  (<["JIRA_PERSONAL_TOKEN" := "pat-123"]> ∅)) = Ok cfg
      /\ auth_type cfg = Pat
      /\ personal_token cfg = Some "pat-123")
  /\ (exists msg,
      from_env Examples.example_is_cloud_url (fun _ => None)
               (fun _ _ => true) (fun _ _ => None) (fun x => x)
               (<["JIRA_URL" := "https://example.atlassian.net"]> ∅)
      = Raise (ValueError msg)).
Proof.
  split.
  - refine (proj1 (from_env_auth_resolution _ _ _ _ _ _ _)
              "https://jira.corp.example" "pat-123" _ _ _ _ _ _ _);
      try reflexivity; vm_compute; discriminate.
  - refine (proj2 (from_env_auth_resolution _ _ _ _ _ _ _) _ _ _);
      try reflexivity; vm_compute; discriminate.
Defined.

(** An unrecognised [JIRA_MODE] reaches [logger.warning] through the local
    name [logger], which is bound only on the branch of C5. *)
Lemma from_env_unbound_logger :
  from_env (fun _ => false) (fun _ => None) (fun _ _ => true)
           (fun _ _ => None) (fun x => x)
           (<["JIRA_URL" := "https://jira.corp.example"]>
              (<["JIRA_PERSONAL_TOKEN" := "pat-123"]>
                 (<["JIRA_MODE" := "datacenter"]> ∅)))
  = Raise (UnboundLocalError "logger").
Proof. vm_compute. reflexivity. Qed.

End ConfigFacts.

Module CommentsFacts.
Import Store Config Client Comments.

Lemma jira_call_trace e w :
  trace (snd (jira_call e w)) = (trace w ++ [e])%list.
Proof.
  unfold jira_call. simpl.
  destruct (api_replies w) as [|[d|v|x] rest]; reflexivity.
Qed.

End CommentsFacts.

Module SessionFacts.
Import Store Session Config Client.

Lemma logout_never_raises c w : fst (_logout c w) = Ok tt.
Proof.
  unfold _logout, requests_delete.
  destruct (truthy_str (cookie_session w) && cookie_auth c); [|reflexivity].
  simpl. destruct (delete_replies w) as [|[st|e] rest]; reflexivity.
Qed.

(** C1, as stated, fails: when the DELETE call raises, the assignment that
    clears the token is skipped and the token stays cached. *)
Lemma logout_keeps_token_counterexample :
  let w := Examples.active_world []
             [DeleteRaises (RequestException "connection refused")] [] in
  cookie_session w = Some "abc"
  /\ cookie_auth Examples.cookie_config = true
  /\ fst (_logout Examples.cookie_config w) = Ok tt
  /\ cookie_session (snd (_logout Examples.cookie_config w)) = Some "abc"
  /\ cookie_session (snd (_logout Examples.cookie_config w)) <> None.
Proof. vm_compute. repeat split. discriminate. Qed.

(** C1, amended: with a cached token and cookie authentication, [_logout]
    sends one DELETE with the token and never raises; the token is
    cleared whenever the DELETE call returns a response, whatever its
    status; when the DELETE call raises, the token is kept. *)
Theorem logout_clears_on_response (c : JiraConfig) (w : world) (tok : string) :
  cookie_session w = Some tok -> tok <> "" -> jira_auth c = AuthCookie ->
  fst (_logout c w) = Ok tt
  /\ trace (snd (_logout c w))
     = (trace w ++ [EvSessionDelete (session_url c) tok])%list
  /\ (forall status rest,
        delete_replies w = DeleteResponse status :: rest ->
        cookie_session (snd (_logout c w)) = None)
  /\ (forall e rest,
        delete_replies w = DeleteRaises e :: rest ->
        cookie_session (snd (_logout c w)) = Some tok).
Proof.
  intros Htok Hne Hauth.
  split; [apply logout_never_raises|].
  unfold _logout, requests_delete, cookie_auth.
  rewrite Htok, Hauth, (ConfigFacts.truthy_str_Some tok Hne). simpl.
  repeat split.
  - destruct (delete_replies w) as [|[st|e] rest]; reflexivity.
  - intros status rest ->. reflexivity.
  - intros e rest ->. simpl. exact Htok.
Qed.

Lemma logout_clears_on_response_witness :
  let w := Examples.active_world [] [DeleteResponse 401] [] in
  fst (_logout Examples.cookie_config w) = Ok tt
  /\ cookie_session (snd (_logout Examples.cookie_config w)) = None.
Proof.
  destruct (logout_clears_on_response Examples.cookie_config
              (Examples.active_world [] [DeleteResponse 401] []) "abc")
    as (Hok & _ & Hclr & _); [reflexivity | discriminate | reflexivity |].
  split; [exact Hok|].
  exact (Hclr 401%Z [] eq_refl).
Defined.

(** C6, as stated, fails: the refresh is wired into the authentication
    check only.  Any other request that answers 401 while the session is
    active goes back to the caller with no establishment at all; here
    [create_version]. *)
Lemma no_refresh_on_api_401_counterexample :
  let w := Examples.active_world
             [PostResponse 200 {["JSESSIONID" := "fresh"]} ""] []
             [ReplyRaises (HTTPError 401)] in
  cookie_session w = Some "abc"
  /\ cookie_auth Examples.cookie_config = true
  /\ fst (create_version "PROJ" "1.0" None None None w) = Raise (HTTPError 401)
  /\ existsb is_session_post
       (trace (snd (create_version "PROJ" "1.0" None None None w))) = false
  /\ List.length (trace (snd (create_version "PROJ" "1.0" None None None w))) = 1.
Proof. vm_compute. repeat split. Qed.

(** C6, amended: in [_validate_authentication], when the request
    [jira.myself()] answers 401 while a cookie session is active (token
    cached, cookie authentication and credentials configured), the session
    endpoint is posted to exactly once, and the request is retried at most
    once.  When the establishment fails, [_refresh_cookie_session] raises
    that failure, the check raises an authentication error to its caller,
    and there is neither a retry nor a second establishment. *)
Theorem validate_refreshes_once (c : JiraConfig) (w : world)
    (tok u p : string) (rest : list reply) :
  cookie_session w = Some tok -> tok <> "" -> jira_auth c = AuthCookie ->
  username c = Some u -> u <> "" -> jira_password c = Some p -> p <> "" ->
  api_replies w = ReplyRaises (HTTPError 401) :: rest ->
  let w1 := snd (jira_call EvMyself w) in
  let out := _validate_authentication c w in
  (exists retry,
      trace (snd out)
      = (trace w ++ [EvMyself; EvSessionPost (session_url c) u p] ++ retry)%list
      /\ (retry = [] \/ retry = [EvMyself]))
  /\ (forall e,
        fst (_establish_cookie_session c w1) = Raise e ->
        fst (_refresh_cookie_session c w1) = Raise e
        /\ fst out = Raise auth_failed
        /\ trace (snd out)
           = (trace w ++ [EvMyself; EvSessionPost (session_url c) u p])%list).
Proof.
  intros Htok Hne Hauth Hu Hune Hp Hpne Hrep w1 out.
  subst w1 out.
  unfold _validate_authentication, jira_call.
  simpl api_replies. rewrite Hrep. simpl receive.
  cbv beta iota zeta. simpl is_401. unfold cookie_auth at 1. rewrite Hauth.
  simpl andb. cbv iota.
  unfold _refresh_cookie_session. simpl cookie_session.
  rewrite Htok, (ConfigFacts.truthy_str_Some tok Hne).
  unfold cookie_auth. rewrite Hauth. simpl andb. cbv iota.
  unfold _establish_cookie_session.
  rewrite Hu, Hp, (ConfigFacts.truthy_str_Some u Hune),
    (ConfigFacts.truthy_str_Some p Hpne).
  simpl negb. simpl orb. cbv iota.
  unfold requests_post. simpl post_replies. simpl default.
  destruct (post_replies w) as [|[status cookies text|e0] posts];
    [ | destruct (Z.eqb status 200);
        [ destruct (cookies !! "JSESSIONID") as [fresh|];
          (destruct rest as [|[d|v|x] rest']; simpl;
           try match goal with
               | |- context [if ?b then _ else _] => destruct b
               end)
        | ]
      | destruct (is_request_exception e0) ];
    (simpl; split;
     [ eexists; split;
       [ rewrite <- ?app_assoc; simpl; reflexivity | auto ]
     | intros e He; simpl in He; try discriminate He;
       injection He as <-; rewrite <- ?app_assoc; simpl; auto ]).
Qed.

Lemma validate_refreshes_once_witness :
  let w := Examples.active_world [PostResponse 503 ∅ "unavailable"] []
             [ReplyRaises (HTTPError 401)] in
  fst (_validate_authentication Examples.cookie_config w) = Raise auth_failed
  /\ trace (snd (_validate_authentication Examples.cookie_config w))
     = [EvMyself;
        EvSessionPost "https://jira.example.com/rest/auth/1/session"
                      "alice" "s3cret"].
Proof.
  destruct (validate_refreshes_once Examples.cookie_config
              (Examples.active_world [PostResponse 503 ∅ "unavailable"] []
                 [ReplyRaises (HTTPError 401)])
              "abc" "alice" "s3cret" [])
    as [_ Hfail];
    [reflexivity | discriminate | reflexivity | reflexivity | discriminate
    | reflexivity | discriminate | reflexivity |].
  destruct (Hfail (MCPAtlassianAuthenticationError
                     "Unexpected error establishing cookie session")
              eq_refl) as (_ & Hout & Htr).
  split; [exact Hout | exact Htr].
Defined.

(** When the establishment succeeds the request is retried once and the
    check passes if the retry answers with a user. *)
Example validate_refresh_success :
  let w := Examples.active_world
             [PostResponse 200 {["JSESSIONID" := "fresh"]} ""] []
             [ReplyRaises (HTTPError 401);
              ReplyFresh {["displayName" := VStr "Alice"]}] in
  fst (_validate_authentication Examples.cookie_config w) = Ok tt
  /\ cookie_session (snd (_validate_authentication Examples.cookie_config w))
     = Some "fresh"
  /\ trace (snd (_validate_authentication Examples.cookie_config w))
     = [EvMyself;
        EvSessionPost "https://jira.example.com/rest/auth/1/session"
                      "alice" "s3cret";
        EvMyself].
Proof. vm_compute. repeat split. Qed.

End SessionFacts.

Module StoreFacts.
Import Store.

Lemma lookup_alloc_new (h : heap) (d : dict) :
  (h ++ [d])%list !! List.length h = Some d.
Proof. apply list_lookup_middle. reflexivity. Qed.

Lemma dict_get_alloc (h : heap) (d : dict) k :
  dict_get (h ++ [d])%list (List.length h) k = d !! k.
Proof. unfold dict_get. rewrite lookup_alloc_new. reflexivity. Qed.

Lemma dict_get_lookup (h : heap) l d k :
  h !! l = Some d -> dict_get h l k = d !! k.
Proof. intros H. unfold dict_get. rewrite H. reflexivity. Qed.

Lemma dict_set_lookup (h : heap) l k v d :
  h !! l = Some d -> dict_set h l k v !! l = Some (<[k:=v]> d).
Proof.
  intros H. unfold dict_set. rewrite list_lookup_alter_eq, H. reflexivity.
Qed.

Lemma dict_set_lookup_ne (h : heap) l l' k v :
  l <> l' -> dict_set h l k v !! l' = h !! l'.
Proof. intros H. unfold dict_set. apply list_lookup_alter_ne, H. Qed.

Lemma dict_set_length (h : heap) l k v :
  List.length (dict_set h l k v) = List.length h.
Proof. apply length_alter. Qed.

Lemma dict_get_set (h : heap) l k v k' :
  is_Some (h !! l) ->
  dict_get (dict_set h l k v) l k'
  = if decide (k = k') then Some v else dict_get h l k'.
Proof.
  intros [d Hd]. unfold dict_get.
  rewrite (dict_set_lookup h l k v d Hd), Hd.
  destruct (decide (k = k')) as [->|Hne].
  - apply lookup_insert_eq.
  - apply lookup_insert_ne, Hne.
Qed.

Lemma dict_get_set_other (h : heap) l l' k v k' :
  l <> l' -> dict_get (dict_set h l k v) l' k' = dict_get h l' k'.
Proof.
  intros H. unfold dict_get. rewrite dict_set_lookup_ne by exact H.
  reflexivity.
Qed.

Lemma dict_set_is_Some (h : heap) l l' k v :
  is_Some (h !! l') -> is_Some (dict_set h l k v !! l').
Proof.
  intros H. apply lookup_lt_is_Some. rewrite dict_set_length.
  apply lookup_lt_is_Some, H.
Qed.

(** An update of an object allocated after [h0] leaves [h0] a prefix. *)
Lemma dict_set_prefix (h0 h : heap) l k v :
  h0 `prefix_of` h -> List.length h0 <= l ->
  h0 `prefix_of` dict_set h l k v.
Proof.
  intros [t ->] Hl. unfold dict_set.
  rewrite alter_app_r_alt by exact Hl.
  eexists. reflexivity.
Qed.

Lemma alloc_prefix (h0 h : heap) (d : dict) :
  h0 `prefix_of` h -> h0 `prefix_of` (h ++ [d])%list.
Proof. apply prefix_app_r. Qed.

(** Objects of a prefix are read the same in the extension. *)
Lemma prefix_lookup (h0 h : heap) l :
  h0 `prefix_of` h -> l < List.length h0 -> h !! l = h0 !! l.
Proof.
  intros [t ->] Hl. apply lookup_app_l. exact Hl.
Qed.

Lemma truthy_prefix (h0 h : heap) v :
  h0 `prefix_of` h ->
  (forall x, v = VRef x -> x < List.length h0) ->
  truthy h v = truthy h0 v.
Proof.
  intros Hp Hv. destruct v; try reflexivity.
  simpl. rewrite (prefix_lookup h0 h l Hp) by (apply Hv; reflexivity).
  reflexivity.
Qed.

Lemma truthy_dict (h : heap) l d :
  h !! l = Some d -> d <> ∅ -> truthy h (VRef l) = true.
Proof.
  intros Hd Hne. simpl. rewrite Hd.
  apply map_size_non_empty_iff in Hne.
  destruct (Nat.eqb_spec (size d) 0); [contradiction|reflexivity].
Qed.

Lemma truthy_empty_dict (h : heap) l :
  h !! l = Some ∅ -> truthy h (VRef l) = false.
Proof. intros Hd. simpl. rewrite Hd. reflexivity. Qed.

End StoreFacts.

Module MapperFacts.
Import Store Mappers StoreFacts.

Section Blocks.
Variables (h : heap) (n : loc) (d : dict).
Hypothesis Hn : h !! n = Some d.

Lemma fallback_account_id_cases k :
  fallback_account_id h n k
  = match truthy_entry h d k with
    | Some v => Some (dict_set h n "accountId" v)
    | None => None
    end.
Proof.
  unfold fallback_account_id, truthy_entry, dict_get. rewrite Hn.
  destruct (d !! k) as [v|]; [|reflexivity].
  destruct (truthy h v); reflexivity.
Qed.

(** The first block either leaves the store alone or sets [accountId]. *)
Lemma fill_account_id_cases :
  fill_account_id h n = h
  \/ exists v, fill_account_id h n = dict_set h n "accountId" v.
Proof.
  unfold fill_account_id. rewrite !fallback_account_id_cases.
  destruct (dict_get h n "accountId") as [[]|]; auto;
    destruct (truthy_entry h d "name"); eauto;
    destruct (truthy_entry h d "key"); eauto.
Qed.

Lemma fill_account_id_account :
  dict_get (fill_account_id h n) n "accountId"
  = match d !! "accountId" with
    | None | Some VNone => expected_account_id h d
    | Some v => Some v
    end.
Proof.
  assert (Hs : is_Some (h !! n)) by (rewrite Hn; eauto).
  unfold fill_account_id, expected_account_id.
  rewrite !fallback_account_id_cases.
  assert (Hg : dict_get h n "accountId" = d !! "accountId")
    by (unfold dict_get; rewrite Hn; reflexivity).
  rewrite Hg.
  destruct (d !! "accountId") as [[]|] eqn:Ha; try exact Hg;
    (destruct (truthy_entry h d "name");
     [rewrite dict_get_set by exact Hs; reflexivity|];
     destruct (truthy_entry h d "key");
     [rewrite dict_get_set by exact Hs; reflexivity|];
     exact Hg).
Qed.

Lemma fill_account_id_other_keys k :
  k <> "accountId" ->
  dict_get (fill_account_id h n) n k = d !! k.
Proof.
  intros Hk.
  assert (Hs : is_Some (h !! n)) by (rewrite Hn; eauto).
  assert (Hg : dict_get h n k = d !! k)
    by (unfold dict_get; rewrite Hn; reflexivity).
  destruct fill_account_id_cases as [->|[v ->]]; [exact Hg|].
  rewrite dict_get_set by exact Hs.
  destruct (decide ("accountId" = k)); [congruence|exact Hg].
Qed.
End Blocks.

Lemma fill_account_id_cases' (h : heap) n :
  fill_account_id h n = h
  \/ exists v, fill_account_id h n = dict_set h n "accountId" v.
Proof.
  unfold fill_account_id, fallback_account_id.
  destruct (dict_get h n "accountId") as [[]|]; auto;
    (destruct (dict_get h n "name") as [v|];
     [destruct (truthy h v); [eauto|]|]);
    (destruct (dict_get h n "key") as [v'|];
     [destruct (truthy h v'); eauto|]); auto.
Qed.

Lemma fill_email_address_cases (h : heap) n :
  fill_email_address h n = h
  \/ fill_email_address h n = dict_set h n "emailAddress" VNone.
Proof.
  unfold fill_email_address.
  destruct (dict_get h n "emailAddress"); auto.
Qed.

Lemma fill_email_address_email (h : heap) n :
  is_Some (h !! n) ->
  dict_get (fill_email_address h n) n "emailAddress"
  = Some (default VNone (dict_get h n "emailAddress")).
Proof.
  intros Hs. unfold fill_email_address.
  destruct (dict_get h n "emailAddress") as [v|] eqn:He; [exact He|].
  rewrite dict_get_set by exact Hs. reflexivity.
Qed.

Lemma fill_email_address_other_keys (h : heap) n k :
  is_Some (h !! n) -> k <> "emailAddress" ->
  dict_get (fill_email_address h n) n k = dict_get h n k.
Proof.
  intros Hs Hk.
  destruct (fill_email_address_cases h n) as [->| ->]; [reflexivity|].
  rewrite dict_get_set by exact Hs.
  destruct (decide ("emailAddress" = k)); [congruence|reflexivity].
Qed.

Lemma fill_account_id_prefix (h0 h : heap) n :
  h0 `prefix_of` h -> List.length h0 <= n ->
  h0 `prefix_of` fill_account_id h n.
Proof.
  intros Hp Hl. destruct (fill_account_id_cases' h n) as [->|[v ->]];
    [exact Hp | apply dict_set_prefix; assumption].
Qed.

Lemma fill_email_address_prefix (h0 h : heap) n :
  h0 `prefix_of` h -> List.length h0 <= n ->
  h0 `prefix_of` fill_email_address h n.
Proof.
  intros Hp Hl. destruct (fill_email_address_cases h n) as [->| ->];
    [exact Hp | apply dict_set_prefix; assumption].
Qed.

Lemma fill_account_id_is_Some (h : heap) n l :
  is_Some (h !! l) -> is_Some (fill_account_id h n !! l).
Proof.
  intros Hs. destruct (fill_account_id_cases' h n) as [->|[v ->]];
    [exact Hs | apply dict_set_is_Some, Hs].
Qed.

(** The user mapper only adds objects to the store. *)
Lemma normalize_user_response_prefix (h0 h : heap) data :
  h0 `prefix_of` h ->
  h0 `prefix_of` snd (normalize_user_response data h).
Proof.
  intros Hp. unfold normalize_user_response.
  destruct (negb (truthy h data)); [exact Hp|].
  destruct data as [| | | |items|l]; try exact Hp.
  { destruct (_ || _); exact Hp. }
  destruct (h !! l) as [d|]; [|exact Hp].
  simpl. pose proof (prefix_length _ _ Hp).
  apply fill_email_address_prefix; [|lia].
  apply fill_account_id_prefix; [|lia].
  apply alloc_prefix, Hp.
Qed.

(** On a dictionary it never raises. *)
Lemma normalize_user_response_ref (h : heap) u :
  exists v, fst (normalize_user_response (VRef u) h) = Ok v.
Proof.
  unfold normalize_user_response.
  destruct (negb (truthy h (VRef u))); [eauto|].
  destruct (h !! u); simpl; eauto.
Qed.

Lemma expected_account_id_prefix (h0 h : heap) d :
  h0 `prefix_of` h -> closed_dict h0 d ->
  expected_account_id h d = expected_account_id h0 d.
Proof.
  intros Hp Hc. unfold expected_account_id, truthy_entry.
  destruct (d !! "name") as [vn|] eqn:En.
  - rewrite (truthy_prefix h0 h vn Hp)
      by (intros x ->; exact (Hc _ _ En)).
    destruct (truthy h0 vn); [reflexivity|].
    destruct (d !! "key") as [vk|] eqn:Ek; [|reflexivity].
    rewrite (truthy_prefix h0 h vk Hp)
      by (intros x ->; exact (Hc _ _ Ek)).
    reflexivity.
  - destruct (d !! "key") as [vk|] eqn:Ek; [|reflexivity].
    rewrite (truthy_prefix h0 h vk Hp)
      by (intros x ->; exact (Hc _ _ Ek)).
    reflexivity.
Qed.

(** The copy made for a non-empty user, key by key. *)
Lemma normalize_user_response_lookup (h : heap) (l : loc) (d : dict) :
  h !! l = Some d -> d <> ∅ ->
  let out := normalize_user_response (VRef l) h in
  let n := List.length h in
  fst out = Ok (VRef n)
  /\ h `prefix_of` snd out
  /\ is_Some (snd out !! n)
  /\ dict_get (snd out) n "accountId"
     = match d !! "accountId" with
       | None | Some VNone => expected_account_id (h ++ [d])%list d
       | Some v => Some v
       end
  /\ dict_get (snd out) n "emailAddress"
     = Some (default VNone (d !! "emailAddress"))
  /\ (forall k, k <> "accountId" -> k <> "emailAddress" ->
                dict_get (snd out) n k = d !! k).
Proof.
  intros Hd Hne out n.
  assert (Hp : h `prefix_of` snd out)
    by (apply normalize_user_response_prefix; reflexivity).
  subst out n. revert Hp. unfold normalize_user_response.
  rewrite (truthy_dict h l d Hd Hne), Hd. simpl negb. cbv iota.
  unfold alloc. cbv beta iota. simpl fst. simpl snd. intros Hp.
  set (n := List.length h). set (h1 := (h ++ [d])%list).
  assert (Hn : h1 !! n = Some d) by apply lookup_alloc_new.
  assert (Hs : is_Some (fill_account_id h1 n !! n))
    by (apply fill_account_id_is_Some; rewrite Hn; eauto).
  split; [reflexivity|]. split; [exact Hp|]. split.
  { destruct (fill_email_address_cases (fill_account_id h1 n) n)
      as [-> | ->]; [exact Hs | apply dict_set_is_Some, Hs]. }
  split.
  { rewrite fill_email_address_other_keys by (exact Hs || discriminate).
    apply (fill_account_id_account h1 n d Hn). }
  split.
  { rewrite fill_email_address_email by exact Hs.
    rewrite (fill_account_id_other_keys h1 n d Hn) by discriminate.
    reflexivity. }
  intros k Hk1 Hk2.
  rewrite fill_email_address_other_keys by assumption.
  apply (fill_account_id_other_keys h1 n d Hn). exact Hk1.
Qed.

(** C4: for a non-empty user dictionary, the mapper returns a new
    dictionary; when [accountId] is missing or null in the input, the
    result has under [accountId] the input's [name] if that is present and
    truthy, else the input's [key] if that is present and truthy, else
    what the input had (nothing, or null); the result always has the key
    [emailAddress], with the input's value, or null when the input has
    none; every other key is as in the input. *)
Theorem normalize_user_response_fallback (h : heap) (l : loc) (d : dict) :
  h !! l = Some d -> d <> ∅ -> closed_dict h d ->
  let out := normalize_user_response (VRef l) h in
  let n := List.length h in
  fst out = Ok (VRef n)
  /\ ((d !! "accountId" = None \/ d !! "accountId" = Some VNone) ->
      dict_get (snd out) n "accountId" = expected_account_id h d)
  /\ dict_get (snd out) n "emailAddress"
     = Some (default VNone (d !! "emailAddress"))
  /\ (forall k, k <> "accountId" -> k <> "emailAddress" ->
                dict_get (snd out) n k = d !! k).
Proof.
  intros Hd Hne Hc out n. subst out n.
  unfold normalize_user_response.
  rewrite (truthy_dict h l d Hd Hne), Hd. simpl negb. cbv iota.
  unfold alloc. cbv beta iota. simpl fst. simpl snd.
  set (n := List.length h). set (h1 := (h ++ [d])%list).
  assert (Hn : h1 !! n = Some d) by apply lookup_alloc_new.
  assert (Hs : is_Some (fill_account_id h1 n !! n))
    by (apply fill_account_id_is_Some; rewrite Hn; eauto).
  split; [reflexivity|]. split; [|split].
  - intros Hacc.
    rewrite fill_email_address_other_keys by (exact Hs || discriminate).
    rewrite (fill_account_id_account h1 n d Hn).
    rewrite (expected_account_id_prefix h h1 d)
      by (try exact Hc; apply prefix_app_r; reflexivity).
    destruct Hacc as [-> | ->]; reflexivity.
  - rewrite fill_email_address_email by exact Hs.
    rewrite (fill_account_id_other_keys h1 n d Hn) by discriminate.
    reflexivity.
  - intros k Hk1 Hk2.
    rewrite fill_email_address_other_keys by assumption.
    apply (fill_account_id_other_keys h1 n d Hn). exact Hk1.
Qed.

Lemma normalize_user_response_fallback_witness :
  let h : heap := [ {[ "name" := VStr "bob" ]} ] in
  fst (normalize_user_response (VRef 0) h) = Ok (VRef 1)
  /\ dict_get (snd (normalize_user_response (VRef 0) h)) 1 "accountId"
     = Some (VStr "bob")
  /\ dict_get (snd (normalize_user_response (VRef 0) h)) 1 "emailAddress"
     = Some VNone.
Proof.
  destruct (normalize_user_response_fallback
              [ {[ "name" := VStr "bob" ]} ] 0 {[ "name" := VStr "bob" ]})
    as (H1 & H2 & H3 & _).
  - reflexivity.
  - apply insert_non_empty.
  - intros k x H. apply lookup_singleton_Some in H as [_ H]. discriminate H.
  - split; [exact H1|]. split; [|exact H3].
    exact (H2 (or_introl eq_refl)).
Defined.

(** *** The slots and the issue mapper *)

Lemma normalize_user_slot_ok k f (h : heap) :
  fst (normalize_user_slot k f h) = Ok tt.
Proof.
  unfold normalize_user_slot.
  destruct (dict_get h f k) as [[| | | | |u]|]; try reflexivity.
  destruct (normalize_user_response_ref h u) as [v Hv].
  destruct (normalize_user_response (VRef u) h) as [[v'|e] h'];
    simpl in Hv; [reflexivity|discriminate].
Qed.

Lemma normalize_user_slot_prefix (h0 h : heap) k f :
  h0 `prefix_of` h -> List.length h0 <= f ->
  h0 `prefix_of` snd (normalize_user_slot k f h).
Proof.
  intros Hp Hf. unfold normalize_user_slot.
  destruct (dict_get h f k) as [[| | | | |u]|]; try exact Hp.
  pose proof (normalize_user_response_prefix h0 h (VRef u) Hp) as Hp'.
  destruct (normalize_user_response (VRef u) h) as [[v'|e] h'];
    simpl in *; [apply dict_set_prefix; assumption | exact Hp'].
Qed.

Lemma normalize_user_slot_lookup_ne (h : heap) k f l :
  l < List.length h -> l <> f ->
  snd (normalize_user_slot k f h) !! l = h !! l.
Proof.
  intros Hl Hne. unfold normalize_user_slot.
  destruct (dict_get h f k) as [[| | | | |u]|]; try reflexivity.
  pose proof (normalize_user_response_prefix h h (VRef u) (reflexivity h))
    as Hp.
  destruct (normalize_user_response (VRef u) h) as [[v'|e] h'];
    simpl in *.
  - rewrite dict_set_lookup_ne by congruence.
    apply prefix_lookup; assumption.
  - apply prefix_lookup; assumption.
Qed.

Lemma normalize_user_slot_length (h : heap) k f :
  List.length h <= List.length (snd (normalize_user_slot k f h)).
Proof.
  unfold normalize_user_slot.
  destruct (dict_get h f k) as [[| | | | |u]|]; try reflexivity.
  pose proof (normalize_user_response_prefix h h (VRef u) (reflexivity h))
    as Hp.
  apply prefix_length in Hp.
  destruct (normalize_user_response (VRef u) h) as [[v'|e] h'];
    simpl in *; [rewrite dict_set_length|]; exact Hp.
Qed.

Lemma normalize_user_slot_get (h : heap) k f k' :
  f < List.length h ->
  dict_get (snd (normalize_user_slot k f h)) f k'
  = if decide (k = k') then mapped_entry h (dict_get h f k)
    else dict_get h f k'.
Proof.
  intros Hf. unfold normalize_user_slot, mapped_entry.
  destruct (dict_get h f k) as [[| | | | |u]|] eqn:Hk;
    try (destruct (decide (k = k')) as [<-|]; [exact Hk|reflexivity]).
  pose proof (normalize_user_response_prefix h h (VRef u) (reflexivity h))
    as Hp.
  destruct (normalize_user_response_ref h u) as [v Hv].
  destruct (normalize_user_response (VRef u) h) as [[v'|e] h'];
    simpl in *; [|discriminate].
  assert (Hs : is_Some (h' !! f)).
  { apply lookup_lt_is_Some. apply prefix_length in Hp. lia. }
  rewrite dict_get_set by exact Hs.
  destruct (decide (k = k')); [reflexivity|].
  unfold dict_get. rewrite (prefix_lookup h h' f Hp Hf). reflexivity.
Qed.

Ltac slot_ok k f h :=
  let E := fresh "E" in
  pose proof (normalize_user_slot_ok k f h) as E;
  destruct (normalize_user_slot k f h) as [[[]|?] ?];
  simpl in E; [clear E | discriminate E].

(** The issue mapper on a non-empty dictionary: the result is the copy
    [n]; when [fields] is a dictionary, the fields are the copy [f] after
    the three slots. *)
Lemma normalize_issue_response_unfold (h : heap) l d :
  h !! l = Some d -> d <> ∅ ->
  let n := List.length h in
  let f := S (List.length h) in
  let h1 := (h ++ [d])%list in
  normalize_issue_response (VRef l) h
  = match d !! "fields" with
    | Some (VRef fl) =>
        match h1 !! fl with
        | Some fd =>
            let h2 := (h1 ++ [fd])%list in
            let h3 := snd (normalize_user_slot "assignee" f h2) in
            let h4 := snd (normalize_user_slot "reporter" f h3) in
            let h5 := snd (normalize_user_slot "creator" f h4) in
            (Ok (VRef n), dict_set h5 n "fields" (VRef f))
        | None => (Ok (VRef n), h1)
        end
    | _ => (Ok (VRef n), h1)
    end.
Proof.
  intros Hd Hne n f h1.
  unfold normalize_issue_response.
  rewrite (truthy_dict h l d Hd Hne), Hd. simpl negb. cbv iota.
  unfold alloc. cbv beta iota. fold h1. fold n.
  unfold h1 at 1. unfold n at 1. rewrite dict_get_alloc.
  destruct (d !! "fields") as [[| | | | |fl]|]; try reflexivity.
  destruct (h1 !! fl) as [fd|]; [|reflexivity].
  replace (List.length h1) with f
    by (unfold f, h1; rewrite length_app; simpl; lia).
  cbv zeta.
  slot_ok "assignee" f (h1 ++ [fd])%list. simpl snd.
  match goal with |- context [normalize_user_slot "reporter" f ?x] =>
    slot_ok "reporter" f x end. simpl snd.
  match goal with |- context [normalize_user_slot "creator" f ?x] =>
    slot_ok "creator" f x end. simpl snd.
  reflexivity.
Qed.

(** The issue mapper only adds objects to the store. *)
Lemma normalize_issue_response_prefix (h : heap) data :
  h `prefix_of` snd (normalize_issue_response data h).
Proof.
  unfold normalize_issue_response.
  destruct (negb (truthy h data)); [reflexivity|].
  destruct data as [| | | |items|l]; try reflexivity.
  - destruct (list_has_str "fields" items); reflexivity.
  - destruct (h !! l) as [d|]; [|reflexivity].
    unfold alloc. cbv beta iota.
    assert (H1 : h `prefix_of` (h ++ [d])%list) by (apply prefix_app_r; reflexivity).
    destruct (dict_get (h ++ [d])%list (List.length h) "fields")
      as [[| | | | |fl]|]; try exact H1.
    destruct ((h ++ [d])%list !! fl) as [fd|]; [|exact H1].
    set (f := List.length (h ++ [d])%list).
    assert (Hf : List.length h <= f)
      by (unfold f; rewrite length_app; lia).
    assert (H2 : h `prefix_of` ((h ++ [d]) ++ [fd])%list)
      by (apply prefix_app_r, H1).
    pose proof (normalize_user_slot_prefix h _ "assignee" f H2 Hf) as H3.
    destruct (normalize_user_slot "assignee" f _) as [[[]|?] h3];
      simpl in H3; [|exact H3].
    pose proof (normalize_user_slot_prefix h _ "reporter" f H3 Hf) as H4.
    destruct (normalize_user_slot "reporter" f _) as [[[]|?] h4];
      simpl in H4; [|exact H4].
    pose proof (normalize_user_slot_prefix h _ "creator" f H4 Hf) as H5.
    destruct (normalize_user_slot "creator" f _) as [[[]|?] h5];
      simpl in H5; [|exact H5].
    simpl. apply dict_set_prefix; [exact H5|lia].
Qed.

(** The comment mapper only adds objects to the store. *)
Lemma normalize_comment_response_prefix (h : heap) data :
  h `prefix_of` snd (normalize_comment_response data h).
Proof.
  unfold normalize_comment_response.
  destruct (negb (truthy h data)); [reflexivity|].
  destruct data as [| | | |items|l]; try reflexivity.
  - destruct (list_has_str "author" items); [reflexivity|].
    destruct (list_has_str "updateAuthor" items); reflexivity.
  - destruct (h !! l) as [d|]; [|reflexivity].
    unfold alloc. cbv beta iota.
    assert (H1 : h `prefix_of` (h ++ [d])%list) by (apply prefix_app_r; reflexivity).
    pose proof (normalize_user_slot_prefix h _ "author" (List.length h) H1
                  (le_n _)) as H2.
    destruct (normalize_user_slot "author" _ _) as [[[]|?] h2];
      simpl in H2; [|exact H2].
    pose proof (normalize_user_slot_prefix h _ "updateAuthor" (List.length h)
                  H2 (le_n _)) as H3.
    destruct (normalize_user_slot "updateAuthor" _ _) as [[[]|?] h3];
      simpl in H3; exact H3.
Qed.

(** A slot that holds a non-empty user: after it, the slot refers to the
    new object [length hi], which has the contents the user mapper gives. *)
Lemma normalize_user_slot_contents (h0 hi : heap) k f u ud :
  h0 `prefix_of` hi -> f < List.length hi ->
  dict_get hi f k = Some (VRef u) ->
  h0 !! u = Some ud -> closed_dict h0 ud -> ud <> ∅ ->
  let h' := snd (normalize_user_slot k f hi) in
  List.length hi < List.length h'
  /\ normalized_user h0 h' ud (List.length hi).
Proof.
  intros Hp Hf Hget Hu Hc Hne h'. subst h'.
  unfold normalize_user_slot. rewrite Hget.
  pose proof (prefix_lookup_Some h0 hi u ud Hu Hp) as Hu'.
  destruct (normalize_user_response_lookup hi u ud Hu' Hne)
    as (Hok & Hp2 & Hsome & Hid & Hmail & Hoth).
  destruct (normalize_user_response (VRef u) hi) as [[v|e] h2];
    simpl in Hok, Hp2, Hsome, Hid, Hmail, Hoth; [|discriminate Hok].
  simpl snd. split.
  - rewrite dict_set_length. apply lookup_lt_is_Some, Hsome.
  - rewrite (expected_account_id_prefix h0 (hi ++ [ud])%list ud) in Hid
      by (try exact Hc; apply prefix_app_r, Hp).
    unfold normalized_user.
    rewrite !dict_get_set_other by lia.
    split; [exact Hid|]. split; [exact Hmail|].
    intros k' H1 H2. rewrite dict_get_set_other by lia. apply Hoth; assumption.
Qed.

Lemma normalized_user_lookup (h h' h'' : heap) ud m :
  h'' !! m = h' !! m ->
  normalized_user h h' ud m -> normalized_user h h'' ud m.
Proof. unfold normalized_user, dict_get. intros ->. auto. Qed.

(** The user mapper gives an empty dictionary back as it is. *)
Lemma mapped_entry_empty (h : heap) u :
  h !! u = Some ∅ -> mapped_entry h (Some (VRef u)) = Some (VRef u).
Proof.
  intros Hu. unfold mapped_entry, normalize_user_response.
  rewrite (truthy_empty_dict h u Hu). reflexivity.
Qed.

(** C9: the three response mappers leave every object of the store as it
    was (the input and all dictionaries nested in it included): the new
    store extends the old one by new objects only.  An empty issue is
    returned as it is.  For a non-empty issue the result is a new
    dictionary that agrees with the input on every key but [fields]; when
    [fields] is a dictionary, the result's [fields] is a new dictionary
    that agrees with it on every key but [assignee], [reporter] and
    [creator], and these three carry what the user mapper returns for the
    input's entry: an entry that is not a dictionary, and an empty
    dictionary, stay; a non-empty user is replaced by a new dictionary
    with the account id of the fallback chain, [emailAddress] always
    there, and every other key as in the user.  Otherwise [fields] is as
    in the input. *)
Theorem mappers_copy_on_write (h : heap) (data : value) :
  h `prefix_of` snd (normalize_issue_response data h)
  /\ h `prefix_of` snd (normalize_user_response data h)
  /\ h `prefix_of` snd (normalize_comment_response data h)
  /\ (forall l d,
        data = VRef l -> h !! l = Some d -> d <> ∅ ->
        let h' := snd (normalize_issue_response data h) in
        exists n,
          fst (normalize_issue_response data h) = Ok (VRef n)
          /\ List.length h <= n
          /\ (forall k, k <> "fields" -> dict_get h' n k = d !! k)
          /\ match d !! "fields" with
             | Some (VRef fl) =>
                 forall fd, h !! fl = Some fd ->
                   exists f,
                     dict_get h' n "fields" = Some (VRef f)
                     /\ List.length h <= f
                     /\ (forall k, k ∉ user_slots ->
                                   dict_get h' f k = fd !! k)
                     /\ Forall (fun k =>
                                  exists hk,
                                    h `prefix_of` hk
                                    /\ dict_get h' f k
                                       = mapped_entry hk (fd !! k))
                               user_slots
                     /\ Forall (fun k =>
                                  match fd !! k with
                                  | Some (VRef u) =>
                                      forall ud,
                                        h !! u = Some ud -> closed_dict h ud ->
                                        if decide (ud = ∅)
                                        then dict_get h' f k = Some (VRef u)
                                        else
                                          exists m,
                                            dict_get h' f k = Some (VRef m)
                                            /\ List.length h <= m
                                            /\ normalized_user h h' ud m
                                  | o => dict_get h' f k = o
                                  end)
                               user_slots
             | o => dict_get h' n "fields" = o
             end)
  /\ (forall l,
        data = VRef l -> h !! l = Some ∅ ->
        normalize_issue_response data h = (Ok data, h)
        /\ normalize_comment_response data h = (Ok data, h)
        /\ normalize_user_response data h = (Ok data, h)).
Proof.
  split; [apply normalize_issue_response_prefix|].
  split; [apply normalize_user_response_prefix; reflexivity|].
  split; [apply normalize_comment_response_prefix|].
  split.
  2:{ intros l -> Hl.
      unfold normalize_issue_response, normalize_comment_response,
        normalize_user_response.
      rewrite (truthy_empty_dict h l Hl). auto. }
  intros l d -> Hd Hne h'. exists (List.length h). subst h'.
  rewrite (normalize_issue_response_unfold h l d Hd Hne). cbv zeta.
  set (n := List.length h). set (f := S (List.length h)).
  set (h1 := (h ++ [d])%list).
  assert (Hn1 : h1 !! n = Some d) by apply lookup_alloc_new.
  assert (Hp1 : h `prefix_of` h1) by (apply prefix_app_r; reflexivity).
  assert (Hplain :
            fst (Ok (VRef n), h1) = Ok (VRef n)
            /\ n <= n
            /\ (forall k, k <> "fields" ->
                          dict_get (snd (Ok (VRef n), h1)) n k = d !! k)
            /\ dict_get (snd (Ok (VRef n), h1)) n "fields" = d !! "fields").
  { simpl. repeat split; try lia; intros; apply dict_get_alloc. }
  destruct (d !! "fields") as [[| | | | |fl]|] eqn:Hfields;
    try exact Hplain.
  destruct (h1 !! fl) as [fd|] eqn:Hfl.
  2:{ destruct Hplain as (H1 & H2 & H3 & _).
      split; [exact H1|]. split; [exact H2|]. split; [exact H3|].
      intros fd Hfd. apply (lookup_app_l_Some h [d]) in Hfd.
      fold h1 in Hfd. congruence. }
  clear Hplain. cbv zeta. simpl fst. simpl snd.
  set (h2 := (h1 ++ [fd])%list).
  set (h3 := snd (normalize_user_slot "assignee" f h2)).
  set (h4 := snd (normalize_user_slot "reporter" f h3)).
  set (h5 := snd (normalize_user_slot "creator" f h4)).
  assert (Hl1 : List.length h1 = f)
    by (unfold h1, f; rewrite length_app; simpl; lia).
  assert (Hl2 : List.length h2 = S f)
    by (unfold h2; rewrite length_app, Hl1; simpl; lia).
  pose proof (normalize_user_slot_length h2 "assignee" f) as Hl3.
  pose proof (normalize_user_slot_length h3 "reporter" f) as Hl4.
  pose proof (normalize_user_slot_length h4 "creator" f) as Hl5.
  fold h3 in Hl3. fold h4 in Hl4. fold h5 in Hl5.
  assert (Hnf : n <> f) by (unfold n, f; lia).
  assert (Hn2 : h2 !! n = Some d) by (apply lookup_app_l_Some, Hn1).
  assert (Hf2 : h2 !! f = Some fd)
    by (unfold h2; rewrite <- Hl1; apply lookup_alloc_new).
  assert (Hn3 : h3 !! n = Some d).
  { unfold h3. rewrite normalize_user_slot_lookup_ne;
      [exact Hn2 | unfold n, f in *; lia | exact Hnf]. }
  assert (Hn4 : h4 !! n = Some d).
  { unfold h4. rewrite normalize_user_slot_lookup_ne;
      [exact Hn3 | unfold n, f in *; lia | exact Hnf]. }
  assert (Hn5 : h5 !! n = Some d).
  { unfold h5. rewrite normalize_user_slot_lookup_ne;
      [exact Hn4 | unfold n, f in *; lia | exact Hnf]. }
  assert (Hs5 : is_Some (h5 !! n)) by (rewrite Hn5; eauto).
  assert (Hp2 : h `prefix_of` h2) by (apply prefix_app_r, Hp1).
  assert (Hhf : List.length h <= f) by (unfold f; lia).
  assert (Hp3 : h `prefix_of` h3)
    by (apply normalize_user_slot_prefix; assumption).
  assert (Hp4 : h `prefix_of` h4)
    by (apply normalize_user_slot_prefix; assumption).
  assert (G2 : forall k, dict_get h2 f k = fd !! k)
    by (intros k; apply dict_get_lookup, Hf2).
  pose proof (fun k => normalize_user_slot_get h2 "assignee" f k
                         ltac:(lia)) as G3.
  pose proof (fun k => normalize_user_slot_get h3 "reporter" f k
                         ltac:(lia)) as G4.
  pose proof (fun k => normalize_user_slot_get h4 "creator" f k
                         ltac:(lia)) as G5.
  fold h3 in G3. fold h4 in G4. fold h5 in G5.
  assert (G : forall k, dict_get (dict_set h5 n "fields" (VRef f)) f k
                        = dict_get h5 f k)
    by (intros k; apply dict_get_set_other, Hnf).
  split; [reflexivity|]. split; [lia|]. split.
  { intros k Hk. rewrite dict_get_set by exact Hs5.
    rewrite decide_False by congruence.
    apply dict_get_lookup, Hn5. }
  intros fd' Hfd'.
  assert (fd' = fd) as ->.
  { apply (lookup_app_l_Some h [d]) in Hfd'. fold h1 in Hfd'. congruence. }
  exists f. split.
  { rewrite dict_get_set by exact Hs5. rewrite decide_True; reflexivity. }
  split; [exact Hhf|]. split.
  { intros k Hk. unfold user_slots in Hk.
    rewrite !not_elem_of_cons in Hk. destruct Hk as (Ha & Hr & Hc & _).
    rewrite G, G5, decide_False by congruence.
    rewrite G4, decide_False by congruence.
    rewrite G3, decide_False by congruence.
    apply G2. }
  set (hout := dict_set h5 n "fields" (VRef f)).
  (* what each slot reads, and what the result holds in it *)
  assert (D3 : dict_get h3 f "reporter" = fd !! "reporter").
  { rewrite G3, decide_False by discriminate. apply G2. }
  assert (D4 : dict_get h4 f "creator" = fd !! "creator").
  { rewrite G4, decide_False by discriminate.
    rewrite G3, decide_False by discriminate. apply G2. }
  assert (M2 : dict_get hout f "assignee" = mapped_entry h2 (fd !! "assignee")).
  { unfold hout. rewrite G, G5, decide_False by discriminate.
    rewrite G4, decide_False by discriminate.
    rewrite G3, decide_True by reflexivity. rewrite G2. reflexivity. }
  assert (M3 : dict_get hout f "reporter" = mapped_entry h3 (fd !! "reporter")).
  { unfold hout. rewrite G, G5, decide_False by discriminate.
    rewrite G4, decide_True by reflexivity. rewrite D3. reflexivity. }
  assert (M4 : dict_get hout f "creator" = mapped_entry h4 (fd !! "creator")).
  { unfold hout. rewrite G, G5, decide_True by reflexivity.
    rewrite D4. reflexivity. }
  (* objects other than the two copies are not touched by the later steps *)
  assert (L5 : forall m, m < List.length h4 -> m <> f -> h5 !! m = h4 !! m)
    by (intros m Hm Hmf; apply normalize_user_slot_lookup_ne; assumption).
  assert (L4 : forall m, m < List.length h3 -> m <> f -> h4 !! m = h3 !! m)
    by (intros m Hm Hmf; apply normalize_user_slot_lookup_ne; assumption).
  assert (Lout : forall m, m <> n -> hout !! m = h5 !! m)
    by (intros m Hm; apply dict_set_lookup_ne; congruence).
  split.
  { unfold user_slots. repeat apply Forall_cons_2; [| | |apply Forall_nil_2].
    - exists h2. split; [exact Hp2 | exact M2].
    - exists h3. split; [exact Hp3 | exact M3].
    - exists h4. split; [exact Hp4 | exact M4]. }
  unfold user_slots. repeat apply Forall_cons_2; [| | |apply Forall_nil_2].
  - destruct (fd !! "assignee") as [[| | | | |u]|] eqn:Ek; try exact M2.
    intros ud Hu Hc.
    pose proof (prefix_lookup_Some h h2 u ud Hu Hp2) as Hu2.
    destruct (decide (ud = ∅)) as [->|Hud].
    + etransitivity; [exact M2|]. apply mapped_entry_empty, Hu2.
    + destruct (normalize_user_slot_contents h h2 "assignee" f u ud Hp2
                  ltac:(lia) ltac:(rewrite G2; exact Ek) Hu Hc Hud)
        as [Hlt Hnu].
      fold h3 in Hlt, Hnu.
      exists (List.length h2). split.
      { etransitivity; [exact M2|]. unfold mapped_entry.
        destruct (normalize_user_response_lookup h2 u ud Hu2 Hud) as (-> & _).
        reflexivity. }
      split; [lia|].
      apply (normalized_user_lookup h h3 hout); [|exact Hnu].
      rewrite Lout, L5, L4 by lia. reflexivity.
  - destruct (fd !! "reporter") as [[| | | | |u]|] eqn:Ek; try exact M3.
    intros ud Hu Hc.
    pose proof (prefix_lookup_Some h h3 u ud Hu Hp3) as Hu3.
    destruct (decide (ud = ∅)) as [->|Hud].
    + etransitivity; [exact M3|]. apply mapped_entry_empty, Hu3.
    + destruct (normalize_user_slot_contents h h3 "reporter" f u ud Hp3
                  ltac:(lia) D3 Hu Hc Hud) as [Hlt Hnu].
      fold h4 in Hlt, Hnu.
      exists (List.length h3). split.
      { etransitivity; [exact M3|]. unfold mapped_entry.
        destruct (normalize_user_response_lookup h3 u ud Hu3 Hud) as (-> & _).
        reflexivity. }
      split; [lia|].
      apply (normalized_user_lookup h h4 hout); [|exact Hnu].
      rewrite Lout, L5 by lia. reflexivity.
  - destruct (fd !! "creator") as [[| | | | |u]|] eqn:Ek; try exact M4.
    intros ud Hu Hc.
    assert (Hp4' : h `prefix_of` h4) by exact Hp4.
    pose proof (prefix_lookup_Some h h4 u ud Hu Hp4) as Hu4.
    destruct (decide (ud = ∅)) as [->|Hud].
    + etransitivity; [exact M4|]. apply mapped_entry_empty, Hu4.
    + destruct (normalize_user_slot_contents h h4 "creator" f u ud Hp4
                  ltac:(lia) D4 Hu Hc Hud) as [Hlt Hnu].
      fold h5 in Hlt, Hnu.
      exists (List.length h4). split.
      { etransitivity; [exact M4|]. unfold mapped_entry.
        destruct (normalize_user_response_lookup h4 u ud Hu4 Hud) as (-> & _).
        reflexivity. }
      split; [lia|].
      apply (normalized_user_lookup h h5 hout); [|exact Hnu].
      rewrite Lout by lia. reflexivity.
Qed.

Lemma mappers_copy_on_write_witness :
  let issue : dict := <["key" := VStr "PROJ-1"]> {[ "fields" := VRef 1 ]} in
  let fields : dict := {[ "assignee" := VRef 2 ]} in
  let user : dict := {[ "name" := VStr "bob" ]} in
  let h : heap := [issue; fields; user] in
  let h' := snd (normalize_issue_response (VRef 0) h) in
  h `prefix_of` h'
  /\ exists n,
      fst (normalize_issue_response (VRef 0) h) = Ok (VRef n)
      /\ 3 <= n
      /\ dict_get h' n "key" = Some (VStr "PROJ-1")
      /\ exists f m,
           dict_get h' n "fields" = Some (VRef f)
           /\ dict_get h' f "assignee" = Some (VRef m)
           /\ dict_get h' m "accountId" = Some (VStr "bob")
           /\ dict_get h' m "emailAddress" = Some VNone.
Proof.
  intros issue fields user h h'.
  destruct (mappers_copy_on_write h (VRef 0)) as (Hp & _ & _ & Hs & _).
  split; [exact Hp|].
  destruct (Hs 0 issue eq_refl eq_refl (insert_non_empty _ _ _))
    as (n & Hok & Hn & Hkeys & Hf).
  exists n. split; [exact Hok|]. split; [exact Hn|]. split.
  { subst h'. rewrite (Hkeys "key") by discriminate. reflexivity. }
  assert (Ef : issue !! "fields" = Some (VRef 1)) by reflexivity.
  rewrite Ef in Hf.
  destruct (Hf fields eq_refl) as (f & Hfields & _ & _ & _ & Hslots).
  unfold user_slots in Hslots. apply Forall_cons in Hslots as [Ha _].
  cbv beta in Ha.
  assert (Ea : fields !! "assignee" = Some (VRef 2)) by reflexivity.
  rewrite Ea in Ha.
  assert (Hc : closed_dict h user).
  { intros k x H. apply lookup_singleton_Some in H as [_ H]. discriminate H. }
  specialize (Ha user eq_refl Hc).
  rewrite decide_False in Ha by apply insert_non_empty.
  destruct Ha as (m & Hm & _ & Hacc & Hmail & _).
  exists f, m. split; [exact Hfields|]. split; [exact Hm|].
  split; [etransitivity; [exact Hacc|] | etransitivity; [exact Hmail|]];
    reflexivity.
Defined.

(** The same issue, evaluated: the copies are the objects 3 and 4, the
    normalised assignee is the object 5, and the three objects of the
    input are as before. *)
Example normalize_issue_response_example :
  let issue : dict := <["key" := VStr "PROJ-1"]> {[ "fields" := VRef 1 ]} in
  let fields : dict := {[ "assignee" := VRef 2 ]} in
  let user : dict := {[ "name" := VStr "bob" ]} in
  let out := normalize_issue_response (VRef 0) [issue; fields; user] in
  fst out = Ok (VRef 3)
  /\ dict_get (snd out) 3 "fields" = Some (VRef 4)
  /\ dict_get (snd out) 4 "assignee" = Some (VRef 5)
  /\ dict_get (snd out) 5 "accountId" = Some (VStr "bob")
  /\ dict_get (snd out) 5 "emailAddress" = Some VNone
  /\ dict_get (snd out) 2 "accountId" = None
  /\ dict_get (snd out) 1 "assignee" = Some (VRef 2)
  /\ dict_get (snd out) 0 "fields" = Some (VRef 1).
Proof. vm_compute. repeat split. Qed.

End MapperFacts.

Module PagedFacts.
Import Store Config Client StoreFacts.

Section Loop.
Variables (m : http_method) (u : string) (a : bool) (cur : loc).

Lemma get_paged_loop_last (last : dict) more acc w :
  last !! "nextPageToken" = None ->
  get_paged_loop (ReplyFresh last :: more) m u a cur acc w
  = (Ok (acc ++ [VRef (List.length (store w))])%list,
     set_store (store w ++ [last])%list
       (set_api_replies more
          (log (EvRequest m u (default ∅ (store w !! cur)) a) w))).
Proof.
  intros Hlast. simpl. rewrite dict_get_alloc, Hlast. reflexivity.
Qed.

Lemma get_paged_loop_next (page : dict) tok rest acc w :
  page !! "nextPageToken" = Some tok ->
  get_paged_loop (ReplyFresh page :: rest) m u a cur acc w
  = get_paged_loop rest m u a cur
      (acc ++ [VRef (List.length (store w))])%list
      (set_store
         (dict_set (store w ++ [page])%list cur "nextPageToken" tok)
         (set_api_replies rest
            (log (EvRequest m u (default ∅ (store w !! cur)) a) w))).
Proof.
  intros Hpage. simpl. rewrite dict_get_alloc, Hpage. reflexivity.
Qed.

Lemma get_paged_loop_not_dict v more acc w :
  is_dict v = false ->
  exists msg,
    fst (get_paged_loop (ReplyValue v :: more) m u a cur acc w)
    = Raise (ValueError msg).
Proof.
  intros Hv. simpl. destruct v; try discriminate; eexists; reflexivity.
Qed.

Lemma get_paged_loop_pages (pages : list dict) :
  forall (last : dict) more acc w data0,
    Forall has_token pages ->
    last !! "nextPageToken" = None ->
    store w !! cur = Some data0 ->
    let out :=
      get_paged_loop (map ReplyFresh (pages ++ [last]) ++ more)%list
                     m u a cur acc w in
    let base := List.length (store w) in
    fst out = Ok (acc ++ map VRef (seq base (S (List.length pages))))%list
    /\ trace (snd out)
       = (trace w ++ expected_requests m u a data0 (pages ++ [last]))%list
    /\ (forall i d, (pages ++ [last])%list !! i = Some d ->
                    store (snd out) !! (base + i) = Some d)
    /\ (forall l, l < base -> l <> cur ->
                  store (snd out) !! l = store w !! l)
    /\ store (snd out) !! cur = Some (fold_left next_params pages data0)
    /\ api_replies (snd out) = more
    /\ cookie_session (snd out) = cookie_session w.
Proof.
  induction pages as [|page pages IH];
    intros last more acc w data0 Htok Hlast Hcur out base; subst out.
  - simpl app. simpl map. rewrite get_paged_loop_last by exact Hlast.
    simpl fst. simpl snd. simpl. rewrite Hcur.
    pose proof (lookup_lt_Some _ _ _ Hcur) as Hlt.
    repeat split.
    + intros [|i] d Hi; simpl in Hi; [|destruct i; discriminate].
      injection Hi as <-. rewrite Nat.add_0_r. apply lookup_alloc_new.
    + intros l Hl _. apply lookup_app_l, Hl.
    + apply lookup_app_l_Some, Hcur.
  - apply Forall_cons in Htok as [[tok Hpage] Htok].
    simpl app. simpl map.
    rewrite (get_paged_loop_next page tok) by exact Hpage.
    pose proof (lookup_lt_Some _ _ _ Hcur) as Hlt.
    set (w3 := set_store _ _).
    assert (Hcur3 : store w3 !! cur = Some (next_params data0 page)).
    { unfold w3, next_params. simpl store. rewrite Hpage.
      apply dict_set_lookup, lookup_app_l_Some, Hcur. }
    assert (Hlen3 : List.length (store w3) = S (List.length (store w))).
    { unfold w3. simpl store.
      rewrite dict_set_length, length_app. simpl. lia. }
    destruct (IH last more (acc ++ [VRef (List.length (store w))])%list
                w3 _ Htok Hlast Hcur3)
      as (Hres & Htr & Hpages & Hframe & Hfin & Hrep & Hck).
    rewrite Hlen3 in *. subst base.
    repeat split.
    + rewrite Hres, <- app_assoc. reflexivity.
    + rewrite Htr. unfold w3. simpl trace. rewrite Hcur.
      rewrite <- app_assoc. reflexivity.
    + intros [|i] d Hi; simpl in Hi.
      * injection Hi as <-. rewrite Nat.add_0_r.
        rewrite Hframe by lia.
        unfold w3. simpl store.
        rewrite dict_set_lookup_ne by lia.
        apply lookup_alloc_new.
      * replace (List.length (store w) + S i)
          with (S (List.length (store w)) + i) by lia.
        apply Hpages, Hi.
    + intros l Hl Hne. rewrite Hframe by (try lia; exact Hne).
      unfold w3. simpl store.
      rewrite dict_set_lookup_ne by congruence.
      apply lookup_app_l, Hl.
    + exact Hfin.
    + exact Hrep.
    + exact Hck.
Qed.

Lemma get_paged_loop_bad_page (pages : list dict) :
  forall v more acc w data0,
    Forall has_token pages ->
    is_dict v = false ->
    store w !! cur = Some data0 ->
    exists msg,
      fst (get_paged_loop (map ReplyFresh pages ++ ReplyValue v :: more)%list
                          m u a cur acc w)
      = Raise (ValueError msg).
Proof.
  induction pages as [|page pages IH];
    intros v more acc w data0 Htok Hv Hcur.
  - apply get_paged_loop_not_dict, Hv.
  - apply Forall_cons in Htok as [[tok Hpage] Htok].
    simpl app. simpl map.
    rewrite (get_paged_loop_next page tok) by exact Hpage.
    eapply IH; [exact Htok | exact Hv |].
    simpl store. apply dict_set_lookup, lookup_app_l_Some, Hcur.
Qed.

Lemma expected_requests_length data (ds : list dict) :
  List.length (expected_requests m u a data ds) = List.length ds.
Proof.
  revert data; induction ds as [|d ds IH]; intros data; simpl;
    [reflexivity | rewrite IH; reflexivity].
Qed.

(** The request after a page with a token carries that token. *)
Lemma expected_requests_token (ds : list dict) :
  forall data i d tok,
    ds !! i = Some d -> d !! "nextPageToken" = Some tok ->
    S i < List.length ds ->
    exists data',
      expected_requests m u a data ds !! S i
      = Some (EvRequest m u data' a)
      /\ data' !! "nextPageToken" = Some tok.
Proof.
  induction ds as [|d0 ds IH]; intros data i d tok Hi Htok Hlen;
    [discriminate|].
  destruct i as [|i]; simpl in Hi.
  - injection Hi as ->.
    destruct ds as [|d1 ds]; [simpl in Hlen; lia|].
    exists (next_params data d). split; [reflexivity|].
    unfold next_params. rewrite Htok. apply lookup_insert_eq.
  - simpl in Hlen.
    destruct (IH (next_params data d0) i d tok Hi Htok ltac:(lia))
      as (data' & Hreq & Hdata).
    exists data'. split; [exact Hreq | exact Hdata].
Qed.
End Loop.

Lemma next_params_other (data page : dict) k :
  k <> "nextPageToken" -> next_params data page !! k = data !! k.
Proof.
  intros Hk. unfold next_params.
  destruct (page !! "nextPageToken"); [|reflexivity].
  apply lookup_insert_ne. congruence.
Qed.

Lemma fold_next_params_other (pages : list dict) :
  forall data k, k <> "nextPageToken" ->
                 fold_left next_params pages data !! k = data !! k.
Proof.
  induction pages as [|p pages IH]; intros data k Hk; simpl;
    [reflexivity|].
  rewrite IH by exact Hk. apply next_params_other, Hk.
Qed.

(** Where [get_paged] keeps its parameters: the caller's dictionary when
    that is truthy, a new empty one otherwise. *)
Lemma truthy_ref_inv (h : heap) l :
  truthy h (VRef l) = true -> exists d, h !! l = Some d /\ d <> ∅.
Proof.
  simpl. destruct (h !! l) as [d|]; [|discriminate].
  intros Ht. exists d. split; [reflexivity|].
  intros ->. discriminate Ht.
Qed.

Lemma get_paged_cases is_cloud_url c m u params a w :
  is_cloud is_cloud_url c = true ->
  (exists l d,
      params = Some l /\ store w !! l = Some d /\ d <> ∅
      /\ get_paged is_cloud_url c m u params a w
         = get_paged_loop (api_replies w) m u a l [] w)
  \/ ((forall l d, params = Some l -> store w !! l = Some d -> d = ∅)
      /\ get_paged is_cloud_url c m u params a w
         = get_paged_loop (api_replies w) m u a (List.length (store w)) []
             (fresh_params w)).
Proof.
  intros Hcloud. unfold get_paged. rewrite Hcloud. simpl negb. cbv iota.
  destruct params as [l|].
  - destruct (truthy (store w) (VRef l)) eqn:Ht.
    + left. destruct (truthy_ref_inv _ _ Ht) as (d & Hd & Hne).
      exists l, d. auto.
    + right. split; [|reflexivity].
      intros l' d Hl Hd. injection Hl as <-.
      destruct (decide (d = ∅)) as [|Hne]; [assumption|].
      rewrite (truthy_dict _ _ _ Hd Hne) in Ht. discriminate Ht.
  - right. split; [intros l d Hl; discriminate Hl | reflexivity].
Qed.

Lemma pages_at_seq (h : heap) base (ds : list dict) :
  (forall i d, ds !! i = Some d -> h !! (base + i) = Some d) ->
  Forall2 (page_at h) (map VRef (seq base (List.length ds))) ds.
Proof.
  revert base; induction ds as [|d ds IH]; intros base H; simpl;
    [constructor|].
  constructor.
  - exists base. split; [reflexivity|].
    rewrite <- (Nat.add_0_r base). apply H. reflexivity.
  - apply IH. intros i d' Hi.
    replace (S base + i) with (base + S i) by lia. apply H. exact Hi.
Qed.

(** C3: on a Cloud client, when the collaborator answers with [n >= 1]
    dictionaries of which all but the last carry [nextPageToken],
    [get_paged] returns exactly these [n] pages in order and sends [n]
    requests, the request after page [i] carrying the token of page [i];
    when instead an answer is not a dictionary, [get_paged] raises
    [ValueError]. *)
Theorem get_paged_contract (is_cloud_url : option string -> bool)
    (c : JiraConfig) (m : http_method) (u : string)
    (params : option loc) (a : bool) (w : world)
    (pages : list dict) (more : list reply) :
  is_cloud is_cloud_url c = true ->
  Forall has_token pages ->
  (forall last,
      last !! "nextPageToken" = None ->
      api_replies w = (map ReplyFresh (pages ++ [last]) ++ more)%list ->
      let out := get_paged is_cloud_url c m u params a w in
      exists refs reqs,
        fst out = Ok refs
        /\ Forall2 (page_at (store (snd out))) refs (pages ++ [last])
        /\ trace (snd out) = (trace w ++ reqs)%list
        /\ List.length reqs = S (List.length pages)
        /\ (forall i d tok,
              pages !! i = Some d -> d !! "nextPageToken" = Some tok ->
              exists data,
                reqs !! S i = Some (EvRequest m u data a)
                /\ data !! "nextPageToken" = Some tok))
  /\ (forall v,
        is_dict v = false ->
        api_replies w = (map ReplyFresh pages ++ ReplyValue v :: more)%list ->
        exists msg,
          fst (get_paged is_cloud_url c m u params a w)
          = Raise (ValueError msg)).
Proof.
  intros Hcloud Htok.
  assert (Hloop :
            exists cur w1 data0,
              get_paged is_cloud_url c m u params a w
              = get_paged_loop (api_replies w) m u a cur [] w1
              /\ store w1 !! cur = Some data0 /\ trace w1 = trace w).
  { destruct (get_paged_cases is_cloud_url c m u params a w Hcloud)
      as [(l & d & _ & Hd & _ & Heq) | [_ Heq]].
    - exists l, w, d. auto.
    - exists (List.length (store w)), (fresh_params w), ∅.
      split; [exact Heq|]. split; [apply lookup_alloc_new | reflexivity]. }
  destruct Hloop as (cur & w1 & data0 & Heq & Hcur & Htr1).
  split.
  - intros last Hlast Hrep out. subst out. rewrite Heq, Hrep.
    destruct (get_paged_loop_pages m u a cur pages last more [] w1 data0
                Htok Hlast Hcur)
      as (Hres & Htr & Hpages & _).
    exists (map VRef (seq (List.length (store w1)) (S (List.length pages)))),
           (expected_requests m u a data0 (pages ++ [last])).
    split; [exact Hres|]. split.
    { replace (S (List.length pages))
        with (List.length (pages ++ [last])%list)
        by (rewrite length_app; simpl; lia).
      apply pages_at_seq, Hpages. }
    split; [rewrite Htr, Htr1; reflexivity|]. split.
    { rewrite expected_requests_length, length_app. simpl. lia. }
    intros i d tok Hi Hd.
    apply (expected_requests_token m u a (pages ++ [last])%list data0 i d tok).
    + apply lookup_app_l_Some, Hi.
    + exact Hd.
    + apply lookup_lt_Some in Hi. rewrite length_app. simpl. lia.
  - intros v Hv Hrep. rewrite Heq, Hrep.
    eapply get_paged_loop_bad_page; eauto.
Qed.

Lemma get_paged_contract_witness :
  let page1 : dict := {[ "nextPageToken" := VStr "t1" ]} in
  let page2 : dict := {[ "isLast" := VBool true ]} in
  let w := mkWorld [] None Session.new_session [] [] []
                   [ReplyFresh page1; ReplyFresh page2] in
  let out := get_paged Examples.example_is_cloud_url Examples.cloud_config
                       GET "/rest/api/3/search/jql" None false w in
  exists refs reqs,
    fst out = Ok refs
    /\ Forall2 (page_at (store (snd out))) refs [page1; page2]
    /\ trace (snd out) = reqs
    /\ List.length reqs = 2
    /\ exists data,
        reqs !! 1 = Some (EvRequest GET "/rest/api/3/search/jql" data false)
        /\ data !! "nextPageToken" = Some (VStr "t1").
Proof.
  intros page1 page2 w out.
  destruct (get_paged_contract Examples.example_is_cloud_url
              Examples.cloud_config GET "/rest/api/3/search/jql" None false
              w [page1] [])
    as [Hpages _].
  - reflexivity.
  - repeat constructor. exists (VStr "t1"). reflexivity.
  - destruct (Hpages page2 eq_refl eq_refl)
      as (refs & reqs & Hres & Hat & Htr & Hlen & Htoks).
    exists refs, reqs. repeat (split; [assumption|]).
    exact (Htoks 0 page1 (VStr "t1") eq_refl eq_refl).
Defined.

(** C10, as stated, fails: an empty dictionary passed by the caller is
    falsy, [params_or_json or {}] replaces it by a new dictionary, and
    the caller's dictionary is still empty after a call of two pages. *)
Lemma get_paged_empty_params_counterexample :
  let page1 : dict := {[ "nextPageToken" := VStr "t1" ]} in
  let page2 : dict := {[ "isLast" := VBool true ]} in
  let w := mkWorld [∅] None Session.new_session [] [] []
                   [ReplyFresh page1; ReplyFresh page2] in
  let out := get_paged Examples.example_is_cloud_url Examples.cloud_config
                       POST "/rest/api/3/search/jql" (Some 0) false w in
  fst out = Ok [VRef 2; VRef 3]
  /\ dict_get (store (snd out)) 0 "nextPageToken" = None
  /\ dict_get (store (snd out)) 1 "nextPageToken" = Some (VStr "t1").
Proof. vm_compute. repeat split. Qed.

(** C10, amended: [get_paged] keeps the caller's dictionary as its
    parameter set when that dictionary is not empty: after a call over
    several pages, that dictionary holds under [nextPageToken] the token
    of the last page but one, its other keys and the other objects of the
    store being as before.  An empty dictionary passed by the caller is
    left empty. *)
Theorem get_paged_aliases_params (is_cloud_url : option string -> bool)
    (c : JiraConfig) (m : http_method) (u : string) (l : loc) (a : bool)
    (w : world) (d0 : dict) (pages : list dict) (pen last : dict)
    (tok : value) (more : list reply) :
  is_cloud is_cloud_url c = true ->
  store w !! l = Some d0 ->
  Forall has_token pages ->
  pen !! "nextPageToken" = Some tok ->
  last !! "nextPageToken" = None ->
  api_replies w = (map ReplyFresh (pages ++ [pen; last]) ++ more)%list ->
  let out := get_paged is_cloud_url c m u (Some l) a w in
  (d0 <> ∅ ->
   dict_get (store (snd out)) l "nextPageToken" = Some tok
   /\ (forall k, k <> "nextPageToken" ->
                 dict_get (store (snd out)) l k = d0 !! k)
   /\ (forall l', l' < List.length (store w) -> l' <> l ->
                  store (snd out) !! l' = store w !! l'))
  /\ (d0 = ∅ ->
      forall l', l' < List.length (store w) ->
                 store (snd out) !! l' = store w !! l').
Proof.
  intros Hcloud Hd0 Htok Hpen Hlast Hrep out. subst out.
  assert (Htok' : Forall has_token (pages ++ [pen])).
  { apply Forall_app. split; [exact Htok|].
    repeat constructor. exists tok. exact Hpen. }
  replace (pages ++ [pen; last])%list with ((pages ++ [pen]) ++ [last])%list
    in Hrep by (rewrite <- app_assoc; reflexivity).
  destruct (get_paged_cases is_cloud_url c m u (Some l) a w Hcloud)
    as [(l' & d & Hl & Hd & Hne & Heq) | [Hempty Heq]].
  - injection Hl as <-. rewrite Hd0 in Hd. injection Hd as <-.
    rewrite Heq, Hrep.
    destruct (get_paged_loop_pages m u a l (pages ++ [pen])%list last more []
                w d0 Htok' Hlast Hd0)
      as (_ & _ & _ & Hframe & Hfin & _).
    split; [|intros ->; contradiction].
    intros _. split; [|split].
    + rewrite (dict_get_lookup _ _ _ _ Hfin).
      rewrite fold_left_app. simpl. unfold next_params at 1.
      rewrite Hpen. apply lookup_insert_eq.
    + intros k Hk. rewrite (dict_get_lookup _ _ _ _ Hfin).
      apply fold_next_params_other, Hk.
    + exact Hframe.
  - pose proof (Hempty l d0 eq_refl Hd0) as ->.
    split; [intros Hne; contradiction|]. intros _ l' Hl'.
    rewrite Heq, Hrep.
    destruct (get_paged_loop_pages m u a (List.length (store w))
                (pages ++ [pen])%list last more [] (fresh_params w) ∅
                Htok' Hlast (lookup_alloc_new _ _))
      as (_ & _ & _ & Hframe & _).
    rewrite Hframe.
    + simpl. apply lookup_app_l, Hl'.
    + simpl. rewrite length_app. simpl. lia.
    + lia.
Qed.

Lemma get_paged_aliases_params_witness :
  let params : dict := {[ "jql" := VStr "project = PROJ" ]} in
  let page1 : dict := {[ "nextPageToken" := VStr "t1" ]} in
  let page2 : dict := {[ "isLast" := VBool true ]} in
  let w := mkWorld [params] None Session.new_session [] [] []
                   [ReplyFresh page1; ReplyFresh page2] in
  let out := get_paged Examples.example_is_cloud_url Examples.cloud_config
                       POST "/rest/api/3/search/jql" (Some 0) false w in
  dict_get (store (snd out)) 0 "nextPageToken" = Some (VStr "t1")
  /\ dict_get (store (snd out)) 0 "jql" = Some (VStr "project = PROJ").
Proof.
  intros params page1 page2 w out.
  destruct (get_paged_aliases_params Examples.example_is_cloud_url
              Examples.cloud_config POST "/rest/api/3/search/jql" 0 false
              w params [] page1 page2 (VStr "t1") [])
    as [Halias _]; try reflexivity; [constructor|].
  destruct (Halias (insert_non_empty _ _ _)) as (Htokn & Hkeys & _).
  split; [exact Htokn|].
  subst out. rewrite (Hkeys "jql") by discriminate. reflexivity.
Defined.

End PagedFacts.

Module SessionMore.
Import Store Session Config Client Vocabulary.

Lemma creds_truthy c u p :
  username c = Some u -> u <> "" -> jira_password c = Some p -> p <> "" ->
  negb (truthy_str (username c)) || negb (truthy_str (jira_password c)) = false.
Proof.
  intros -> Hu -> Hp.
  rewrite (ConfigFacts.truthy_str_Some u Hu), (ConfigFacts.truthy_str_Some p Hp).
  reflexivity.
Qed.



(** X2: when the session endpoint answers anything but 200, or the POST
    raises, [_establish_cookie_session] raises
    [MCPAtlassianAuthenticationError] whatever the cause was, after one POST,
    and the cached token and the cookie jar are as before. *)
Theorem establish_failure_keeps_state (c : JiraConfig) (w : world)
    (u p : string) :
  username c = Some u -> u <> "" -> jira_password c = Some p -> p <> "" ->
  post_fails w ->
  let out := _establish_cookie_session c w in
  (exists msg, fst out = Raise (MCPAtlassianAuthenticationError msg))
  /\ trace (snd out) = (trace w ++ [EvSessionPost (session_url c) u p])%list
  /\ cookie_session (snd out) = cookie_session w
  /\ http_session (snd out) = http_session w
  /\ store (snd out) = store w.
Proof.
  intros Hu Hune Hp Hpne Hfail out. subst out.
  unfold _establish_cookie_session.
  rewrite (creds_truthy c u p Hu Hune Hp Hpne).
  unfold requests_post, post_fails in *. simpl post_replies.
  rewrite Hu, Hp. simpl default.
  destruct (post_replies w) as [|[status cookies text|e] rest];
    cbv beta iota.
  - simpl. eauto 10.
  - destruct (Z.eqb_spec status 200) as [->|_]; [contradiction|].
    simpl. eauto 10.
  - destruct (is_request_exception e); simpl; eauto 10.
Qed.

Lemma establish_failure_keeps_state_witness :
  let w := Examples.active_world [PostResponse 401 ∅ "denied"] [] [] in
  (exists msg, fst (_establish_cookie_session Examples.cookie_config w)
               = Raise (MCPAtlassianAuthenticationError msg))
  /\ cookie_session (snd (_establish_cookie_session Examples.cookie_config w))
     = Some "abc".
Proof.
  destruct (establish_failure_keeps_state Examples.cookie_config
              (Examples.active_world [PostResponse 401 ∅ "denied"] [] [])
              "alice" "s3cret")
    as (Hraise & _ & Hc & _);
    [reflexivity | discriminate | reflexivity | discriminate
    | simpl; discriminate |].
  split; [exact Hraise | exact Hc].
Defined.

(** X3: without a username or without a password the establishment raises
    [ValueError] before anything is sent: the world is as it was. *)
Theorem establish_requires_credentials (c : JiraConfig) (w : world) :
  truthy_str (username c) = false \/ truthy_str (jira_password c) = false ->
  exists msg, _establish_cookie_session c w = (Raise (ValueError msg), w).
Proof.
  intros H. unfold _establish_cookie_session.
  destruct H as [-> | ->]; rewrite ?orb_true_r; simpl; eauto.
Qed.

Lemma establish_requires_credentials_witness :
  exists msg,
    _establish_cookie_session Examples.cloud_config Examples.empty_world
    = (Raise (ValueError msg), Examples.empty_world).
Proof.
  apply establish_requires_credentials. right. reflexivity.
Defined.

(** X4: [_logout] does nothing at all without a cached token (an empty
    token counts as none) or without cookie authentication: no DELETE, the
    world is as it was. *)
Theorem logout_inert (c : JiraConfig) (w : world) :
  truthy_str (cookie_session w) = false \/ jira_auth c = AuthBasic ->
  _logout c w = (Ok tt, w).
Proof.
  intros H. unfold _logout, cookie_auth.
  destruct H as [-> | ->]; rewrite ?andb_false_r; reflexivity.
Qed.

Lemma logout_inert_witness :
  _logout Examples.cloud_config (Examples.active_world [] [] [])
  = (Ok tt, Examples.active_world [] [] []).
Proof. apply logout_inert. right. reflexivity. Defined.

(** X5: establishment followed by logout.  After a successful establishment
    and a logout whose DELETE returns, no token is cached, the DELETE carried
    the token just established, and the cookie jar of the shared session
    still holds that token under [JSESSIONID]: [_logout] never touches the
    jar. *)
Theorem establish_then_logout (c : JiraConfig) (w : world) (u p tok : string)
    (cookies : gmap string string) (text : string) (posts : list post_reply)
    (status : Z) (deletes : list delete_reply) :
  username c = Some u -> u <> "" -> jira_password c = Some p -> p <> "" ->
  jira_auth c = AuthCookie ->
  post_replies w = PostResponse 200 cookies text :: posts ->
  cookies !! "JSESSIONID" = Some tok -> tok <> "" ->
  delete_replies w = DeleteResponse status :: deletes ->
  let w1 := snd (_establish_cookie_session c w) in
  let out := _logout c w1 in
  fst out = Ok tt
  /\ cookie_session (snd out) = None
  /\ Session.cookies (http_session (snd out)) !! "JSESSIONID" = Some tok
  /\ trace (snd out)
     = (trace w ++ [EvSessionPost (session_url c) u p;
                    EvSessionDelete (session_url c) tok])%list.
Proof.
  intros Hu Hune Hp Hpne Hauth Hposts Hcookie Htokne Hdel w1 out.
  subst out w1.
  unfold _establish_cookie_session.
  rewrite (creds_truthy c u p Hu Hune Hp Hpne).
  unfold requests_post. simpl post_replies. rewrite Hposts, Hu, Hp.
  simpl default. cbv beta iota. simpl Z.eqb. cbv iota. rewrite Hcookie.
  simpl snd.
  pose proof (ConfigFacts.truthy_str_Some tok Htokne) as Ht. simpl in Ht.
  unfold _logout, cookie_auth, requests_delete. simpl cookie_session.
  rewrite Hauth. simpl truthy_str. rewrite Ht. simpl andb.
  cbv iota. simpl delete_replies. rewrite Hdel. simpl.
  repeat split.
  - apply lookup_insert_eq.
  - rewrite <- app_assoc. reflexivity.
Qed.

Lemma establish_then_logout_witness :
  let w := mkWorld [] None new_session []
             [PostResponse 200 {["JSESSIONID" := "fresh"]} ""]
             [DeleteResponse 204] [] in
  let out := _logout Examples.cookie_config
               (snd (_establish_cookie_session Examples.cookie_config w)) in
  cookie_session (snd out) = None
  /\ Session.cookies (http_session (snd out)) !! "JSESSIONID" = Some "fresh".
Proof.
  intros w out.
  destruct (establish_then_logout Examples.cookie_config w "alice" "s3cret"
              "fresh" {["JSESSIONID" := "fresh"]} "" [] 204%Z [])
    as (_ & Hc & Hjar & _);
    [reflexivity | discriminate | reflexivity | discriminate | reflexivity
    | reflexivity | reflexivity | discriminate | reflexivity |].
  split; [exact Hc | exact Hjar].
Defined.

(** X6: the authentication check without a refresh.  When [jira.myself()]
    raises and the error is not a 401, or the client does not use cookie
    authentication, the check raises [MCPAtlassianAuthenticationError] after
    that one call: nothing is posted to the session endpoint, nothing is
    retried, and the cached token is as before. *)
Theorem validate_without_refresh (c : JiraConfig) (w : world) (e : exn)
    (rest : list reply) :
  api_replies w = ReplyRaises e :: rest ->
  is_401 e = false \/ jira_auth c = AuthBasic ->
  let out := _validate_authentication c w in
  fst out = Raise auth_failed
  /\ trace (snd out) = (trace w ++ [EvMyself])%list
  /\ cookie_session (snd out) = cookie_session w
  /\ api_replies (snd out) = rest.
Proof.
  intros Hrep Hcase out. subst out.
  unfold _validate_authentication, jira_call. simpl api_replies.
  rewrite Hrep. simpl receive. cbv beta iota.
  assert (Hno : is_401 e && cookie_auth c = false).
  { unfold cookie_auth. destruct Hcase as [-> | ->];
      rewrite ?andb_false_r; reflexivity. }
  rewrite Hno. simpl. auto.
Qed.

Lemma validate_without_refresh_witness :
  let w := Examples.active_world [] [] [ReplyRaises (HTTPError 403)] in
  fst (_validate_authentication Examples.cookie_config w) = Raise auth_failed
  /\ trace (snd (_validate_authentication Examples.cookie_config w))
     = [EvMyself].
Proof.
  destruct (validate_without_refresh Examples.cookie_config
              (Examples.active_world [] [] [ReplyRaises (HTTPError 403)])
              (HTTPError 403) [])
    as (H1 & H2 & _); [reflexivity | left; reflexivity |].
  split; [exact H1 | exact H2].
Defined.

(** X7: a 401 under cookie authentication when no token is cached.  The
    refresh is inert, so nothing is posted to the session endpoint, but the
    request is retried once all the same, and the check passes exactly when
    the retry answers with a truthy value, a dictionary or not: the retry
    does not read the user's fields. *)
Theorem validate_401_without_session (c : JiraConfig) (w : world)
    (rest : list reply) :
  api_replies w = ReplyRaises (HTTPError 401) :: rest ->
  jira_auth c = AuthCookie ->
  truthy_str (cookie_session w) = false ->
  let out := _validate_authentication c w in
  trace (snd out) = (trace w ++ [EvMyself; EvMyself])%list
  /\ cookie_session (snd out) = cookie_session w
  /\ post_replies (snd out) = post_replies w
  /\ (forall d rest', rest = ReplyFresh d :: rest' ->
        fst out = if decide (d = ∅) then Raise auth_failed else Ok tt)
  /\ (forall e rest', rest = ReplyRaises e :: rest' ->
        fst out = Raise auth_failed)
  /\ (forall v rest', rest = ReplyValue v :: rest' ->
        fst out = if truthy (store w) v then Ok tt else Raise auth_failed).
Proof.
  intros Hrep Hauth Htok out. subst out.
  unfold _validate_authentication, jira_call. simpl api_replies.
  assert (Hca : cookie_auth c = true) by (unfold cookie_auth; rewrite Hauth; reflexivity).
  rewrite Hrep. simpl receive. cbv beta iota. simpl is_401.
  unfold _refresh_cookie_session. simpl cookie_session.
  rewrite Htok, Hca. simpl andb. cbv iota. simpl api_replies.
  assert (Happ : forall t : list event,
             ((t ++ [EvMyself]) ++ [EvMyself])%list
             = (t ++ [EvMyself; EvMyself])%list)
    by (intros t; rewrite <- app_assoc; reflexivity).
  destruct rest as [|[d|v|e] rest']; simpl.
  - rewrite Happ. split; [reflexivity|]. split; [reflexivity|].
    split; [reflexivity|]. repeat split; intros; discriminate.
  - rewrite StoreFacts.lookup_alloc_new.
    assert (Hsz : negb (Nat.eqb (size d) 0) = if decide (d = ∅) then false else true).
    { destruct (decide (d = ∅)) as [->|Hne]; [reflexivity|].
      apply map_size_non_empty_iff in Hne.
      destruct (Nat.eqb_spec (size d) 0); [contradiction|reflexivity]. }
    rewrite Hsz.
    destruct (decide (d = ∅)) as [Hd|Hd]; simpl; rewrite Happ;
      (split; [reflexivity|]; split; [reflexivity|]; split; [reflexivity|];
       split; [|split; intros; discriminate]);
      intros d' rest'' Heq; injection Heq as <- <-.
    + rewrite decide_True by exact Hd. reflexivity.
    + rewrite decide_False by exact Hd. reflexivity.
  - destruct (truthy (store w) v) eqn:Hv; simpl; rewrite Happ;
      (split; [reflexivity|]; split; [reflexivity|]; split; [reflexivity|];
       split; [intros; discriminate|]; split; [intros; discriminate|]);
      intros v' rest'' Heq; injection Heq as <- <-; rewrite Hv; reflexivity.
  - rewrite Happ. split; [reflexivity|]. split; [reflexivity|].
    split; [reflexivity|]. split; [intros; discriminate|].
    split; [reflexivity | intros; discriminate].
Qed.

Lemma validate_401_without_session_witness :
  let w := mkWorld [] None new_session []
             [PostResponse 200 {["JSESSIONID" := "fresh"]} ""] []
             [ReplyRaises (HTTPError 401);
              ReplyFresh {["displayName" := VStr "Alice"]}] in
  let out := _validate_authentication Examples.cookie_config w in
  let w' := mkWorld [] None new_session [] [] []
              [ReplyRaises (HTTPError 401); ReplyValue (VStr "alice")] in
  fst out = Ok tt
  /\ trace (snd out) = [EvMyself; EvMyself]
  /\ cookie_session (snd out) = None
  /\ fst (_validate_authentication Examples.cookie_config w') = Ok tt.
Proof.
  intros w out w'.
  destruct (validate_401_without_session Examples.cookie_config w
              [ReplyFresh {["displayName" := VStr "Alice"]}])
    as (Htr & Hc & _ & Hfresh & _); [reflexivity | reflexivity | reflexivity |].
  destruct (validate_401_without_session Examples.cookie_config w'
              [ReplyValue (VStr "alice")])
    as (_ & _ & _ & _ & _ & Hvalue); [reflexivity | reflexivity | reflexivity |].
  split; [|split; [exact Htr | split; [exact Hc|]]].
  - subst out. rewrite (Hfresh _ [] eq_refl).
    rewrite decide_False by apply insert_non_empty. reflexivity.
  - rewrite (Hvalue _ [] eq_refl). reflexivity.
Defined.

End SessionMore.

Module PagedMore.
Import Store Config Client StoreFacts PagedFacts.

(** X8: paged requests are refused outside Cloud.  In [server_6x] mode
    [get_paged] raises [ValueError] whatever the URL is, and nothing is sent
    or changed. *)
Theorem get_paged_requires_cloud (is_cloud_url : option string -> bool)
    (c : JiraConfig) (m : http_method) (u : string) (params : option loc)
    (a : bool) (w : world) :
  jira_mode c = Server6x ->
  exists msg,
    get_paged is_cloud_url c m u params a w = (Raise (ValueError msg), w).
Proof.
  intros Hmode. unfold get_paged, is_cloud. rewrite Hmode. simpl.
  eexists. reflexivity.
Qed.

Lemma get_paged_requires_cloud_witness :
  exists msg,
    get_paged Examples.example_is_cloud_url Examples.cookie_config GET
      "/rest/api/3/search/jql" None false
      (Examples.active_world [] [] [ReplyFresh ∅])
    = (Raise (ValueError msg), Examples.active_world [] [] [ReplyFresh ∅]).
Proof. apply get_paged_requires_cloud. reflexivity. Defined.

(** X9: the requests of a pagination.  With the caller's dictionary [d0]
    as parameters, the requests sent are exactly those of the contract: the
    first carries [d0] as it is, each later one the parameters of the one
    before with the token of the page just received; the answers that were
    not needed stay in the script. *)
Theorem get_paged_requests (is_cloud_url : option string -> bool)
    (c : JiraConfig) (m : http_method) (u : string) (l : loc) (a : bool)
    (w : world) (d0 : dict) (pages : list dict) (last : dict)
    (more : list reply) :
  is_cloud is_cloud_url c = true ->
  store w !! l = Some d0 ->
  Forall has_token pages ->
  last !! "nextPageToken" = None ->
  api_replies w = (map ReplyFresh (pages ++ [last]) ++ more)%list ->
  let out := get_paged is_cloud_url c m u (Some l) a w in
  trace (snd out)
  = (trace w ++ expected_requests m u a d0 (pages ++ [last]))%list
  /\ api_replies (snd out) = more
  /\ cookie_session (snd out) = cookie_session w.
Proof.
  intros Hcloud Hd0 Htok Hlast Hrep out. subst out.
  destruct (get_paged_cases is_cloud_url c m u (Some l) a w Hcloud)
    as [(l' & d & Hl & Hd & Hne & Heq) | [Hempty Heq]]; rewrite Heq, Hrep.
  - injection Hl as <-. rewrite Hd0 in Hd. injection Hd as <-.
    destruct (get_paged_loop_pages m u a l pages last more [] w d0
                Htok Hlast Hd0)
      as (_ & Htr & _ & _ & _ & Hmore & Hck).
    auto.
  - pose proof (Hempty l d0 eq_refl Hd0) as ->.
    destruct (get_paged_loop_pages m u a (List.length (store w)) pages last
                more [] (fresh_params w) ∅ Htok Hlast (lookup_alloc_new _ _))
      as (_ & Htr & _ & _ & _ & Hmore & Hck).
    auto.
Qed.

Lemma get_paged_requests_witness :
  let params : dict := {[ "jql" := VStr "project = PROJ" ]} in
  let page1 : dict := {[ "nextPageToken" := VStr "t1" ]} in
  let page2 : dict := {[ "isLast" := VBool true ]} in
  let w := mkWorld [params] None Session.new_session [] [] []
                   [ReplyFresh page1; ReplyFresh page2] in
  trace (snd (get_paged Examples.example_is_cloud_url Examples.cloud_config
                POST "/rest/api/3/search/jql" (Some 0) false w))
  = [EvRequest POST "/rest/api/3/search/jql" params false;
     EvRequest POST "/rest/api/3/search/jql"
       (<["nextPageToken" := VStr "t1"]> params) false].
Proof.
  intros params page1 page2 w.
  destruct (get_paged_requests Examples.example_is_cloud_url
              Examples.cloud_config POST "/rest/api/3/search/jql" 0 false
              w params [page1] page2 [])
    as (Htr & _);
    [ reflexivity | reflexivity
    | repeat constructor; exists (VStr "t1"); reflexivity
    | reflexivity | reflexivity | exact Htr ].
Defined.

Section Failure.
Variables (m : http_method) (u : string) (a : bool) (cur : loc).

Lemma get_paged_loop_raises (pages : list dict) :
  forall e more acc w data0,
    Forall has_token pages ->
    store w !! cur = Some data0 ->
    let out :=
      get_paged_loop (map ReplyFresh pages ++ ReplyRaises e :: more)%list
                     m u a cur acc w in
    fst out = Raise e
    /\ store (snd out) !! cur = Some (fold_left next_params pages data0)
    /\ List.length (trace (snd out))
       = List.length (trace w) + S (List.length pages)
    /\ (forall l, l < List.length (store w) -> l <> cur ->
                  store (snd out) !! l = store w !! l).
Proof.
  induction pages as [|page pages IH];
    intros e more acc w data0 Htok Hcur out; subst out.
  - simpl. rewrite length_app. simpl.
    repeat split; try exact Hcur; try lia.
  - apply Forall_cons in Htok as [[tok Hpage] Htok].
    simpl app. simpl map.
    rewrite (get_paged_loop_next m u a cur page tok) by exact Hpage.
    pose proof (lookup_lt_Some _ _ _ Hcur) as Hlt.
    set (w3 := set_store _ _).
    assert (Hcur3 : store w3 !! cur = Some (next_params data0 page)).
    { unfold w3, next_params. simpl store. rewrite Hpage.
      apply dict_set_lookup, lookup_app_l_Some, Hcur. }
    destruct (IH e more (acc ++ [VRef (List.length (store w))])%list w3 _
                Htok Hcur3)
      as (Hres & Hfin & Hlen & Hframe).
    split; [exact Hres|]. split; [exact Hfin|]. split.
    + rewrite Hlen. unfold w3. simpl trace. rewrite length_app. simpl. lia.
    + intros l Hl Hne. rewrite Hframe.
      * unfold w3. simpl store.
        rewrite dict_set_lookup_ne by congruence.
        apply lookup_app_l, Hl.
      * unfold w3. simpl store.
        rewrite dict_set_length, length_app. simpl. lia.
      * exact Hne.
Qed.
End Failure.

(** X10: a failure in the middle of a pagination.  When the collaborator
    raises after some pages, [get_paged] raises the same exception and the
    pages received are lost, but the tokens already written into the
    caller's dictionary stay there: it holds the token of the last page
    received. *)
Theorem get_paged_failure_keeps_token (is_cloud_url : option string -> bool)
    (c : JiraConfig) (m : http_method) (u : string) (l : loc) (a : bool)
    (w : world) (d0 : dict) (pages : list dict) (page : dict) (tok : value)
    (e : exn) (more : list reply) :
  is_cloud is_cloud_url c = true ->
  store w !! l = Some d0 -> d0 <> ∅ ->
  Forall has_token pages ->
  page !! "nextPageToken" = Some tok ->
  api_replies w
  = (map ReplyFresh (pages ++ [page]) ++ ReplyRaises e :: more)%list ->
  let out := get_paged is_cloud_url c m u (Some l) a w in
  fst out = Raise e
  /\ dict_get (store (snd out)) l "nextPageToken" = Some tok
  /\ List.length (trace (snd out))
     = List.length (trace w) + S (S (List.length pages)).
Proof.
  intros Hcloud Hd0 Hne Htok Hpage Hrep out. subst out.
  assert (Htok' : Forall has_token (pages ++ [page])).
  { apply Forall_app. split; [exact Htok|].
    repeat constructor. exists tok. exact Hpage. }
  destruct (get_paged_cases is_cloud_url c m u (Some l) a w Hcloud)
    as [(l' & d & Hl & Hd & _ & Heq) | [Hempty _]].
  2:{ destruct Hne. exact (Hempty l d0 eq_refl Hd0). }
  injection Hl as <-. rewrite Heq, Hrep.
  destruct (get_paged_loop_raises m u a l (pages ++ [page])%list e more []
              w d0 Htok' Hd0)
    as (Hres & Hfin & Hlen & _).
  split; [exact Hres|]. split.
  - rewrite (dict_get_lookup _ _ _ _ Hfin).
    rewrite fold_left_app. simpl. unfold next_params at 1.
    rewrite Hpage. apply lookup_insert_eq.
  - rewrite Hlen, length_app. simpl. lia.
Qed.

Lemma get_paged_failure_keeps_token_witness :
  let params : dict := {[ "jql" := VStr "project = PROJ" ]} in
  let page1 : dict := {[ "nextPageToken" := VStr "t1" ]} in
  let w := mkWorld [params] None Session.new_session [] [] []
                   [ReplyFresh page1; ReplyRaises (HTTPError 500)] in
  let out := get_paged Examples.example_is_cloud_url Examples.cloud_config
                       POST "/rest/api/3/search/jql" (Some 0) false w in
  fst out = Raise (HTTPError 500)
  /\ dict_get (store (snd out)) 0 "nextPageToken" = Some (VStr "t1").
Proof.
  intros params page1 w out.
  destruct (get_paged_failure_keeps_token Examples.example_is_cloud_url
              Examples.cloud_config POST "/rest/api/3/search/jql" 0 false
              w params [] page1 (VStr "t1") (HTTPError 500) [])
    as (H1 & H2 & _);
    [ reflexivity | reflexivity | apply insert_non_empty | constructor
    | reflexivity | reflexivity | split; [exact H1 | exact H2] ].
Defined.

(** X11: what [create_version] sends and returns.  One POST to
    [/rest/api/3/version]; its payload always has [project] and [name], and
    has [startDate], [releaseDate] and [description] exactly when the
    argument is a non-empty string.  A dictionary answer is returned as it
    is, any other answer raises [ValueError]. *)
Theorem create_version_payload (project name : string)
    (start_date release_date description : option string) (w : world) :
  let out := create_version project name start_date release_date description w in
  exists payload,
    trace (snd out)
    = (trace w ++ [EvRequest POST "/rest/api/3/version" payload false])%list
    /\ payload !! "project" = Some (VStr project)
    /\ payload !! "name" = Some (VStr name)
    /\ payload !! "startDate"
       = (if truthy_str start_date then VStr <$> start_date else None)
    /\ payload !! "releaseDate"
       = (if truthy_str release_date then VStr <$> release_date else None)
    /\ payload !! "description"
       = (if truthy_str description then VStr <$> description else None)
    /\ (forall d rest, api_replies w = ReplyFresh d :: rest ->
          fst out = Ok (VRef (List.length (store w)))
          /\ store (snd out) !! List.length (store w) = Some d)
    /\ (forall v rest, api_replies w = ReplyValue v :: rest ->
          is_dict v = false ->
          exists msg, fst out = Raise (ValueError msg)).
Proof.
  intros out. subst out. unfold create_version.
  set (payload := insert_if_truthy "description" description _).
  exists payload.
  assert (Hins : forall k k' v (d : dict),
             k <> k' -> insert_if_truthy k v d !! k' = d !! k').
  { intros k k' v d Hk. unfold insert_if_truthy.
    destruct (truthy_str v); [apply lookup_insert_ne, Hk | reflexivity]. }
  assert (Hself : forall k v (d : dict),
             d !! k = None ->
             insert_if_truthy k v d !! k
             = if truthy_str v then VStr <$> v else None).
  { intros k v d Hd. unfold insert_if_truthy.
    destruct v as [x|]; simpl.
    - destruct (negb (String.eqb x "")); [apply lookup_insert_eq | exact Hd].
    - exact Hd. }
  split.
  { pose proof (CommentsFacts.jira_call_trace
                  (EvRequest POST "/rest/api/3/version" payload false) w) as Ht.
    destruct (jira_call _ w) as [[v|e] w1]; simpl in *; [|exact Ht].
    destruct (is_dict v); exact Ht. }
  unfold payload.
  repeat split.
  - rewrite !Hins by discriminate.
    rewrite lookup_insert_ne by discriminate. apply lookup_insert_eq.
  - rewrite !Hins by discriminate. apply lookup_insert_eq.
  - rewrite !Hins by discriminate. apply Hself.
    rewrite !lookup_insert_ne by discriminate. apply lookup_empty.
  - rewrite Hins by discriminate. apply Hself.
    rewrite Hins by discriminate.
    rewrite !lookup_insert_ne by discriminate. apply lookup_empty.
  - apply Hself. rewrite !Hins by discriminate.
    rewrite !lookup_insert_ne by discriminate. apply lookup_empty.
  - unfold jira_call. simpl api_replies. rewrite H. reflexivity.
  - unfold jira_call. simpl api_replies. rewrite H. simpl.
    apply lookup_alloc_new.
  - intros v rest Hrep Hv. unfold jira_call. simpl api_replies.
    rewrite Hrep. simpl. rewrite Hv. eexists. reflexivity.
Qed.

Lemma create_version_payload_witness :
  let w := mkWorld [] None Session.new_session [] [] []
                   [ReplyFresh {[ "id" := VStr "10000" ]}] in
  let out := create_version "PROJ" "1.0" (Some "") (Some "2025-01-31") None w in
  fst out = Ok (VRef 0)
  /\ exists payload,
      trace (snd out)
      = [EvRequest POST "/rest/api/3/version" payload false]
      /\ payload !! "startDate" = None
      /\ payload !! "releaseDate" = Some (VStr "2025-01-31").
Proof.
  intros w out.
  destruct (create_version_payload "PROJ" "1.0" (Some "") (Some "2025-01-31")
              None w)
    as (payload & Htr & _ & _ & Hstart & Hrel & _ & Hdict & _).
  split; [exact (proj1 (Hdict _ [] eq_refl))|].
  exists payload. split; [exact Htr|]. split; [exact Hstart | exact Hrel].
Defined.

End PagedMore.

Module ConfigMore.
Import Config ConfigCheck.

(** The decision table of [resolve_auth_type], read backwards. *)
Lemma resolve_auth_type_inv cu s6 u a p pw (o : option oauth_config_t)
    auth bound :
  resolve_auth_type cu s6 u a p pw o = Ok (auth, bound) ->
  match auth with
  | Pat =>
      cu = false /\ s6 = false /\ truthy_str p = true
      /\ (bound = true <-> is_Some o)
  | OAuth =>
      is_Some o /\ s6 = false /\ bound = false
      /\ (cu = false -> truthy_str p = false)
  | Basic =>
      truthy_str u = true /\ bound = false
      /\ (if s6 then truthy_str pw || truthy_str a = true
          else truthy_str a = true /\ o = None
               /\ (cu = false -> truthy_str p = false))
  end.
Proof.
  unfold resolve_auth_type.
  destruct cu, s6, (truthy_str u), (truthy_str a), (truthy_str p),
    (truthy_str pw), o as [o|]; simpl; intros H;
    try discriminate H; injection H as <- <-;
    repeat split; auto; try discriminate; try (intros [? ?]; discriminate);
    eauto.
Qed.

Lemma resolve_auth_type_raises cu s6 u a p pw (o : option oauth_config_t) e :
  resolve_auth_type cu s6 u a p pw o = Raise e -> exists msg, e = ValueError msg.
Proof.
  unfold resolve_auth_type.
  destruct cu, s6, (truthy_str u), (truthy_str a), (truthy_str p),
    (truthy_str pw), o as [o|]; simpl; intros H;
    try discriminate H; injection H as <-; eauto.
Qed.

Section FromEnvFacts.
Variable is_atlassian_cloud_url : option string -> bool.
Variable get_oauth_config_from_env : gmap string string -> option oauth_config_t.
Variable is_env_ssl_verify : gmap string string -> string -> bool.
Variable get_custom_headers :
  gmap string string -> string -> option (gmap string string).
Variable lower : string -> string.

Local Abbreviation from_env' :=
  (from_env is_atlassian_cloud_url get_oauth_config_from_env
            is_env_ssl_verify get_custom_headers lower).

(** What [from_env] returns when it returns: the fields of the result in
    terms of the environment and of the resolution of the authentication
    type. *)
Lemma from_env_Ok_inv (env : gmap string string) (cfg : JiraConfig) :
  from_env' env = Ok cfg ->
  let raw := lower (default "cloud" (env !! "JIRA_MODE")) in
  exists bound,
    resolve_auth_type (is_atlassian_cloud_url (env !! "JIRA_URL"))
      (String.eqb raw "server_6x")
      (env !! "JIRA_USERNAME") (env !! "JIRA_API_TOKEN")
      (env !! "JIRA_PERSONAL_TOKEN") (env !! "JIRA_PASSWORD")
      (get_oauth_config_from_env env)
    = Ok (auth_type cfg, bound)
    /\ username cfg = env !! "JIRA_USERNAME"
    /\ api_token cfg = env !! "JIRA_API_TOKEN"
    /\ personal_token cfg = env !! "JIRA_PERSONAL_TOKEN"
    /\ jira_password cfg = env !! "JIRA_PASSWORD"
    /\ oauth_config cfg = get_oauth_config_from_env env
    /\ url cfg = env !! "JIRA_URL"
    /\ (jira_mode cfg = Server6x <-> raw = "server_6x")
    /\ (raw = "cloud" \/ raw = "server_6x" \/ bound = true).
Proof.
  unfold from_env. intros H. cbv zeta.
  destruct (negb (truthy_str (env !! "JIRA_URL"))
            && negb (truthy_str (env !! "ATLASSIAN_OAUTH_ENABLE")));
    [discriminate|].
  cbv zeta in H.
  destruct (resolve_auth_type _ _ _ _ _ _ _) as [[auth bound]|e];
    [|discriminate].
  exists bound.
  destruct (String.eqb_spec (lower (default "cloud" (env !! "JIRA_MODE")))
                            "cloud") as [Hc|Hc].
  - destruct (String.eqb (lower (default "basic" (env !! "JIRA_AUTH"))) "basic");
      [|destruct (String.eqb (lower (default "basic" (env !! "JIRA_AUTH"))) "cookie");
        [|destruct bound; simpl in H; [|discriminate]]];
      injection H as <-; simpl; repeat split; auto;
      try (intros; congruence); rewrite Hc; discriminate.
  - destruct (String.eqb_spec (lower (default "cloud" (env !! "JIRA_MODE")))
                              "server_6x") as [Hs|Hs].
    + destruct (String.eqb (lower (default "basic" (env !! "JIRA_AUTH"))) "basic");
        [|destruct (String.eqb (lower (default "basic" (env !! "JIRA_AUTH"))) "cookie");
          [|destruct bound; simpl in H; [|discriminate]]];
        injection H as <-; simpl; repeat split; auto.
    + destruct bound; simpl in H; [|discriminate].
      destruct (String.eqb (lower (default "basic" (env !! "JIRA_AUTH"))) "basic");
        [|destruct (String.eqb (lower (default "basic" (env !! "JIRA_AUTH"))) "cookie")];
        simpl in H; injection H as <-; simpl; repeat split; auto;
        intros; congruence.
Qed.

(** X12: an unrecognised [JIRA_MODE] does not fall back to [cloud].  The
    warning goes through the name [logger], which [from_env] binds only on
    the branch that finds a personal token next to an OAuth bundle on
    Server/DC; on every other path [from_env] ends in [ValueError] (no
    credentials) or in [UnboundLocalError], never in a configuration. *)
Theorem from_env_invalid_mode (env : gmap string string) :
  let raw := lower (default "cloud" (env !! "JIRA_MODE")) in
  raw <> "cloud" -> raw <> "server_6x" ->
  truthy_str (env !! "JIRA_PERSONAL_TOKEN") = false
  \/ get_oauth_config_from_env env = None
  \/ is_atlassian_cloud_url (env !! "JIRA_URL") = true ->
  (exists msg, from_env' env = Raise (ValueError msg))
  \/ from_env' env = Raise (UnboundLocalError "logger").
Proof.
  intros raw Hc Hs Hbranch. subst raw. unfold from_env.
  destruct (negb (truthy_str (env !! "JIRA_URL"))
            && negb (truthy_str (env !! "ATLASSIAN_OAUTH_ENABLE")));
    [left; eauto|].
  cbv zeta.
  destruct (resolve_auth_type _ _ _ _ _ _ _) as [[auth bound]|e] eqn:Hres.
  - right.
    assert (Hb : bound = false).
    { apply resolve_auth_type_inv in Hres.
      destruct auth; [tauto | | tauto].
      destruct Hres as (Hcu & _ & Hp & Hbo).
      destruct bound; [|reflexivity].
      destruct (proj1 Hbo eq_refl) as [o Ho].
      destruct Hbranch as [Hb | [Hb | Hb]]; congruence. }
    subst bound.
    destruct (String.eqb_spec (lower (default "cloud" (env !! "JIRA_MODE")))
                              "cloud"); [contradiction|].
    destruct (String.eqb_spec (lower (default "cloud" (env !! "JIRA_MODE")))
                              "server_6x"); [contradiction|].
    reflexivity.
  - left. destruct (resolve_auth_type_raises _ _ _ _ _ _ _ _ Hres) as [msg ->].
    eauto.
Qed.

(** X13: a configuration that [from_env] returns with [auth_type] [basic]
    or [pat] passes [is_auth_configured]; with [oauth] it has an OAuth
    bundle. *)
Theorem from_env_is_auth_configured (env : gmap string string)
    (cfg : JiraConfig) :
  from_env' env = Ok cfg ->
  match auth_type cfg with
  | OAuth => is_Some (oauth_config cfg)
  | _ => is_auth_configured cfg = true
  end.
Proof.
  intros H. destruct (from_env_Ok_inv env cfg H)
    as (bound & Hres & Hu & Ha & Hp & Hpw & Ho & _ & Hmode & _).
  apply resolve_auth_type_inv in Hres.
  unfold is_auth_configured.
  destruct (auth_type cfg).
  - destruct Hres as (Htu & _ & Hrest). rewrite Hu, Ha, Hpw, Htu.
    destruct (String.eqb_spec (lower (default "cloud" (env !! "JIRA_MODE")))
                              "server_6x") as [Hs|Hs].
    + rewrite (proj2 Hmode Hs). simpl. rewrite orb_comm. exact Hrest.
    + destruct (jira_mode cfg); [|destruct Hs; apply Hmode; reflexivity].
      simpl. tauto.
  - destruct Hres as (_ & _ & Htp & _). rewrite Hp. exact Htp.
  - rewrite Ho. tauto.
Qed.

(** X14: the [server_6x] mode.  Whatever the URL, a configuration that
    [from_env] returns in this mode uses [basic] authentication and is not
    Cloud; without a username [from_env] raises [ValueError], a personal
    token or an OAuth bundle do not help. *)
Theorem from_env_server_6x (env : gmap string string) :
  lower (default "cloud" (env !! "JIRA_MODE")) = "server_6x" ->
  (forall cfg, from_env' env = Ok cfg ->
     auth_type cfg = Basic /\ jira_mode cfg = Server6x
     /\ is_cloud is_atlassian_cloud_url cfg = false)
  /\ (truthy_str (env !! "JIRA_USERNAME") = false ->
      exists msg, from_env' env = Raise (ValueError msg)).
Proof.
  intros Hraw. split.
  - intros cfg H. destruct (from_env_Ok_inv env cfg H)
      as (bound & Hres & _ & _ & _ & _ & _ & _ & Hmode & _).
    rewrite Hraw in Hres. simpl in Hres.
    apply resolve_auth_type_inv in Hres.
    assert (Hm : jira_mode cfg = Server6x) by (apply Hmode, Hraw).
    unfold is_cloud. rewrite Hm.
    destruct (auth_type cfg); [auto | | ];
      destruct Hres as (_ & Hs & _); discriminate Hs.
  - intros Hu. unfold from_env.
    destruct (negb (truthy_str (env !! "JIRA_URL"))
              && negb (truthy_str (env !! "ATLASSIAN_OAUTH_ENABLE")));
      [eauto|].
    cbv zeta. rewrite Hraw. simpl String.eqb.
    unfold resolve_auth_type. rewrite Hu, andb_false_r. simpl. eauto.
Qed.

(** X15: on a Cloud URL (mode not [server_6x]) a personal token is never
    used: the configuration returned is [oauth] when an OAuth bundle is
    there and [basic] otherwise, and a personal token alone ends in
    [ValueError]. *)
Theorem from_env_cloud_ignores_pat (env : gmap string string) :
  is_atlassian_cloud_url (env !! "JIRA_URL") = true ->
  lower (default "cloud" (env !! "JIRA_MODE")) <> "server_6x" ->
  (forall cfg, from_env' env = Ok cfg ->
     auth_type cfg
     = match get_oauth_config_from_env env with
       | Some _ => OAuth
       | None => Basic
       end)
  /\ (get_oauth_config_from_env env = None ->
      truthy_str (env !! "JIRA_API_TOKEN") = false ->
      exists msg, from_env' env = Raise (ValueError msg)).
Proof.
  intros Hcloud Hraw.
  assert (Hs6 : String.eqb (lower (default "cloud" (env !! "JIRA_MODE")))
                           "server_6x" = false).
  { destruct (String.eqb_spec
                (lower (default "cloud" (env !! "JIRA_MODE"))) "server_6x");
      [contradiction|reflexivity]. }
  split.
  - intros cfg H. destruct (from_env_Ok_inv env cfg H)
      as (bound & Hres & _).
    rewrite Hcloud, Hs6 in Hres.
    apply resolve_auth_type_inv in Hres.
    destruct (auth_type cfg).
    + destruct Hres as (_ & _ & _ & -> & _). reflexivity.
    + destruct Hres as (Hcu & _). discriminate Hcu.
    + destruct Hres as ([o ->] & _). reflexivity.
  - intros Ho Ha. unfold from_env.
    destruct (negb (truthy_str (env !! "JIRA_URL"))
              && negb (truthy_str (env !! "ATLASSIAN_OAUTH_ENABLE")));
      [eauto|].
    cbv zeta. rewrite Hs6, Hcloud, Ho.
    unfold resolve_auth_type. rewrite Ha, andb_false_r. simpl. eauto.
Qed.

End FromEnvFacts.

Lemma from_env_invalid_mode_witness :
  from_env (fun _ => false) (fun _ => None) (fun _ _ => true)
           (fun _ _ => None) (fun x => x)
           (<["JIRA_URL" := "https://jira.corp.example"]>
              (<["JIRA_USERNAME" := "alice"]>
                 (<["JIRA_API_TOKEN" := "tok"]>
                    (<["JIRA_MODE" := "datacenter"]> ∅))))
  = Raise (UnboundLocalError "logger").
Proof.
  destruct (from_env_invalid_mode (fun _ => false) (fun _ => None)
              (fun _ _ => true) (fun _ _ => None) (fun x => x)
              (<["JIRA_URL" := "https://jira.corp.example"]>
                 (<["JIRA_USERNAME" := "alice"]>
                    (<["JIRA_API_TOKEN" := "tok"]>
                       (<["JIRA_MODE" := "datacenter"]> ∅)))))
    as [[msg H] | H];
    [vm_compute; discriminate | vm_compute; discriminate
    | left; reflexivity | | exact H].
  vm_compute in H. discriminate H.
Defined.

Lemma from_env_is_auth_configured_witness :
  let env : gmap string string :=
    <["JIRA_URL" := "https://jira.corp.example"]>
      (<["JIRA_PERSONAL_TOKEN" := "pat-123"]> ∅) in
  let cfg :=
    mkJiraConfig (Some "https://jira.corp.example") Pat None None
      (Some "pat-123") None true None None None None None None false
      None None None Cloud AuthBasic None None in
  from_env (fun _ => false) (fun _ => None) (fun _ _ => true)
           (fun _ _ => None) (fun x => x) env = Ok cfg
  /\ is_auth_configured cfg = true.
Proof.
  intros env cfg.
  assert (H : from_env (fun _ => false) (fun _ => None) (fun _ _ => true)
                (fun _ _ => None) (fun x => x) env = Ok cfg)
    by (vm_compute; reflexivity).
  split; [exact H|].
  exact (from_env_is_auth_configured _ _ _ _ _ env cfg H).
Defined.

Lemma from_env_server_6x_witness :
  exists msg,
    from_env Examples.example_is_cloud_url
             (fun _ => Some (BYOAccessTokenOAuthConfig (Some "cid") (Some "at")))
             (fun _ _ => true) (fun _ _ => None) (fun x => x)
             (<["JIRA_URL" := "https://jira.corp.example"]>
                (<["JIRA_PERSONAL_TOKEN" := "pat-123"]>
                   (<["JIRA_MODE" := "server_6x"]> ∅)))
    = Raise (ValueError msg).
Proof.
  refine (proj2 (from_env_server_6x _ _ _ _ _ _ _) _); reflexivity.
Defined.

Lemma from_env_cloud_ignores_pat_witness :
  exists msg,
    from_env Examples.example_is_cloud_url (fun _ => None)
             (fun _ _ => true) (fun _ _ => None) (fun x => x)
             (<["JIRA_URL" := "https://example.atlassian.net"]>
                (<["JIRA_USERNAME" := "alice"]>
                   (<["JIRA_PERSONAL_TOKEN" := "pat-123"]> ∅)))
    = Raise (ValueError msg).
Proof.
  refine (proj2 (from_env_cloud_ignores_pat _ _ _ _ _ _ _ _) _ _);
    try reflexivity; vm_compute; discriminate.
Defined.

(** X16: the working days of the SLA settings.  The constructor accepts a
    list of days exactly when every day is between 1 and 7, and leaves it
    as given; without a list it puts Monday to Friday; every other field is
    kept. *)
Theorem SLAConfig_post_init_days (c : SLAConfig) :
  (forall days, working_days c = Some days ->
     (Forall (fun d => 1 <= d <= 7)%Z days -> SLAConfig_post_init c = Ok c)
     /\ (~ Forall (fun d => 1 <= d <= 7)%Z days ->
         exists msg, SLAConfig_post_init c = Raise (ValueError msg)))
  /\ (working_days c = None ->
      exists c', SLAConfig_post_init c = Ok c'
                 /\ working_days c' = Some [1; 2; 3; 4; 5]%Z
                 /\ default_metrics c' = default_metrics c
                 /\ working_hours_only c' = working_hours_only c
                 /\ working_hours_start c' = working_hours_start c
                 /\ working_hours_end c' = working_hours_end c
                 /\ timezone c' = timezone c).
Proof.
  assert (Hfilter : forall days,
             List.filter invalid_day days = []
             <-> Forall (fun d => 1 <= d <= 7)%Z days).
  { induction days as [|d days IH]; simpl.
    - split; [constructor | reflexivity].
    - unfold invalid_day at 1.
      destruct (Z.ltb_spec d 1); destruct (Z.ltb_spec 7 d); simpl;
        split; intros H';
        try discriminate H';
        try (apply Forall_cons in H' as [? H']; lia);
        try (constructor; [lia | apply IH, H']).
      apply Forall_cons in H' as [_ H']. apply IH, H'. }
  split.
  - intros days Hd. unfold SLAConfig_post_init. rewrite Hd.
    split.
    + intros Hok. apply Hfilter in Hok. rewrite Hok. reflexivity.
    + intros Hbad.
      destruct (List.filter invalid_day days) eqn:Hf;
        [destruct Hbad; apply Hfilter, Hf | eauto].
  - intros Hd. unfold SLAConfig_post_init. rewrite Hd.
    eexists. repeat split.
Qed.

Lemma SLAConfig_post_init_days_witness :
  (exists msg,
      SLAConfig_post_init
        (mkSLAConfig ["cycle_time"] false "09:00" "17:00"
                     (Some [1; 2; 8]%Z) "UTC")
      = Raise (ValueError msg))
  /\ SLAConfig_post_init
       (mkSLAConfig ["cycle_time"] false "09:00" "17:00"
                    (Some [6; 7]%Z) "UTC")
     = Ok (mkSLAConfig ["cycle_time"] false "09:00" "17:00"
                       (Some [6; 7]%Z) "UTC").
Proof.
  split.
  - refine (proj2 (proj1 (SLAConfig_post_init_days
                            (mkSLAConfig ["cycle_time"] false "09:00" "17:00"
                                         (Some [1; 2; 8]%Z) "UTC"))
                     [1; 2; 8]%Z eq_refl) _).
    intros H. apply Forall_cons in H as [_ H].
    apply Forall_cons in H as [_ H]. apply Forall_cons in H as [H _]. lia.
  - refine (proj1 (proj1 (SLAConfig_post_init_days
                            (mkSLAConfig ["cycle_time"] false "09:00" "17:00"
                                         (Some [6; 7]%Z) "UTC"))
                     [6; 7]%Z eq_refl) _).
    repeat constructor; lia.
Defined.

End ConfigMore.

Module MapperMore.
Import Store Mappers MappersRequest StoreFacts MapperFacts.

Lemma dict_del_lookup (h : heap) l k d :
  h !! l = Some d -> dict_del h l k !! l = Some (delete k d).
Proof.
  intros H. unfold dict_del. rewrite list_lookup_alter_eq, H. reflexivity.
Qed.

Lemma dict_del_prefix (h0 h : heap) l k :
  h0 `prefix_of` h -> List.length h0 <= l -> h0 `prefix_of` dict_del h l k.
Proof.
  intros [t ->] Hl. unfold dict_del.
  rewrite alter_app_r_alt by exact Hl. eexists. reflexivity.
Qed.

(** The contents of the copy after the renaming block. *)
Lemma rename_account_id_lookup (h : heap) n d :
  h !! n = Some d ->
  rename_account_id h n !! n
  = Some (match d !! "accountId" with
          | Some v => delete "accountId" (<["name" := v]> d)
          | None => d
          end).
Proof.
  intros Hn. unfold rename_account_id.
  rewrite (dict_get_lookup h n d _ Hn).
  destruct (d !! "accountId") as [v|]; [|exact Hn].
  apply dict_del_lookup, dict_set_lookup, Hn.
Qed.

Lemma rename_account_id_prefix (h0 h : heap) n :
  h0 `prefix_of` h -> List.length h0 <= n ->
  h0 `prefix_of` rename_account_id h n.
Proof.
  intros Hp Hl. unfold rename_account_id.
  destruct (dict_get h n "accountId"); [|exact Hp].
  apply dict_del_prefix; [|exact Hl]. apply dict_set_prefix; assumption.
Qed.

(** X17: the user mapper of the request direction.  Outside Server 6.x
    the argument itself is returned and the store is not touched.  On
    Server 6.x a non-empty dictionary is copied; the copy has
    no [accountId], has under [name] the input's [accountId] when the input
    has that key (whatever its value) and the input's [name] otherwise, and
    agrees with the input on every other key; the input is as before. *)
Theorem normalize_user_request_renames (h : heap) (l : loc) (d : dict) :
  h !! l = Some d -> d <> ∅ ->
  normalize_user_request (VRef l) false h = (Ok (VRef l), h)
  /\ let out := normalize_user_request (VRef l) true h in
     let n := List.length h in
     fst out = Ok (VRef n)
     /\ h `prefix_of` snd out
     /\ dict_get (snd out) n "accountId" = None
     /\ dict_get (snd out) n "name"
        = match d !! "accountId" with
          | Some v => Some v
          | None => d !! "name"
          end
     /\ (forall k, k <> "accountId" -> k <> "name" ->
                   dict_get (snd out) n k = d !! k).
Proof.
  intros Hd Hne. unfold normalize_user_request.
  rewrite (truthy_dict h l d Hd Hne), Hd. simpl negb. cbv iota.
  split; [reflexivity|]. unfold alloc. cbv beta iota zeta.
  simpl fst. simpl snd.
  pose proof (rename_account_id_lookup (h ++ [d])%list (List.length h) d
                (lookup_alloc_new h d)) as Hn.
  split; [reflexivity|]. split.
  { apply rename_account_id_prefix; [apply prefix_app_r; reflexivity | lia]. }
  rewrite !(dict_get_lookup _ _ _ _ Hn).
  destruct (d !! "accountId") as [v|] eqn:Ha.
  - split; [apply lookup_delete_eq|]. split.
    + rewrite lookup_delete_ne by discriminate. apply lookup_insert_eq.
    + intros k Hk1 Hk2. rewrite (dict_get_lookup _ _ _ _ Hn).
      rewrite lookup_delete_ne by congruence.
      apply lookup_insert_ne. congruence.
  - split; [exact Ha|]. split; [reflexivity|].
    intros k _ _. rewrite (dict_get_lookup _ _ _ _ Hn). reflexivity.
Qed.

Lemma normalize_user_request_renames_witness :
  let d : dict := <["accountId" := VNone]> {[ "name" := VStr "bob" ]} in
  let out := normalize_user_request (VRef 0) true [d] in
  fst out = Ok (VRef 1)
  /\ dict_get (snd out) 1 "accountId" = None
  /\ dict_get (snd out) 1 "name" = Some VNone
  /\ dict_get (snd out) 0 "name" = Some (VStr "bob").
Proof.
  intros d out.
  destruct (normalize_user_request_renames [d] 0 d eq_refl
              (insert_non_empty _ _ _))
    as (_ & Hok & Hp & Hacc & Hname & _).
  split; [exact Hok|]. split; [exact Hacc|]. split; [exact Hname|].
  unfold dict_get. fold out.
  rewrite (prefix_lookup_Some [d] (snd out) 0 d eq_refl Hp). reflexivity.
Defined.

Lemma rename_account_id_length (h : heap) n :
  List.length (rename_account_id h n) = List.length h.
Proof.
  unfold rename_account_id, dict_del.
  destruct (dict_get h n "accountId"); [|reflexivity].
  rewrite length_alter. apply dict_set_length.
Qed.

(** The copy made on Server 6.x and its contents. *)
Lemma normalize_user_request_copy (h : heap) (l : loc) (d : dict) :
  h !! l = Some d -> d <> ∅ ->
  exists h',
    normalize_user_request (VRef l) true h = (Ok (VRef (List.length h)), h')
    /\ h `prefix_of` h'
    /\ List.length h' = S (List.length h)
    /\ h' !! List.length h
       = Some (match d !! "accountId" with
               | Some v => delete "accountId" (<["name" := v]> d)
               | None => d
               end).
Proof.
  intros Hd Hne. unfold normalize_user_request.
  rewrite (truthy_dict h l d Hd Hne), Hd. simpl negb. cbv iota.
  unfold alloc. cbv beta iota zeta.
  eexists. split; [reflexivity|]. split; [|split].
  - apply rename_account_id_prefix; [apply prefix_app_r; reflexivity | lia].
  - rewrite rename_account_id_length, length_app. simpl. lia.
  - apply rename_account_id_lookup, lookup_alloc_new.
Qed.

Lemma truthy_not_none (h : heap) v : truthy h v = true -> v <> VNone.
Proof. intros H ->. discriminate H. Qed.

(** X18: the request mapper followed by the response mapper.  For a user
    whose [accountId] is truthy, converting for Server 6.x and normalising
    the result gives a new dictionary that has the original identity back
    under [accountId], and keeps it under [name]; the original dictionary
    is as before. *)
Theorem request_then_response_restores_account_id (h : heap) (l : loc)
    (d : dict) (v : value) :
  h !! l = Some d ->
  d !! "accountId" = Some v -> truthy h v = true ->
  (forall x, v = VRef x -> x < List.length h) ->
  let req := normalize_user_request (VRef l) true h in
  let out :=
    match fst req with
    | Ok r => normalize_user_response r (snd req)
    | Raise e => (Raise e, snd req)
    end in
  let n := S (List.length h) in
  fst out = Ok (VRef n)
  /\ dict_get (snd out) n "accountId" = Some v
  /\ dict_get (snd out) n "name" = Some v
  /\ h `prefix_of` snd out.
Proof.
  intros Hd Hacc Htruthy Hclosed req out n. subst out req n.
  assert (Hne : d <> ∅).
  { intros ->. rewrite lookup_empty in Hacc. discriminate. }
  destruct (normalize_user_request_copy h l d Hd Hne)
    as (h1 & -> & Hp1 & Hlen1 & Hn1).
  rewrite Hacc in Hn1. simpl fst. simpl snd.
  set (d1 := delete "accountId" (<["name" := v]> d)) in *.
  assert (Hname : d1 !! "name" = Some v).
  { unfold d1. rewrite lookup_delete_ne by discriminate.
    apply lookup_insert_eq. }
  assert (Hne1 : d1 <> ∅).
  { intros He. rewrite He, lookup_empty in Hname. discriminate. }
  destruct (normalize_user_response_lookup h1 (List.length h) d1 Hn1 Hne1)
    as (Hok & Hp2 & _ & Hacc2 & _ & Hother).
  rewrite Hlen1 in *.
  split; [exact Hok|]. split; [|split].
  - rewrite Hacc2.
    assert (Hnone : d1 !! "accountId" = None)
      by (unfold d1; apply lookup_delete_eq).
    rewrite Hnone. unfold expected_account_id, truthy_entry.
    rewrite Hname.
    rewrite (truthy_prefix h (h1 ++ [d1])%list v)
      by (try exact Hclosed; apply prefix_app_r, Hp1).
    rewrite Htruthy. reflexivity.
  - rewrite Hother by discriminate. exact Hname.
  - etransitivity; [exact Hp1 | exact Hp2].
Qed.

Lemma request_then_response_restores_account_id_witness :
  let d : dict := {[ "accountId" := VStr "5b10a2844c20165700ede21g" ]} in
  let req := normalize_user_request (VRef 0) true [d] in
  let out :=
    match fst req with
    | Ok r => normalize_user_response r (snd req)
    | Raise e => (Raise e, snd req)
    end in
  fst out = Ok (VRef 2)
  /\ dict_get (snd out) 2 "accountId" = Some (VStr "5b10a2844c20165700ede21g")
  /\ dict_get (snd out) 1 "accountId" = None.
Proof.
  intros d req out.
  destruct (request_then_response_restores_account_id [d] 0 d
              (VStr "5b10a2844c20165700ede21g"))
    as (Hok & Hacc & _);
    [reflexivity | reflexivity | reflexivity | intros x Hx; discriminate Hx |].
  split; [exact Hok|]. split; [exact Hacc|].
  vm_compute. reflexivity.
Defined.

(** X19: the response mapper is idempotent on contents.  Normalising what
    it returned gives another new dictionary with exactly the same
    contents. *)
Theorem normalize_user_response_idempotent (h : heap) (l : loc) (d : dict) :
  h !! l = Some d -> d <> ∅ -> closed_dict h d ->
  let out1 := normalize_user_response (VRef l) h in
  let out2 := normalize_user_response (VRef (List.length h)) (snd out1) in
  fst out1 = Ok (VRef (List.length h))
  /\ exists n2 d1,
      fst out2 = Ok (VRef n2)
      /\ n2 <> List.length h
      /\ snd out1 !! List.length h = Some d1
      /\ snd out2 !! List.length h = Some d1
      /\ snd out2 !! n2 = Some d1.
Proof.
  intros Hd Hne Hc out1 out2. subst out2 out1.
  destruct (normalize_user_response_lookup h l d Hd Hne)
    as (Hok1 & Hp1 & [d1 Hn1] & Hacc1 & Hmail1 & Hoth1).
  set (h1 := snd (normalize_user_response (VRef l) h)) in *.
  set (n1 := List.length h) in *.
  rewrite !(dict_get_lookup _ _ _ _ Hn1) in *.
  assert (Hoth1' : forall k, k <> "accountId" -> k <> "emailAddress" ->
                             d1 !! k = d !! k).
  { intros k H1 H2. rewrite <- (Hoth1 k H1 H2).
    symmetry. apply dict_get_lookup, Hn1. }
  clear Hoth1.
  assert (Hne1 : d1 <> ∅).
  { intros He. rewrite He, lookup_empty in Hmail1. discriminate. }
  destruct (normalize_user_response_lookup h1 n1 d1 Hn1 Hne1)
    as (Hok2 & Hp2 & [d2 Hn2] & Hacc2 & Hmail2 & Hoth2).
  set (h2 := snd (normalize_user_response (VRef n1) h1)) in *.
  set (n2 := List.length h1) in *.
  pose proof (lookup_lt_Some _ _ _ Hn1) as Hlt.
  split; [exact Hok1|]. exists n2, d1.
  split; [exact Hok2|]. split; [unfold n2; lia|]. split; [exact Hn1|].
  split; [apply (prefix_lookup_Some h1 h2 n1 d1 Hn1 Hp2)|].
  rewrite Hn2. f_equal. apply map_eq. intros k.
  rewrite !(dict_get_lookup _ _ _ _ Hn2) in *.
  assert (Htr : forall k' v, d !! k' = Some v ->
                  truthy (h1 ++ [d1])%list v = truthy (h ++ [d])%list v).
  { intros k' v Hv.
    rewrite (truthy_prefix h (h1 ++ [d1])%list v)
      by (try (apply prefix_app_r, Hp1); intros x ->; exact (Hc _ _ Hv)).
    rewrite (truthy_prefix h (h ++ [d])%list v)
      by (try (apply prefix_app_r; reflexivity);
          intros x ->; exact (Hc _ _ Hv)).
    reflexivity. }
  assert (Hentry : forall k', k' <> "accountId" -> k' <> "emailAddress" ->
                     truthy_entry (h1 ++ [d1])%list d1 k'
                     = truthy_entry (h ++ [d])%list d k').
  { intros k' H1 H2. unfold truthy_entry. rewrite (Hoth1' k' H1 H2).
    destruct (d !! k') as [v|] eqn:Hv; [|reflexivity].
    rewrite (Htr k' v Hv). reflexivity. }
  destruct (decide (k = "emailAddress")) as [->|Hk2].
  { rewrite Hmail2, Hmail1. reflexivity. }
  destruct (decide (k = "accountId")) as [->|Hk1].
  2:{ rewrite <- (dict_get_lookup _ _ _ k Hn2). apply Hoth2; assumption. }
  rewrite Hacc2.
  assert (Hkeep : expected_account_id (h1 ++ [d1])%list d1
                  = match truthy_entry (h ++ [d])%list d "name" with
                    | Some v => Some v
                    | None =>
                        match truthy_entry (h ++ [d])%list d "key" with
                        | Some v => Some v
                        | None => d1 !! "accountId"
                        end
                    end).
  { unfold expected_account_id.
    rewrite !Hentry by discriminate. reflexivity. }
  assert (Htruthy_some : forall k' v,
             truthy_entry (h ++ [d])%list d k' = Some v -> v <> VNone).
  { intros k' v. unfold truthy_entry.
    destruct (d !! k') as [x|]; [|discriminate].
    destruct (truthy (h ++ [d])%list x) eqn:Hx; [|discriminate].
    intros [= <-]. intros ->. discriminate Hx. }
  assert (Hnofall :
            d1 !! "accountId" = None \/ d1 !! "accountId" = Some VNone ->
            truthy_entry (h ++ [d])%list d "name" = None
            /\ truthy_entry (h ++ [d])%list d "key" = None).
  { intros Hcase. rewrite Hacc1 in Hcase.
    destruct (d !! "accountId") as [[]|];
      try (destruct Hcase as [Hcase|Hcase]; discriminate Hcase);
      unfold expected_account_id in Hcase;
      (destruct (truthy_entry (h ++ [d])%list d "name") as [v|] eqn:En;
       [ exfalso; destruct Hcase as [Hcase|Hcase];
         [ discriminate Hcase
         | injection Hcase as ->; exact (Htruthy_some _ _ En eq_refl) ]
       | ]);
      (destruct (truthy_entry (h ++ [d])%list d "key") as [v|] eqn:Ek;
       [ exfalso; destruct Hcase as [Hcase|Hcase];
         [ discriminate Hcase
         | injection Hcase as ->; exact (Htruthy_some _ _ Ek eq_refl) ]
       | ]);
      split; reflexivity. }
  rewrite Hkeep.
  destruct (d1 !! "accountId") as [a1|] eqn:Ha1.
  - destruct a1; try reflexivity.
    destruct (Hnofall (or_intror eq_refl)) as [-> ->]. reflexivity.
  - destruct (Hnofall (or_introl eq_refl)) as [-> ->]. reflexivity.
Qed.

Lemma normalize_user_response_idempotent_witness :
  let d : dict := {[ "key" := VStr "bkey" ]} in
  let out1 := normalize_user_response (VRef 0) [d] in
  let out2 := normalize_user_response (VRef 1) (snd out1) in
  fst out1 = Ok (VRef 1)
  /\ exists n2 d1,
      fst out2 = Ok (VRef n2) /\ n2 <> 1
      /\ snd out2 !! 1 = Some d1 /\ snd out2 !! n2 = Some d1.
Proof.
  intros d out1 out2.
  destruct (normalize_user_response_idempotent [d] 0 d)
    as (Hok & n2 & d1 & Hok2 & Hn & _ & H1 & H2).
  - reflexivity.
  - apply insert_non_empty.
  - intros k x H. apply lookup_singleton_Some in H as [_ H]. discriminate H.
  - split; [exact Hok|]. exists n2, d1. auto.
Defined.

(** *** The issue mapper of the request direction *)

Lemma normalize_user_request_prefix (h0 h : heap) data b :
  h0 `prefix_of` h -> h0 `prefix_of` snd (normalize_user_request data b h).
Proof.
  intros Hp. unfold normalize_user_request.
  destruct (negb (truthy h data)); [exact Hp|].
  destruct (negb b); [exact Hp|].
  destruct data as [| | | |items|l]; try exact Hp.
  - destruct (list_has_str "accountId" items); exact Hp.
  - destruct (h !! l) as [d|]; [|exact Hp].
    simpl. pose proof (prefix_length _ _ Hp).
    apply rename_account_id_prefix; [apply prefix_app_r, Hp | lia].
Qed.

Lemma normalize_user_request_ref (h : heap) u b :
  exists v, fst (normalize_user_request (VRef u) b h) = Ok v.
Proof.
  unfold normalize_user_request.
  destruct (negb (truthy h (VRef u))); [eauto|].
  destruct (negb b); [eauto|].
  destruct (h !! u); simpl; eauto.
Qed.

Lemma normalize_request_slot_ok k f (h : heap) :
  fst (normalize_request_slot k f h) = Ok tt.
Proof.
  unfold normalize_request_slot.
  destruct (dict_get h f k) as [[| | | | |u]|]; try reflexivity.
  destruct (normalize_user_request_ref h u true) as [v Hv].
  destruct (normalize_user_request (VRef u) true h) as [[v'|e] h'];
    simpl in Hv; [reflexivity|discriminate].
Qed.

Lemma normalize_request_slot_prefix (h0 h : heap) k f :
  h0 `prefix_of` h -> List.length h0 <= f ->
  h0 `prefix_of` snd (normalize_request_slot k f h).
Proof.
  intros Hp Hf. unfold normalize_request_slot.
  destruct (dict_get h f k) as [[| | | | |u]|]; try exact Hp.
  pose proof (normalize_user_request_prefix h0 h (VRef u) true Hp) as Hp'.
  destruct (normalize_user_request (VRef u) true h) as [[v'|e] h'];
    simpl in *; [apply dict_set_prefix; assumption | exact Hp'].
Qed.

Lemma normalize_request_slot_lookup_ne (h : heap) k f l :
  l < List.length h -> l <> f ->
  snd (normalize_request_slot k f h) !! l = h !! l.
Proof.
  intros Hl Hne. unfold normalize_request_slot.
  destruct (dict_get h f k) as [[| | | | |u]|]; try reflexivity.
  pose proof (normalize_user_request_prefix h h (VRef u) true (reflexivity h))
    as Hp.
  destruct (normalize_user_request (VRef u) true h) as [[v'|e] h'];
    simpl in *.
  - rewrite dict_set_lookup_ne by congruence.
    apply prefix_lookup; assumption.
  - apply prefix_lookup; assumption.
Qed.

Lemma normalize_request_slot_length (h : heap) k f :
  List.length h <= List.length (snd (normalize_request_slot k f h)).
Proof.
  unfold normalize_request_slot.
  destruct (dict_get h f k) as [[| | | | |u]|]; try reflexivity.
  pose proof (normalize_user_request_prefix h h (VRef u) true (reflexivity h))
    as Hp.
  apply prefix_length in Hp.
  destruct (normalize_user_request (VRef u) true h) as [[v'|e] h'];
    simpl in *; [rewrite dict_set_length|]; exact Hp.
Qed.

(** A slot leaves the other keys of [fields] alone. *)
Lemma normalize_request_slot_get_other (h : heap) k f k' :
  f < List.length h -> k <> k' ->
  dict_get (snd (normalize_request_slot k f h)) f k' = dict_get h f k'.
Proof.
  intros Hf Hk. unfold normalize_request_slot.
  destruct (dict_get h f k) as [[| | | | |u]|]; try reflexivity.
  pose proof (normalize_user_request_prefix h h (VRef u) true (reflexivity h))
    as Hp.
  destruct (normalize_user_request (VRef u) true h) as [[v'|e] h'];
    simpl in *.
  - assert (Hs : is_Some (h' !! f)).
    { apply lookup_lt_is_Some. apply prefix_length in Hp. lia. }
    rewrite dict_get_set by exact Hs.
    rewrite decide_False by exact Hk.
    unfold dict_get. rewrite (prefix_lookup h h' f Hp Hf). reflexivity.
  - unfold dict_get. rewrite (prefix_lookup h h' f Hp Hf). reflexivity.
Qed.

Ltac request_slot_ok k f h :=
  let E := fresh "E" in
  pose proof (normalize_request_slot_ok k f h) as E;
  destruct (normalize_request_slot k f h) as [[[]|?] ?];
  simpl in E; [clear E | discriminate E].

(** X20: the issue mapper of the request direction.  Outside Server 6.x the
    argument itself is returned.  On Server 6.x a non-empty issue whose
    [fields] is a dictionary is copied, and so is [fields]; the copy of
    the issue agrees with the input on every key but [fields], and the copy
    of [fields] agrees with the input's on every key but [assignee] and
    [reporter]: [creator], which the response direction normalises, goes
    through as it is.  No object of the input is changed. *)
Theorem normalize_issue_request_fields (h : heap) (l fl : loc) (d fd : dict) :
  h !! l = Some d -> d <> ∅ ->
  d !! "fields" = Some (VRef fl) -> h !! fl = Some fd ->
  normalize_issue_request (VRef l) false h = (Ok (VRef l), h)
  /\ let out := normalize_issue_request (VRef l) true h in
     let n := List.length h in
     let f := S (List.length h) in
     fst out = Ok (VRef n)
     /\ h `prefix_of` snd out
     /\ (forall k, k <> "fields" -> dict_get (snd out) n k = d !! k)
     /\ dict_get (snd out) n "fields" = Some (VRef f)
     /\ (forall k, k <> "assignee" -> k <> "reporter" ->
                   dict_get (snd out) f k = fd !! k).
Proof.
  intros Hd Hne Hfields Hfl. unfold normalize_issue_request.
  rewrite (truthy_dict h l d Hd Hne), Hd. simpl negb. cbv iota.
  split; [reflexivity|].
  unfold alloc. cbv beta iota zeta.
  rewrite dict_get_alloc, Hfields.
  rewrite (lookup_app_l_Some h [d] fl fd Hfl).
  set (h1 := (h ++ [d])%list).
  assert (Hl1 : List.length h1 = S (List.length h))
    by (unfold h1; rewrite length_app; simpl; lia).
  rewrite Hl1.
  set (n := List.length h). set (f := S n).
  set (h2 := (h1 ++ [fd])%list).
  assert (Hl2 : List.length h2 = S f)
    by (unfold h2; rewrite length_app, Hl1; simpl; lia).
  assert (Hn2 : h2 !! n = Some d)
    by (apply lookup_app_l_Some, lookup_alloc_new).
  assert (Hf2 : h2 !! f = Some fd).
  { unfold h2, f, n. rewrite <- Hl1. apply lookup_alloc_new. }
  assert (Hp2 : h `prefix_of` h2)
    by (apply prefix_app_r, prefix_app_r; reflexivity).
  pose proof (normalize_request_slot_prefix h h2 "assignee" f Hp2
                ltac:(unfold f, n; lia)) as Hp3.
  pose proof (normalize_request_slot_length h2 "assignee" f) as Hl3.
  pose proof (normalize_request_slot_lookup_ne h2 "assignee" f n
                ltac:(lia) ltac:(unfold f; lia)) as Hn3.
  pose proof (fun k' => normalize_request_slot_get_other h2 "assignee" f k'
                          ltac:(lia)) as G3.
  request_slot_ok "assignee" f h2. simpl snd in *.
  rename l0 into h3.
  pose proof (normalize_request_slot_prefix h h3 "reporter" f Hp3
                ltac:(unfold f, n; lia)) as Hp4.
  pose proof (normalize_request_slot_length h3 "reporter" f) as Hl4.
  pose proof (normalize_request_slot_lookup_ne h3 "reporter" f n
                ltac:(lia) ltac:(unfold f; lia)) as Hn4.
  pose proof (fun k' => normalize_request_slot_get_other h3 "reporter" f k'
                          ltac:(lia)) as G4.
  request_slot_ok "reporter" f h3. simpl snd in *.
  rename l0 into h4.
  simpl fst. simpl snd.
  assert (Hn4' : h4 !! n = Some d) by (rewrite Hn4, Hn3; exact Hn2).
  assert (Hs4 : is_Some (h4 !! n)) by (rewrite Hn4'; eauto).
  split; [reflexivity|]. split.
  { apply dict_set_prefix; [exact Hp4 | unfold n; lia]. }
  split.
  { intros k Hk. rewrite dict_get_set by exact Hs4.
    rewrite decide_False by congruence. apply dict_get_lookup, Hn4'. }
  split.
  { rewrite dict_get_set by exact Hs4. rewrite decide_True; reflexivity. }
  intros k Ha Hr.
  rewrite dict_get_set_other by (unfold f; lia).
  rewrite G4 by congruence. rewrite G3 by congruence.
  apply dict_get_lookup, Hf2.
Qed.

Lemma normalize_issue_request_fields_witness :
  let issue : dict := {[ "fields" := VRef 1 ]} in
  let fields : dict :=
    <["creator" := VRef 2]> {[ "assignee" := VRef 2 ]} in
  let user : dict := {[ "accountId" := VStr "abc" ]} in
  let h : heap := [issue; fields; user] in
  let out := normalize_issue_request (VRef 0) true h in
  fst out = Ok (VRef 3)
  /\ dict_get (snd out) 3 "fields" = Some (VRef 4)
  /\ dict_get (snd out) 4 "creator" = Some (VRef 2)
  /\ h `prefix_of` snd out.
Proof.
  intros issue fields user h out.
  destruct (normalize_issue_request_fields h 0 1 issue fields eq_refl
              (insert_non_empty _ _ _) eq_refl eq_refl)
    as (_ & Hok & Hp & _ & Hf & Hkeys).
  split; [exact Hok|]. split; [exact Hf|]. split; [|exact Hp].
  transitivity (fields !! "creator").
  - apply (Hkeys "creator"); discriminate.
  - reflexivity.
Defined.

(** *** The list mapper *)

Lemma normalize_comment_response_ref (h : heap) l :
  exists v, fst (normalize_comment_response (VRef l) h) = Ok v.
Proof.
  unfold normalize_comment_response.
  destruct (negb (truthy h (VRef l))); [eauto|].
  destruct (h !! l) as [d|]; [|eauto].
  unfold alloc. cbv beta iota.
  pose proof (normalize_user_slot_ok "author" (List.length h) (h ++ [d])%list)
    as E1.
  destruct (normalize_user_slot "author" _ _) as [[[]|?] h2];
    simpl in E1; [|discriminate E1].
  pose proof (normalize_user_slot_ok "updateAuthor" (List.length h) h2) as E2.
  destruct (normalize_user_slot "updateAuthor" _ _) as [[[]|?] h3];
    simpl in E2; [|discriminate E2].
  simpl. eauto.
Qed.

(** X21: the list mapper on a list of dictionaries returns a list of the
    same length and leaves every object of the store as it was; it cannot
    raise. *)
Theorem normalize_comments_list_total (comments : list value) :
  forall h : heap,
    Forall (fun v => is_dict v = true) comments ->
    let out := normalize_comments_list comments h in
    h `prefix_of` snd out
    /\ exists vs, fst out = Ok vs /\ List.length vs = List.length comments.
Proof.
  induction comments as [|c comments IH]; intros h Hall out; subst out.
  - simpl. split; [reflexivity|]. exists []. auto.
  - apply Forall_cons in Hall as [Hc Hall].
    destruct c; try discriminate Hc.
    simpl normalize_comments_list.
    destruct (normalize_comment_response_ref h l) as [v Hv].
    pose proof (normalize_comment_response_prefix h (VRef l)) as Hp.
    destruct (normalize_comment_response (VRef l) h) as [[v'|e] h1];
      simpl in Hv, Hp; [|discriminate Hv].
    destruct (IH h1 Hall) as (Hp1 & vs & Hvs & Hlen).
    destruct (normalize_comments_list comments h1) as [[vs'|e] h2];
      simpl in Hvs, Hp1; [|discriminate Hvs].
    injection Hvs as ->. simpl. split.
    + etransitivity; eassumption.
    + exists (v' :: vs). simpl. auto.
Qed.

Lemma normalize_comments_list_total_witness :
  let c1 : dict := {[ "id" := VStr "1" ]} in
  let c2 : dict := {[ "id" := VStr "2" ]} in
  let out := normalize_comments_list [VRef 0; VRef 1] [c1; c2] in
  [c1; c2] `prefix_of` snd out
  /\ exists vs, fst out = Ok vs /\ List.length vs = 2.
Proof.
  intros c1 c2 out.
  apply (normalize_comments_list_total [VRef 0; VRef 1] [c1; c2]).
  repeat constructor.
Defined.

End MapperMore.

Module HttpClientMore.
Import HttpClient HttpClientFacts.

Lemma pointwise_length s : forall s', pointwise s s' ->
  String.length s' = String.length s.
Proof.
  induction s as [|a s IH]; intros [|b s'] H; simpl in *; try tauto.
  destruct H as [_ H]. f_equal. apply IH, H.
Qed.

(** X22: the rewrite keeps the length of every URL, and on a URL in which
    no two occurrences of ["/rest/api/3/"] overlap a second pass changes
    nothing: the adapter may see a URL that was already normalised. *)
Theorem normalize_api_path_stable (url : string) (force_v2 : bool) :
  String.length (normalize_api_path url force_v2) = String.length url
  /\ (contains v3_twice url = false ->
      normalize_api_path (normalize_api_path url force_v2) force_v2
      = normalize_api_path url force_v2).
Proof.
  split.
  - unfold normalize_api_path.
    destruct (force_v2 && contains v3 url); [|reflexivity].
    apply pointwise_length.
    apply (str_replace_pointwise (String.length url)). lia.
  - intros Hno. unfold normalize_api_path.
    destruct force_v2; [|reflexivity]. simpl.
    destruct (contains v3 url) eqn:Hc.
    + rewrite (str_replace_no_v3 (String.length url) url) by (lia || exact Hno).
      reflexivity.
    + rewrite Hc. reflexivity.
Qed.

Lemma normalize_api_path_stable_witness :
  String.length (normalize_api_path Examples.comment_url true)
  = String.length Examples.comment_url
  /\ normalize_api_path (normalize_api_path Examples.comment_url true) true
     = normalize_api_path Examples.comment_url true.
Proof.
  destruct (normalize_api_path_stable Examples.comment_url true) as [Hlen Hst].
  split; [exact Hlen|]. apply Hst. vm_compute. reflexivity.
Defined.

End HttpClientMore.

Module SslMore.
Import Session Ssl.

Section Verification.
Variable getenv : string -> option string.
Variable path_exists : string -> bool.
Variable upper lower : string -> string.
Variable netloc : string -> string.

Local Abbreviation configure :=
  (configure_ssl_verification getenv path_exists upper lower netloc).

(** X23: verification switched off.  When the insecure flag of the service
    is set in the environment, or [ssl_verify] is false, and no encrypted
    key is given, the call succeeds and mounts [SSLIgnoreAdapter] for the
    [https://] and then the [http://] prefix of the URL's domain, on top of
    the adapters already there; [verify] stays as it was, so a CA file is
    ignored even when it exists, and the cookies are untouched. *)
Theorem configure_ssl_insecure_mounts
    (service_name url : string) (s : session) (ssl_verify : bool)
    (client_cert client_key ca_file : option string) :
  str_in (lower (default "false" (getenv (upper service_name ++ "_TLS_INSECURE"))))
         ["true"; "1"; "yes"] = true
  \/ ssl_verify = false ->
  let out := configure service_name url s ssl_verify
               client_cert client_key None ca_file in
  fst out = Ok tt
  /\ adapters (snd out)
     = ("http://" ++ netloc url, SSLIgnoreAdapter)
         :: ("https://" ++ netloc url, SSLIgnoreAdapter) :: adapters s
  /\ verify (snd out) = verify s
  /\ cookies (snd out) = cookies s.
Proof.
  intros Hoff out. subst out.
  unfold configure_ssl_verification, configure_verification.
  assert (Hneg :
    negb (if str_in (lower (default "false"
                              (getenv (upper service_name ++ "_TLS_INSECURE"))))
                    ["true"; "1"; "yes"]
          then false else ssl_verify) = true).
  { destruct Hoff as [-> | ->]; [reflexivity|].
    destruct (str_in _ _); reflexivity. }
  destruct client_cert as [c|], client_key as [k|]; cbv zeta;
    rewrite Hneg; simpl; auto.
Qed.

(** X24: verification left on.  When the insecure flag is not set and
    [ssl_verify] is true, no adapter is mounted; [verify] becomes the CA
    file exactly when that is a non-empty path that exists, and is left as
    it was otherwise. *)
Theorem configure_ssl_verified_ca
    (service_name url : string) (s : session)
    (client_cert client_key ca_file : option string) :
  str_in (lower (default "false" (getenv (upper service_name ++ "_TLS_INSECURE"))))
         ["true"; "1"; "yes"] = false ->
  let out := configure service_name url s true
               client_cert client_key None ca_file in
  fst out = Ok tt
  /\ adapters (snd out) = adapters s
  /\ verify (snd out)
     = match ca_file with
       | Some f =>
           if negb (String.eqb f "") && path_exists f
           then VerifyCABundle f else verify s
       | None => verify s
       end.
Proof.
  intros Hflag out. subst out.
  unfold configure_ssl_verification, configure_verification.
  destruct client_cert as [c|], client_key as [k|]; cbv zeta;
    rewrite Hflag; simpl;
    (destruct ca_file as [f|]; [|auto]);
    destruct (String.eqb f ""); simpl; auto;
    destruct (path_exists f); simpl; auto.
Qed.

End Verification.

Lemma configure_ssl_insecure_mounts_witness :
  let out :=
    configure_ssl_verification
      (fun k => if String.eqb k "JIRA_TLS_INSECURE" then Some "yes" else None)
      (fun _ => true) (fun _ => "JIRA") (fun x => x)
      (fun _ => "jira.example.com")
      "Jira" "https://jira.example.com" new_session true
      None None None (Some "/etc/ssl/ca.pem") in
  adapters (snd out)
  = [("http://jira.example.com", SSLIgnoreAdapter);
     ("https://jira.example.com", SSLIgnoreAdapter)]
  /\ verify (snd out) = VerifyDefault.
Proof.
  intros out.
  destruct (configure_ssl_insecure_mounts
              (fun k => if String.eqb k "JIRA_TLS_INSECURE" then Some "yes" else None)
              (fun _ => true) (fun _ => "JIRA") (fun x => x)
              (fun _ => "jira.example.com")
              "Jira" "https://jira.example.com" new_session true
              None None (Some "/etc/ssl/ca.pem"))
    as (_ & Had & Hv & _).
  - left. reflexivity.
  - split; [exact Had | exact Hv].
Defined.

Lemma configure_ssl_verified_ca_witness :
  let out :=
    configure_ssl_verification (fun _ => None) (fun _ => true)
      (fun _ => "JIRA") (fun x => x) (fun _ => "jira.example.com")
      "Jira" "https://jira.example.com" new_session true
      None None None (Some "/etc/ssl/ca.pem") in
  adapters (snd out) = []
  /\ verify (snd out) = VerifyCABundle "/etc/ssl/ca.pem".
Proof.
  intros out.
  destruct (configure_ssl_verified_ca (fun _ => None) (fun _ => true)
              (fun _ => "JIRA") (fun x => x) (fun _ => "jira.example.com")
              "Jira" "https://jira.example.com" new_session
              None None (Some "/etc/ssl/ca.pem"))
    as (_ & Had & Hv).
  - reflexivity.
  - split; [exact Had | exact Hv].
Defined.

End SslMore.

Module CommentsMore.
Import Store Mappers MappersRequest Config Client Comments CommentsRead.
Import Vocabulary StoreFacts MapperFacts.

Lemma slice_to_length {A} (limit : Z) (l : list A) :
  (0 <= limit)%Z ->
  List.length (slice_to limit l) = Nat.min (Z.to_nat limit) (List.length l).
Proof.
  intros H. unfold slice_to.
  destruct (Z.leb_spec 0 limit); [|lia]. apply length_take.
Qed.

Lemma well_formed_comment_inv (h : heap) r :
  well_formed_comment h (VRef r) = true <->
  is_Some (h !! r)
  /\ (dict_get h r "author" = None
      \/ exists a, dict_get h r "author" = Some (VRef a)).
Proof.
  unfold well_formed_comment, dict_get.
  destruct (h !! r) as [d|].
  - destruct (d !! "author") as [[| | | | |a]|]; split;
      try discriminate; try (intros _; split; eauto; fail);
      try (intros [_ [H|[x H]]]; discriminate H); auto.
  - split; [discriminate|]. intros [[x H] _]. discriminate H.
Qed.



Lemma normalize_user_response_is_ref (h : heap) u v :
  fst (normalize_user_response (VRef u) h) = Ok v -> exists x, v = VRef x.
Proof.
  unfold normalize_user_response.
  destruct (negb (truthy h (VRef u))); [intros [= <-]; eauto|].
  destruct (h !! u); simpl; intros [= <-]; eauto.
Qed.

(** The comment mapper keeps a comment well formed. *)
Lemma normalize_comment_response_well_formed (h : heap) r :
  well_formed_comment h (VRef r) = true ->
  exists v,
    fst (normalize_comment_response (VRef r) h) = Ok v
    /\ well_formed_comment (snd (normalize_comment_response (VRef r) h)) v
       = true.
Proof.
  intros Hwf. pose proof Hwf as Hwf0.
  apply well_formed_comment_inv in Hwf as [[d Hd] Hauth].
  rewrite (dict_get_lookup h r d "author" Hd) in Hauth.
  unfold normalize_comment_response.
  destruct (negb (truthy h (VRef r))); [exists (VRef r); auto|].
  rewrite Hd. unfold alloc. cbv beta iota.
  set (n := List.length h). set (h1 := (h ++ [d])%list).
  assert (Hl1 : List.length h1 = S n)
    by (unfold h1, n; rewrite length_app; simpl; lia).
  pose proof (normalize_user_slot_length h1 "author" n) as Hl2.
  pose proof (normalize_user_slot_get h1 "author" n "author"
                ltac:(lia)) as G2.
  rewrite decide_True in G2 by reflexivity.
  unfold h1 at 3, n at 3 in G2. rewrite dict_get_alloc in G2.
  slot_ok "author" n h1. simpl snd in *. rename l into h2.
  pose proof (normalize_user_slot_length h2 "updateAuthor" n) as Hl3.
  pose proof (normalize_user_slot_get h2 "updateAuthor" n "author"
                ltac:(lia)) as G3.
  rewrite decide_False in G3 by discriminate.
  slot_ok "updateAuthor" n h2. simpl snd in *. rename l into h3.
  exists (VRef n). split; [reflexivity|].
  apply well_formed_comment_inv. split.
  - apply lookup_lt_is_Some. lia.
  - rewrite G3, G2. destruct Hauth as [-> | [a ->]]; [left; reflexivity|].
    right. unfold mapped_entry.
    destruct (normalize_user_response_ref h1 a) as [v Hv].
    rewrite Hv.
    destruct (normalize_user_response_is_ref h1 a v Hv) as [x ->]. eauto.
Qed.


Lemma normalize_comments_list_length (comments : list value) :
  forall (h : heap) vs,
    fst (normalize_comments_list comments h) = Ok vs ->
    List.length vs = List.length comments.
Proof.
  induction comments as [|c comments IH]; intros h vs; simpl.
  - intros [= <-]. reflexivity.
  - destruct (normalize_comment_response c h) as [[v|e] h1]; [|discriminate].
    specialize (IH h1).
    destruct (normalize_comments_list comments h1) as [[vs'|e] h2];
      [|discriminate].
    intros [= <-]. simpl. f_equal. apply IH. reflexivity.
Qed.

Lemma normalize_comments_list_prefix (comments : list value) :
  forall h : heap, h `prefix_of` snd (normalize_comments_list comments h).
Proof.
  induction comments as [|c comments IH]; intros h; simpl; [reflexivity|].
  pose proof (normalize_comment_response_prefix h c) as Hp.
  destruct (normalize_comment_response c h) as [[v|e] h1]; simpl in Hp;
    [|exact Hp].
  specialize (IH h1).
  destruct (normalize_comments_list comments h1) as [[vs'|e] h2];
    simpl in *; etransitivity; eassumption.
Qed.

Section WithPreprocessor.
Variable clean_jira_text : value -> result value.
Variable parse_date_str : value -> result value.

Local Abbreviation comment_summary' :=
  (comment_summary clean_jira_text parse_date_str).
Local Abbreviation process_comments' :=
  (process_comments clean_jira_text parse_date_str).

Lemma comment_summary_prefix r (h : heap) :
  h `prefix_of` snd (comment_summary' r h).
Proof.
  unfold comment_summary.
  destruct (author_name h r); [|reflexivity].
  destruct (_clean_text _ _ _); [|reflexivity].
  destruct (parse_date_str _); [|reflexivity].
  destruct (parse_date_str _); [|reflexivity].
  simpl. apply prefix_app_r. reflexivity.
Qed.

Lemma process_comments_prefix (l : list value) :
  forall h : heap, h `prefix_of` snd (process_comments' l h).
Proof.
  induction l as [|c l IH]; intros h; simpl; [reflexivity|].
  destruct c; try reflexivity.
  pose proof (comment_summary_prefix l0 h) as Hp.
  destruct (comment_summary' l0 h) as [[v|e] h1]; simpl in Hp; [|exact Hp].
  specialize (IH h1).
  destruct (process_comments' l h1) as [[vs|e] h2];
    simpl in *; etransitivity; eassumption.
Qed.

Lemma process_comments_length (l : list value) :
  forall (h : heap) vs,
    fst (process_comments' l h) = Ok vs -> List.length vs = List.length l.
Proof.
  induction l as [|c l IH]; intros h vs; simpl.
  - intros [= <-]. reflexivity.
  - destruct c; try discriminate.
    destruct (comment_summary' l0 h) as [[v|e] h1]; [|discriminate].
    specialize (IH h1).
    destruct (process_comments' l h1) as [[vs'|e] h2]; [|discriminate].
    intros [= <-]. simpl. f_equal. apply IH. reflexivity.
Qed.

Hypothesis clean_total : forall v, is_ok (clean_jira_text v) = true.
Hypothesis parse_total : forall v, is_ok (parse_date_str v) = true.



Lemma get_issue_comments_body_bounds c comments (limit : Z) (h : heap) :
  let out := get_issue_comments_body clean_jira_text parse_date_str
               c comments limit h in
  h `prefix_of` snd out
  /\ (forall vs, fst out = Ok vs -> (0 <= limit)%Z ->
                 (Z.of_nat (List.length vs) <= limit)%Z).
Proof.
  unfold get_issue_comments_body.
  destruct comments as [| | | | |r];
    try (split; [reflexivity | discriminate]).
  destruct (h !! r) as [d|]; [|split; [reflexivity | discriminate]].
  destruct (default (VList []) (d !! "comments")) as [| | |text|items|];
    try (split; [reflexivity | discriminate]).
  - destruct (slice_to limit (list_ascii_of_string text)).
    + split; [reflexivity|]. intros vs [= <-] Hl. simpl. lia.
    + destruct (server_6x c); split; reflexivity || discriminate.
  - assert (Hlen : (0 <= limit)%Z ->
                   (Z.of_nat (List.length (slice_to limit items)) <= limit)%Z).
    { intros Hl. rewrite (slice_to_length limit items Hl). lia. }
    remember (slice_to limit items) as raw eqn:Eraw. clear Eraw.
    destruct (server_6x c).
    + pose proof (normalize_comments_list_prefix raw h) as Hp1.
      pose proof (normalize_comments_list_length raw h) as Hl1.
      destruct (normalize_comments_list raw h) as [[raw'|e] h1];
        simpl in Hp1, Hl1; [|split; [exact Hp1 | discriminate]].
      specialize (Hl1 raw' eq_refl).
      pose proof (process_comments_prefix raw' h1) as Hp2.
      pose proof (process_comments_length raw' h1) as Hl2.
      split; [etransitivity; eassumption|].
      intros vs Hvs Hl. rewrite (Hl2 vs Hvs), Hl1. auto.
    + pose proof (process_comments_prefix raw h) as Hp2.
      pose proof (process_comments_length raw h) as Hl2.
      split; [exact Hp2|].
      intros vs Hvs Hl. rewrite (Hl2 vs Hvs). auto.
Qed.

End WithPreprocessor.



(** X26: whatever [jira.issue_get_comments] answers and whatever the
    collaborators do, [get_issue_comments] changes no existing object,
    raises nothing but a plain [Exception], and for a non-negative [limit]
    never returns more than [limit] comments. *)
Theorem get_issue_comments_bounds
    (clean_jira_text parse_date_str : value -> result value)
    (c : JiraConfig) (comments : value) (limit : Z) (h : heap) :
  let out := get_issue_comments clean_jira_text parse_date_str
               c comments limit h in
  h `prefix_of` snd out
  /\ (forall e, fst out = Raise e -> e = Exception "Error getting comments")
  /\ (forall vs, fst out = Ok vs -> (0 <= limit)%Z ->
                 (Z.of_nat (List.length vs) <= limit)%Z).
Proof.
  intros out. subst out. unfold get_issue_comments.
  destruct (get_issue_comments_body_bounds clean_jira_text parse_date_str
              c comments limit h) as [Hp Hlen].
  destruct (get_issue_comments_body clean_jira_text parse_date_str
              c comments limit h) as [[vs|e] h1]; simpl in *.
  - split; [exact Hp|]. split; [discriminate|]. exact Hlen.
  - split; [exact Hp|]. split; [|discriminate].
    intros e' [= <-]. reflexivity.
Qed.

Lemma get_issue_comments_bounds_witness :
  let out := get_issue_comments (fun v => Ok v) (fun v => Ok v)
               Examples.cloud_config (VList []) 50 [] in
  fst out = Raise (Exception "Error getting comments")
  /\ [] `prefix_of` snd out.
Proof.
  intros out.
  destruct (get_issue_comments_bounds (fun v => Ok v) (fun v => Ok v)
              Examples.cloud_config (VList []) 50 []) as (Hp & He & _).
  fold out in Hp, He.
  assert (Hr : exists e, fst out = Raise e) by (eexists; reflexivity).
  destruct Hr as [e Hr]. split.
  - rewrite Hr. f_equal. apply He, Hr.
  - exact Hp.
Defined.

(** *** [get_comment] *)

Lemma jira_call_store_prefix e w :
  store w `prefix_of` store (snd (jira_call e w)).
Proof.
  unfold jira_call. simpl.
  destruct (api_replies w) as [|[d|v|x] rest]; simpl; try reflexivity.
  apply prefix_app_r. reflexivity.
Qed.

Lemma jira_call_cookie_session e w :
  cookie_session (snd (jira_call e w)) = cookie_session w.
Proof.
  unfold jira_call. simpl.
  destruct (api_replies w) as [|[d|v|x] rest]; reflexivity.
Qed.

(** X27: every call of [get_comment] sends exactly one request, a GET of
    [/rest/api/3/issue/<key>/comment/<id>] (the version 3 path also on
    Server 6.x, where the adapter rewrites it), changes no existing object,
    leaves the cached session token alone, and raises nothing but a plain
    [Exception]: there is no retry and no session refresh, whatever the
    answer is. *)
Theorem get_comment_one_request
    (clean_jira_text parse_date_str : value -> result value)
    (c : JiraConfig) (issue_key comment_id : string) (w : world) :
  let out := get_comment clean_jira_text parse_date_str
               c issue_key comment_id w in
  trace (snd out)
  = (trace w ++ [EvRequest GET ("/rest/api/3/issue/" ++ issue_key
                                  ++ "/comment/" ++ comment_id) ∅ false])%list
  /\ store w `prefix_of` store (snd out)
  /\ cookie_session (snd out) = cookie_session w
  /\ (forall e, fst out = Raise e -> e = Exception "Error getting comment").
Proof.
  intros out. subst out. unfold get_comment, get_comment_body.
  set (url := "/rest/api/3/issue/" ++ issue_key ++ "/comment/" ++ comment_id).
  pose proof (CommentsFacts.jira_call_trace (EvRequest GET url ∅ false) w)
    as Ht.
  pose proof (jira_call_store_prefix (EvRequest GET url ∅ false) w) as Hp.
  pose proof (jira_call_cookie_session (EvRequest GET url ∅ false) w) as Hc.
  destruct (jira_call (EvRequest GET url ∅ false) w) as [[v|x] w1];
    simpl in Ht, Hp, Hc;
    [|simpl; repeat split; auto; intros e [= <-]; reflexivity].
  destruct v as [| | | | |l];
    try (simpl; repeat split; auto; intros e [= <-]; reflexivity).
  pose proof (normalize_comment_response_prefix (store w1) (VRef l)) as Hp1.
  destruct (if server_6x c
            then normalize_comment_response (VRef l) (store w1)
            else (Ok (VRef l), store w1)) as [nr h2] eqn:Enr.
  assert (Hp2 : store w `prefix_of` h2).
  { destruct (server_6x c).
    - rewrite Enr in Hp1. simpl in Hp1. etransitivity; eassumption.
    - injection Enr as _ <-. exact Hp. }
  destruct nr as [[| | | | |r]|x];
    try (simpl; repeat split; auto; intros e [= <-]; reflexivity).
  pose proof (comment_summary_prefix clean_jira_text parse_date_str r h2)
    as Hp3.
  destruct (comment_summary clean_jira_text parse_date_str r h2)
    as [[v|e] h3]; simpl in Hp3; simpl.
  - repeat split; auto; [etransitivity; eassumption | discriminate].
  - repeat split; auto; [etransitivity; eassumption|].
    intros e' [= <-]. reflexivity.
Qed.

Lemma get_comment_one_request_witness :
  let out := get_comment (fun v => Ok v) (fun v => Ok v)
               Examples.cookie_config "PROJ-123" "10001"
               (Examples.active_world [] []
                  [ReplyRaises (HTTPError 401)]) in
  trace (snd out)
  = [EvRequest GET "/rest/api/3/issue/PROJ-123/comment/10001" ∅ false]
  /\ fst out = Raise (Exception "Error getting comment")
  /\ cookie_session (snd out) = Some "abc".
Proof.
  intros out.
  destruct (get_comment_one_request (fun v => Ok v) (fun v => Ok v)
              Examples.cookie_config "PROJ-123" "10001"
              (Examples.active_world [] [] [ReplyRaises (HTTPError 401)]))
    as (Ht & _ & Hc & He).
  fold out in Ht, Hc, He.
  split; [exact Ht|]. split; [|exact Hc].
  assert (Hr : exists e, fst out = Raise e) by (eexists; reflexivity).
  destruct Hr as [e Hr]. rewrite Hr. f_equal. apply He, Hr.
Defined.

(** The chain of names on an author without [displayName] and [name]. *)
Lemma author_name_account_id (h : heap) r a :
  dict_get h r "author" = Some (VRef a) ->
  dict_get h a "displayName" = None ->
  dict_get h a "name" = None ->
  author_name h r
  = Ok (py_or h (get_or_none h a "accountId") (VStr "Unknown")).
Proof.
  intros Ha Hdn Hn. unfold author_name, get_or_none.
  rewrite Ha, Hdn, Hn. reflexivity.
Qed.

(** The summary carries what the chain of names gives. *)
Lemma comment_summary_author
    (clean_jira_text parse_date_str : value -> result value) r (h : heap) v :
  (forall v, is_ok (clean_jira_text v) = true) ->
  (forall v, is_ok (parse_date_str v) = true) ->
  author_name h r = Ok v ->
  exists h',
    comment_summary clean_jira_text parse_date_str r h
    = (Ok (VRef (List.length h)), h')
    /\ dict_get h' (List.length h) "author" = Some v.
Proof.
  intros Hc Hd Ha. unfold comment_summary. rewrite Ha.
  assert (Hb : exists b, _clean_text clean_jira_text h
                 (default (VStr "") (dict_get h r "body")) = Ok b).
  { unfold _clean_text. destruct (negb (truthy h _)); [eauto|].
    specialize (Hc (default (VStr "") (dict_get h r "body"))).
    destruct (clean_jira_text _); [eauto|discriminate]. }
  destruct Hb as [b ->].
  pose proof (Hd (get_or_none h r "created")) as H1.
  destruct (parse_date_str (get_or_none h r "created")); [|discriminate].
  pose proof (Hd (get_or_none h r "updated")) as H2.
  destruct (parse_date_str (get_or_none h r "updated")); [|discriminate].
  unfold alloc. eexists. split; [reflexivity|].
  rewrite dict_get_alloc. apply lookup_insert_eq.
Qed.

(** On Server 6.x the author of the normalised comment is a copy with the
    key as account id. *)
Lemma normalize_comment_response_author_key (h : heap) r d a ad s :
  h !! r = Some d -> d !! "author" = Some (VRef a) ->
  h !! a = Some ad ->
  ad !! "displayName" = None -> ad !! "name" = None ->
  ad !! "accountId" = None -> ad !! "key" = Some (VStr s) -> s <> "" ->
  exists n a' h',
    normalize_comment_response (VRef r) h = (Ok (VRef n), h')
    /\ h `prefix_of` h'
    /\ dict_get h' n "author" = Some (VRef a')
    /\ dict_get h' a' "displayName" = None
    /\ dict_get h' a' "name" = None
    /\ dict_get h' a' "accountId" = Some (VStr s).
Proof.
  intros Hr Hauth Ha Hdn Hn Hacc Hkey Hs.
  assert (Hd : d <> ∅).
  { intros ->. rewrite lookup_empty in Hauth. discriminate. }
  assert (Had : ad <> ∅).
  { intros ->. rewrite lookup_empty in Hkey. discriminate. }
  unfold normalize_comment_response.
  rewrite (truthy_dict h r d Hr Hd), Hr. simpl negb. cbv iota.
  unfold alloc. cbv beta iota.
  set (n := List.length h). set (h1 := (h ++ [d])%list).
  assert (Hl1 : List.length h1 = S n)
    by (unfold h1, n; rewrite length_app; simpl; lia).
  assert (Ha1 : h1 !! a = Some ad) by (apply lookup_app_l_Some, Ha).
  (* the author slot *)
  unfold normalize_user_slot at 1.
  unfold h1 at 1, n at 1. rewrite dict_get_alloc, Hauth. fold h1. fold n.
  destruct (normalize_user_response_lookup h1 a ad Ha1 Had)
    as (Hok & Hp2 & Hsome & Hid & _ & Hoth).
  rewrite Hl1 in Hok, Hsome, Hid, Hoth.
  destruct (normalize_user_response (VRef a) h1) as [[v|e] h2];
    simpl in Hok, Hp2, Hsome, Hid, Hoth; [|discriminate Hok].
  injection Hok as ->.
  rewrite Hacc in Hid.
  assert (Hid' : dict_get h2 (S n) "accountId" = Some (VStr s)).
  { rewrite Hid. unfold expected_account_id, truthy_entry.
    rewrite Hn, Hkey. simpl.
    destruct (String.eqb_spec s ""); [contradiction|reflexivity]. }
  pose proof (prefix_length _ _ Hp2) as Hlen2.
  set (h3 := dict_set h2 n "author" (VRef (S n))).
  assert (Hl3 : List.length h3 = List.length h2) by apply dict_set_length.
  assert (Hn3 : is_Some (h2 !! n)) by (apply lookup_lt_is_Some; lia).
  pose proof (normalize_user_slot_length h3 "updateAuthor" n) as Hl4.
  pose proof (normalize_user_slot_get h3 "updateAuthor" n "author"
                ltac:(lia)) as G4.
  rewrite decide_False in G4 by discriminate.
  assert (HSn : S n < List.length h3).
  { rewrite Hl3. apply lookup_lt_is_Some, Hsome. }
  pose proof (normalize_user_slot_lookup_ne h3 "updateAuthor" n (S n)
                HSn ltac:(lia)) as L4.
  assert (Hpre3 : h `prefix_of` h3).
  { apply dict_set_prefix; [|unfold n; lia].
    etransitivity; [|exact Hp2]. apply prefix_app_r. reflexivity. }
  pose proof (normalize_user_slot_prefix h h3 "updateAuthor" n Hpre3
                ltac:(unfold n; lia)) as Hpre.
  slot_ok "updateAuthor" n h3. simpl snd in *. rename l into h4.
  exists n, (S n), h4. split; [reflexivity|]. split; [exact Hpre|].
  assert (Hget : forall k, dict_get h4 (S n) k = dict_get h2 (S n) k).
  { intros k. unfold dict_get. rewrite L4. unfold h3.
    rewrite dict_set_lookup_ne by lia. reflexivity. }
  split.
  { rewrite G4. unfold h3. rewrite dict_get_set by exact Hn3.
    rewrite decide_True; reflexivity. }
  rewrite !Hget. split; [|split].
  - rewrite Hoth by discriminate. exact Hdn.
  - rewrite Hoth by discriminate. exact Hn.
  - exact Hid'.
Qed.

(** X28: the author of a comment that is identified by [key] only.  When
    the answer to [get_comment] has an author with a non-empty [key] and
    no [displayName], [name] or [accountId], and the text cleaner and the
    date parser do not raise, the call returns a summary; on Server 6.x
    its author is the key, which the comment mapper has put under
    [accountId] of a copy; on Cloud, where the mapper is not applied, it is
    ["Unknown"]. *)
Theorem get_comment_author_key
    (clean_jira_text parse_date_str : value -> result value)
    (c : JiraConfig) (issue_key comment_id : string) (w : world)
    (d : dict) (rest : list reply) (a : loc) (ad : dict) (s : string) :
  (forall v, is_ok (clean_jira_text v) = true) ->
  (forall v, is_ok (parse_date_str v) = true) ->
  api_replies w = ReplyFresh d :: rest ->
  d !! "author" = Some (VRef a) -> store w !! a = Some ad ->
  ad !! "displayName" = None -> ad !! "name" = None ->
  ad !! "accountId" = None -> ad !! "key" = Some (VStr s) -> s <> "" ->
  exists r w',
    get_comment clean_jira_text parse_date_str c issue_key comment_id w
    = (Ok (VRef r), w')
    /\ dict_get (store w') r "author"
       = Some (VStr (if server_6x c then s else "Unknown")).
Proof.
  intros Hc Hd Hrep Hauth Ha Hdn Hn Hacc Hkey Hs.
  unfold get_comment, get_comment_body, jira_call.
  simpl api_replies. rewrite Hrep. unfold receive, alloc. simpl store.
  cbv beta iota. simpl store.
  set (h := store w). set (n0 := List.length h).
  set (h1 := (h ++ [d])%list).
  assert (Hn0 : h1 !! n0 = Some d) by apply lookup_alloc_new.
  assert (Ha1 : h1 !! a = Some ad) by (apply lookup_app_l_Some, Ha).
  destruct (server_6x c).
  - destruct (normalize_comment_response_author_key h1 n0 d a ad s
                Hn0 Hauth Ha1 Hdn Hn Hacc Hkey Hs)
      as (n & a' & h2 & -> & _ & Hau & Hdn2 & Hn2 & Hacc2).
    pose proof (author_name_account_id h2 n a' Hau Hdn2 Hn2) as Hname.
    unfold get_or_none in Hname. rewrite Hacc2 in Hname.
    simpl default in Hname. unfold py_or in Hname. simpl truthy in Hname.
    destruct (String.eqb_spec s ""); [contradiction|]. simpl in Hname.
    destruct (comment_summary_author clean_jira_text parse_date_str
                n h2 (VStr s) Hc Hd Hname) as (h3 & -> & Hres).
    eexists _, _. split; [reflexivity|]. exact Hres.
  - assert (Hau : dict_get h1 n0 "author" = Some (VRef a))
      by (rewrite (dict_get_lookup h1 n0 d _ Hn0); exact Hauth).
    pose proof (author_name_account_id h1 n0 a Hau
                  ltac:(rewrite (dict_get_lookup h1 a ad _ Ha1); exact Hdn)
                  ltac:(rewrite (dict_get_lookup h1 a ad _ Ha1); exact Hn))
      as Hname.
    unfold get_or_none in Hname.
    rewrite (dict_get_lookup h1 a ad _ Ha1), Hacc in Hname.
    simpl in Hname.
    destruct (comment_summary_author clean_jira_text parse_date_str
                n0 h1 (VStr "Unknown") Hc Hd Hname) as (h3 & -> & Hres).
    eexists _, _. split; [reflexivity|]. exact Hres.
Qed.

Lemma get_comment_author_key_witness :
  let author : dict := {[ "key" := VStr "JIRAUSER10100" ]} in
  let comment : dict := {[ "author" := VRef 0 ]} in
  let w := mkWorld [author] None Session.new_session [] [] []
                   [ReplyFresh comment] in
  (exists r w',
      get_comment (fun v => Ok v) (fun v => Ok v)
        Examples.cookie_config "PROJ-123" "10001" w = (Ok (VRef r), w')
      /\ dict_get (store w') r "author" = Some (VStr "JIRAUSER10100"))
  /\ (exists r w',
      get_comment (fun v => Ok v) (fun v => Ok v)
        Examples.cloud_config "PROJ-123" "10001" w = (Ok (VRef r), w')
      /\ dict_get (store w') r "author" = Some (VStr "Unknown")).
Proof.
  intros author comment w. split.
  - apply (get_comment_author_key (fun v => Ok v) (fun v => Ok v)
             Examples.cookie_config "PROJ-123" "10001" w comment [] 0 author
             "JIRAUSER10100");
      try reflexivity; discriminate.
  - apply (get_comment_author_key (fun v => Ok v) (fun v => Ok v)
             Examples.cloud_config "PROJ-123" "10001" w comment [] 0 author
             "JIRAUSER10100");
      try reflexivity; discriminate.
Defined.

End CommentsMore.

Module CommentsFallback.
Import Store Mappers Config Client Comments Vocabulary.
Import StoreFacts MapperFacts CommentsMore.

(** With a converter that raises on it, and with one that gives it back, a
    non-empty text goes through [_markdown_to_jira] unchanged. *)
Lemma markdown_to_jira_raises (markdown_to_jira : string -> result string)
    (text : string) (e : exn) :
  text <> "" -> markdown_to_jira text = Raise e ->
  _markdown_to_jira markdown_to_jira text = text.
Proof.
  intros Hne Hraise. unfold _markdown_to_jira.
  destruct (String.eqb_spec text ""); [contradiction|].
  rewrite Hraise. reflexivity.
Qed.

Lemma markdown_to_jira_unchanged (text : string) :
  _markdown_to_jira (fun _ => Ok text) text = text.
Proof.
  unfold _markdown_to_jira.
  destruct (String.eqb_spec text "") as [->|]; reflexivity.
Qed.

(** The comment mapper keeps every key but the two user slots. *)
Lemma normalize_comment_response_other_keys (h : heap) r0 d r k :
  h !! r0 = Some d ->
  fst (normalize_comment_response (VRef r0) h) = Ok (VRef r) ->
  k <> "author" -> k <> "updateAuthor" ->
  dict_get (snd (normalize_comment_response (VRef r0) h)) r k = d !! k.
Proof.
  intros Hd. unfold normalize_comment_response.
  destruct (negb (truthy h (VRef r0))).
  { simpl. intros [= <-] _ _. apply dict_get_lookup, Hd. }
  rewrite Hd. unfold alloc. cbv beta iota.
  set (n := List.length h). set (h1 := (h ++ [d])%list).
  assert (Hl1 : List.length h1 = S n)
    by (unfold h1, n; rewrite length_app; simpl; lia).
  pose proof (normalize_user_slot_length h1 "author" n) as Hl2.
  pose proof (fun k' => normalize_user_slot_get h1 "author" n k'
                          ltac:(lia)) as G2.
  slot_ok "author" n h1. simpl snd in *. rename l into h2.
  pose proof (fun k' => normalize_user_slot_get h2 "updateAuthor" n k'
                          ltac:(lia)) as G3.
  slot_ok "updateAuthor" n h2. simpl snd in *. rename l into h3.
  simpl. intros [= <-] Ha Hu.
  rewrite G3, decide_False by congruence.
  rewrite G2, decide_False by congruence.
  apply dict_get_alloc.
Qed.

Lemma author_name_ok (h : heap) r :
  well_formed_comment h (VRef r) = true -> exists v, author_name h r = Ok v.
Proof.
  intros Hwf. apply well_formed_comment_inv in Hwf as [_ [Ha | [a Ha]]];
    unfold author_name; rewrite Ha; eauto.
Qed.

Lemma author_display_name_ok (h : heap) r :
  well_formed_comment h (VRef r) = true ->
  exists v, author_display_name h r = Ok v.
Proof.
  intros Hwf. apply well_formed_comment_inv in Hwf as [_ [Ha | [a Ha]]];
    unfold author_display_name; rewrite Ha; eauto.
Qed.

Lemma clean_text_ok (clean_jira_text : value -> result value) (h : heap) v :
  (forall v, is_ok (clean_jira_text v) = true) ->
  exists b, _clean_text clean_jira_text h v = Ok b.
Proof.
  intros Hc. unfold _clean_text. destruct (negb (truthy h v)); [eauto|].
  specialize (Hc v). destruct (clean_jira_text v); [eauto|discriminate].
Qed.

(** A freshly decoded answer whose [author] is absent or a dictionary is a
    well-formed comment of the extended store. *)
Lemma fresh_well_formed (h : heap) (d : dict) :
  d !! "author" = None \/ (exists a, d !! "author" = Some (VRef a)) ->
  well_formed_comment (h ++ [d])%list (VRef (List.length h)) = true.
Proof.
  intros Ha. apply well_formed_comment_inv.
  rewrite lookup_alloc_new, dict_get_alloc. split; [eauto | exact Ha].
Qed.

(** [add_comment] on a well-formed answer returns a summary with the id of
    the answer. *)
Lemma add_comment_returns
    (markdown_to_jira : string -> result string)
    (clean_jira_text parse_date_str : value -> result value)
    (c : JiraConfig) (issue_key comment : string) (visibility : option loc)
    (w : world) (d : dict) (rest : list reply) :
  (forall v, is_ok (clean_jira_text v) = true) ->
  (forall v, is_ok (parse_date_str v) = true) ->
  api_replies w = ReplyFresh d :: rest ->
  d !! "author" = None \/ (exists a, d !! "author" = Some (VRef a)) ->
  exists l w',
    add_comment markdown_to_jira clean_jira_text parse_date_str
      c issue_key comment visibility w = (Ok (VRef l), w')
    /\ List.length (store w) < l
    /\ dict_get (store w') l "id" = Some (default VNone (d !! "id"))
    /\ api_replies w' = rest.
Proof.
  intros Hc Hd Hrep Hauth.
  unfold add_comment, add_comment_body, jira_call.
  simpl api_replies. rewrite Hrep. unfold receive, alloc. simpl store.
  cbv beta iota. simpl store.
  set (h := store w). set (n0 := List.length h).
  set (h1 := (h ++ [d])%list).
  assert (Hn0 : h1 !! n0 = Some d) by apply lookup_alloc_new.
  assert (Hl1 : List.length h1 = S n0)
    by (unfold h1, n0; rewrite length_app; simpl; lia).
  pose proof (fresh_well_formed h d Hauth) as Hwf. fold h1 n0 in Hwf.
  assert (Hnr : exists r h2,
             (if server_6x c
              then normalize_comment_response (VRef n0) h1
              else (Ok (VRef n0), h1)) = (Ok (VRef r), h2)
             /\ well_formed_comment h2 (VRef r) = true
             /\ S n0 <= List.length h2
             /\ dict_get h2 r "id" = d !! "id").
  { destruct (server_6x c).
    - destruct (normalize_comment_response_well_formed h1 n0 Hwf)
        as (v & Hv & Hwf2).
      pose proof (normalize_comment_response_prefix h1 (VRef n0)) as Hp.
      apply prefix_length in Hp.
      destruct v as [| | | | |r]; try discriminate Hwf2.
      pose proof (normalize_comment_response_other_keys h1 n0 d r "id"
                    Hn0 Hv ltac:(discriminate) ltac:(discriminate)) as Hid.
      destruct (normalize_comment_response (VRef n0) h1) as [nr h2].
      simpl in Hv, Hwf2, Hp, Hid. subst nr.
      exists r, h2. repeat split; auto. lia.
    - exists n0, h1. repeat split; auto; [lia|].
      apply dict_get_lookup, Hn0. }
  destruct Hnr as (r & h2 & -> & Hwf2 & Hlen & Hid).
  destruct (author_name_ok h2 r Hwf2) as [author ->].
  destruct (clean_text_ok clean_jira_text h2
              (default (VStr "") (dict_get h2 r "body")) Hc) as [b ->].
  pose proof (Hd (get_or_none h2 r "created")) as Hcr.
  destruct (parse_date_str (get_or_none h2 r "created")) as [created|];
    [|discriminate Hcr].
  eexists _, _. split; [reflexivity|]. simpl store. split; [lia|].
  split; [|reflexivity].
  rewrite dict_get_alloc.
  rewrite !lookup_insert_ne by discriminate.
  rewrite lookup_insert_eq. unfold get_or_none. rewrite Hid. reflexivity.
Qed.

(** [edit_comment] likewise. *)
Lemma edit_comment_returns
    (markdown_to_jira : string -> result string)
    (clean_jira_text parse_date_str : value -> result value)
    (issue_key comment_id comment : string) (visibility : option loc)
    (w : world) (d : dict) (rest : list reply) :
  (forall v, is_ok (clean_jira_text v) = true) ->
  (forall v, is_ok (parse_date_str v) = true) ->
  api_replies w = ReplyFresh d :: rest ->
  d !! "author" = None \/ (exists a, d !! "author" = Some (VRef a)) ->
  exists l w',
    edit_comment markdown_to_jira clean_jira_text parse_date_str
      issue_key comment_id comment visibility w = (Ok (VRef l), w')
    /\ List.length (store w) < l
    /\ dict_get (store w') l "id" = Some (default VNone (d !! "id"))
    /\ api_replies w' = rest.
Proof.
  intros Hc Hd Hrep Hauth.
  unfold edit_comment, edit_comment_body, jira_call.
  simpl api_replies. rewrite Hrep. unfold receive, alloc. simpl store.
  cbv beta iota zeta. simpl store.
  set (h := store w). set (n0 := List.length h).
  set (h1 := (h ++ [d])%list).
  assert (Hn0 : h1 !! n0 = Some d) by apply lookup_alloc_new.
  assert (Hl1 : List.length h1 = S n0)
    by (unfold h1, n0; rewrite length_app; simpl; lia).
  pose proof (fresh_well_formed h d Hauth) as Hwf. fold h1 n0 in Hwf.
  destruct (clean_text_ok clean_jira_text h1
              (default (VStr "") (dict_get h1 n0 "body")) Hc) as [b ->].
  pose proof (Hd (get_or_none h1 n0 "updated")) as Hup.
  destruct (parse_date_str (get_or_none h1 n0 "updated")) as [updated|];
    [|discriminate Hup].
  destruct (author_display_name_ok h1 n0 Hwf) as [author ->].
  eexists _, _. split; [reflexivity|]. simpl store. split; [lia|].
  split; [|reflexivity].
  rewrite dict_get_alloc.
  rewrite !lookup_insert_ne by discriminate.
  rewrite lookup_insert_eq. unfold get_or_none.
  rewrite (dict_get_lookup h1 n0 d "id" Hn0). reflexivity.
Qed.

(** C8: when the converter raises on a non-empty text, [_markdown_to_jira]
    returns the text as it came, and [add_comment] and [edit_comment] make
    their one call on the Jira API with that text as the comment body.  The
    failure of the converter is not the operation's: each operation ends
    exactly as it does with a converter that hands the text back, and on a
    dictionary answer whose author is absent or a dictionary, with a text
    cleaner and a date parser that do not raise, it returns the summary of
    that answer. *)
Theorem markdown_conversion_fallback
    (markdown_to_jira : string -> result string)
    (clean_jira_text parse_date_str : value -> result value)
    (text : string) (e : exn) :
  text <> "" ->
  markdown_to_jira text = Raise e ->
  _markdown_to_jira markdown_to_jira text = text
  /\ (forall c issue_key visibility w,
        trace (snd (add_comment markdown_to_jira clean_jira_text
                      parse_date_str c issue_key text visibility w))
        = (trace w ++ [EvIssueAddComment issue_key text visibility])%list)
  /\ (forall issue_key comment_id visibility w,
        trace (snd (edit_comment markdown_to_jira clean_jira_text
                      parse_date_str issue_key comment_id text visibility w))
        = (trace w ++ [EvIssueEditComment issue_key comment_id text visibility])%list)
  /\ (forall c issue_key visibility w,
        add_comment markdown_to_jira clean_jira_text parse_date_str
          c issue_key text visibility w
        = add_comment (fun _ => Ok text) clean_jira_text parse_date_str
            c issue_key text visibility w)
  /\ (forall issue_key comment_id visibility w,
        edit_comment markdown_to_jira clean_jira_text parse_date_str
          issue_key comment_id text visibility w
        = edit_comment (fun _ => Ok text) clean_jira_text parse_date_str
            issue_key comment_id text visibility w)
  /\ (forall c issue_key visibility w d rest,
        (forall v, is_ok (clean_jira_text v) = true) ->
        (forall v, is_ok (parse_date_str v) = true) ->
        api_replies w = ReplyFresh d :: rest ->
        d !! "author" = None \/ (exists a, d !! "author" = Some (VRef a)) ->
        exists l w',
          add_comment markdown_to_jira clean_jira_text parse_date_str
            c issue_key text visibility w = (Ok (VRef l), w')
          /\ List.length (store w) < l
          /\ dict_get (store w') l "id" = Some (default VNone (d !! "id"))
          /\ api_replies w' = rest)
  /\ (forall issue_key comment_id visibility w d rest,
        (forall v, is_ok (clean_jira_text v) = true) ->
        (forall v, is_ok (parse_date_str v) = true) ->
        api_replies w = ReplyFresh d :: rest ->
        d !! "author" = None \/ (exists a, d !! "author" = Some (VRef a)) ->
        exists l w',
          edit_comment markdown_to_jira clean_jira_text parse_date_str
            issue_key comment_id text visibility w = (Ok (VRef l), w')
          /\ List.length (store w) < l
          /\ dict_get (store w') l "id" = Some (default VNone (d !! "id"))
          /\ api_replies w' = rest).
Proof.
  intros Hne Hraise.
  pose proof (markdown_to_jira_raises markdown_to_jira text e Hne Hraise)
    as Hmd.
  pose proof (markdown_to_jira_unchanged text) as Hid.
  split; [exact Hmd|]. split; [|split; [|split; [|split; [|split]]]].
  - intros c issue_key visibility w.
    unfold add_comment, add_comment_body. rewrite Hmd.
    pose proof (CommentsFacts.jira_call_trace
                  (EvIssueAddComment issue_key text visibility) w) as Ht.
    destruct (jira_call (EvIssueAddComment issue_key text visibility) w)
      as [[v|x] w1]; simpl in Ht; [|exact Ht].
    destruct v; try exact Ht.
    destruct (if server_6x c
              then Mappers.normalize_comment_response (VRef l) (store w1)
              else (Ok (VRef l), store w1)) as [nr h2].
    destruct nr as [[| | | | |r]|x]; try exact Ht.
    destruct (author_name h2 r); [|exact Ht].
    destruct (_clean_text _ _ _); [|exact Ht].
    destruct (parse_date_str _); exact Ht.
  - intros issue_key comment_id visibility w.
    unfold edit_comment, edit_comment_body. rewrite Hmd.
    pose proof (CommentsFacts.jira_call_trace
                  (EvIssueEditComment issue_key comment_id text visibility) w)
      as Ht.
    destruct (jira_call _ w) as [[v|x] w1]; simpl in Ht; [|exact Ht].
    destruct v; try exact Ht.
    destruct (_clean_text _ _ _); [|exact Ht].
    destruct (parse_date_str _); [|exact Ht].
    destruct (author_display_name _ _); exact Ht.
  - intros c issue_key visibility w.
    unfold add_comment, add_comment_body. rewrite Hmd, Hid. reflexivity.
  - intros issue_key comment_id visibility w.
    unfold edit_comment, edit_comment_body. rewrite Hmd, Hid. reflexivity.
  - intros c issue_key visibility w d rest Hc Hd Hrep Hauth.
    apply (add_comment_returns markdown_to_jira clean_jira_text parse_date_str
             c issue_key text visibility w d rest Hc Hd Hrep Hauth).
  - intros issue_key comment_id visibility w d rest Hc Hd Hrep Hauth.
    apply (edit_comment_returns markdown_to_jira clean_jira_text parse_date_str
             issue_key comment_id text visibility w d rest Hc Hd Hrep Hauth).
Qed.

Lemma markdown_conversion_fallback_witness :
  let failing : string -> result string :=
    fun _ => Raise (Exception "converter failed") in
  let answer : dict := {[ "id" := VStr "10001" ]} in
  let w := mkWorld [] None Session.new_session [] [] [] [ReplyFresh answer] in
  _markdown_to_jira failing "**bold**" = "**bold**"
  /\ trace (snd (add_comment failing (fun v => Ok v) (fun v => Ok v)
                  Examples.cookie_config "PROJ-123" "**bold**" None
                  Examples.empty_world))
     = [EvIssueAddComment "PROJ-123" "**bold**" None]
  /\ (exists l w',
        add_comment failing (fun v => Ok v) (fun v => Ok v)
          Examples.cookie_config "PROJ-123" "**bold**" None w
        = (Ok (VRef l), w')
        /\ dict_get (store w') l "id" = Some (VStr "10001"))
  /\ (exists l w',
        edit_comment failing (fun v => Ok v) (fun v => Ok v)
          "PROJ-123" "10001" "**bold**" None w
        = (Ok (VRef l), w')
        /\ dict_get (store w') l "id" = Some (VStr "10001")).
Proof.
  intros failing answer w.
  destruct (markdown_conversion_fallback failing
              (fun v => Ok v) (fun v => Ok v) "**bold**"
              (Exception "converter failed"))
    as (H1 & H2 & _ & _ & _ & Hadd & Hedit); [discriminate | reflexivity |].
  split; [exact H1|]. split.
  { exact (H2 Examples.cookie_config "PROJ-123" None Examples.empty_world). }
  split.
  - destruct (Hadd Examples.cookie_config "PROJ-123" None w answer [])
      as (l & w' & Hok & _ & Hid & _);
      [reflexivity | reflexivity | reflexivity | left; reflexivity |].
    exists l, w'. split; [exact Hok | exact Hid].
  - destruct (Hedit "PROJ-123" "10001" None w answer [])
      as (l & w' & Hok & _ & Hid & _);
      [reflexivity | reflexivity | reflexivity | left; reflexivity |].
    exists l, w'. split; [exact Hok | exact Hid].
Defined.

End CommentsFallback.
